(** * ptsim: a page-table simulator over 16 KiB of simulated RAM

    Shallow embedding of [ptsim.c] (the complete variant, with
    [kill_process], [store_byte] and [load_byte]) and the properties of
    its allocator, page tables and byte accesses.

    Conventions of the embedding.
    - The global [unsigned char mem[MEM_SIZE]] is a [list Z] threaded
      explicitly through every operation; a cell holds a value in
      [0, 256).
    - C [int]s are [Z].  Every value the code computes from a cell and a
      shift stays far below 2^31, and an [int] argument so large that
      [PTP_OFFSET + proc_num] would overflow indexes outside the array
      anyway.
    - An access [mem[a]] with [a] outside [0, MEM_SIZE) is undefined
      behaviour in C; the embedding returns [None] there, so [Some _]
      always means that the C program ran the operation to its end.
    - The source puts no limit on the array [int data_pages[page_count]]
      that [new_process] declares on its stack; a count the stack cannot
      hold ends the program before it prints.  The embedding takes the
      stack to hold the array up to [STACK_INTS] elements and returns
      [None] for a larger count.
    - A line printed with [printf] is an [event].
    - [main] is given twice: on the commands already parsed ([main]) and
      on the tokens of [argv] ([main_argv], with [atoi] a parameter); the
      loop of the older variant, which knows [pfm], [ppt] and [np] only,
      is [main_loop_ptsim]. *)

From stdpp Require Import numbers option list strings.

#[local] Open Scope Z_scope.

(** ** Constants ([#define]s of the source) *)

Definition MEM_SIZE : Z := 16384.
Definition PAGE_SIZE : Z := 256.
Definition PAGE_COUNT : Z := 64.
Definition PAGE_SHIFT : Z := 8.
Definition PTP_OFFSET : Z := 64.

(** Not a [#define] of the source: the largest [page_count] for which the
    array [int data_pages[page_count]] of [new_process] is taken to fit
    on the stack, 65536 [int]s (256 KiB), below the default stack limit
    of the common platforms.  The program itself performs no check. *)
Definition STACK_INTS : Z := 65536.

(** ** The simulated RAM *)

(** [mem[a]] as an rvalue. *)
Definition mem_get (m : list Z) (a : Z) : option Z :=
  if bool_decide (0 ≤ a < MEM_SIZE) then m !! Z.to_nat a else None.

(** [mem[a] = v]; the assignment converts [v] to [unsigned char]. *)
Definition mem_set (m : list Z) (a v : Z) : option (list Z) :=
  if bool_decide (0 ≤ a < MEM_SIZE)
  then Some (<[Z.to_nat a := v `mod` 256]> m)
  else None.

(** [get_address]: [(page << PAGE_SHIFT) | offset].  The shift of the C
    [int] is the shift in [Z] for [0 ≤ page < 2^23]; the program calls
    the function with 0 or a byte of [mem] as the page. *)
Definition get_address (page offset : Z) : Z :=
  Z.lor (page ≪ PAGE_SHIFT) offset.

(** ** Output *)

Inductive event : Type :=
  | OOM_page_table (proc_num : Z)
      (* "OOM: proc %d: page table\n" *)
  | OOM_data_page (proc_num : Z)
      (* "OOM: proc %d: data page\n" *)
  | Invalid_virtual_address
      (* "Error: Invalid virtual address\n" *)
  | Store_line (proc_num vaddr phys_addr val : Z)
      (* "Store proc %d: %d => %d, value=%d\n" *)
  | Load_line (proc_num vaddr phys_addr val : Z)
      (* "Load proc %d: %d => %d, value=%d\n" *)
  | Free_map_dump (used : list bool)
      (* the 64 marks of print_page_free_map, '#' = true, '.' = false *)
  | Page_table_dump (proc_num : Z) (entries : list (Z * Z)).
      (* the "%02x -> %02x" lines of print_page_table *)

(** ** Operations *)

(** [initialize_mem]: [memset] to zero, then mark page 0 allocated.  The
    one index it writes is the constant [get_address(0, 0)], inside the
    array, so the function is total. *)
Definition initialize_mem : list Z :=
  let zpfree_addr := get_address 0 0 in
  <[Z.to_nat zpfree_addr := 1]> (replicate (Z.to_nat MEM_SIZE) 0).

(** [get_page_table]: the directory byte of a process. *)
Definition get_page_table (m : list Z) (proc_num : Z) : option Z :=
  let ptp_addr := get_address 0 (PTP_OFFSET + proc_num) in
  mem_get m ptp_addr.

(** The scan [for (i = 0; i < PAGE_COUNT; i++) if (mem[addr] == 0) {...; break;}]
    that [new_process] runs once for the page table and once per data page
    (lines 53-60 and 73-81, the same loop twice).  [n] counts the
    iterations that remain, [i] is the loop variable; the result is the
    final value of [pt_page] / [allocated], which starts at -1. *)
Fixpoint scan_from (n : nat) (i : Z) (m : list Z) : option (Z * list Z) :=
  match n with
  | O => Some (-1, m)
  | S n' =>
      let addr := get_address 0 i in
      b ← mem_get m addr;
      if b =? 0
      then m' ← mem_set m addr 1; Some (i, m')
      else scan_from n' (i + 1) m
  end.

Definition scan_free_page (m : list Z) : option (Z * list Z) :=
  scan_from (Z.to_nat PAGE_COUNT) 0 m.

(** The outer loop over [j] of lines 71-87.  [data_pages] is the local
    array, [None] in the first component is the early [return] after the
    "data page" message. *)
Fixpoint alloc_data_pages (n : nat) (j : Z) (m : list Z) (data_pages : list Z)
  : option (option (list Z) * list Z) :=
  match n with
  | O => Some (Some data_pages, m)
  | S n' =>
      '(allocated, m') ← scan_free_page m;
      if allocated =? -1
      then Some (None, m')
      else alloc_data_pages n' (j + 1) m' (<[Z.to_nat j := allocated]> data_pages)
  end.

(** The loop of lines 95-99 that fills the page table. *)
Fixpoint write_entries (n : nat) (i : Z) (pt_addr : Z) (data_pages : list Z)
    (m : list Z) : option (list Z) :=
  match n with
  | O => Some m
  | S n' =>
      d ← data_pages !! Z.to_nat i;
      m' ← (if d =? -1 then Some m else mem_set m (pt_addr + i) d);
      write_entries n' (i + 1) pt_addr data_pages m'
  end.

(** [new_process].  The variable-length array [int data_pages[page_count]]
    is declared after the page-table scan; a negative length is undefined,
    a zero length is accepted the way gcc and clang do, and a length
    above [STACK_INTS] is taken to overflow the stack. *)
Definition new_process (m : list Z) (proc_num page_count : Z)
  : option (list Z * list event) :=
  '(pt_page, m1) ← scan_free_page m;
  if pt_page =? -1 then Some (m1, [OOM_page_table proc_num])
  else if page_count <? 0 then None
  else if STACK_INTS <? page_count then None
  else
    let n := Z.to_nat page_count in
    '(r, m2) ← alloc_data_pages n 0 m1 (replicate n (-1));
    match r with
    | None => Some (m2, [OOM_data_page proc_num])
    | Some data_pages =>
        let ptp_addr := get_address 0 (PTP_OFFSET + proc_num) in
        m3 ← mem_set m2 ptp_addr pt_page;
        let pt_addr := get_address pt_page 0 in
        m4 ← write_entries n 0 pt_addr data_pages m3;
        Some (m4, [])
    end.

(** The sweep of lines 111-116; it reads the table from the memory it is
    itself clearing. *)
Fixpoint free_entries (n : nat) (i : Z) (pt_addr : Z) (m : list Z)
  : option (list Z) :=
  match n with
  | O => Some m
  | S n' =>
      data_page ← mem_get m (pt_addr + i);
      m' ← (if data_page =? 0 then Some m
            else mem_set m (get_address 0 data_page) 0);
      free_entries n' (i + 1) pt_addr m'
  end.

(** [kill_process]. It prints nothing. *)
Definition kill_process (m : list Z) (proc_num : Z)
  : option (list Z * list event) :=
  pt_page ← get_page_table m proc_num;
  let pt_addr := get_address pt_page 0 in
  m1 ← free_entries (Z.to_nat PAGE_COUNT) 0 pt_addr m;
  m2 ← mem_set m1 (get_address 0 pt_page) 0;
  m3 ← mem_set m2 (get_address 0 (PTP_OFFSET + proc_num)) 0;
  Some (m3, []).

(** [store_byte]. *)
Definition store_byte (m : list Z) (proc_num vaddr val : Z)
  : option (list Z * list event) :=
  pt_page ← get_page_table m proc_num;
  let virtual_page := vaddr ≫ PAGE_SHIFT in
  let offset := Z.land vaddr 255 in
  let pt_addr := get_address pt_page virtual_page in
  phys_page ← mem_get m pt_addr;
  if phys_page =? 0 then Some (m, [Invalid_virtual_address])
  else
    let phys_addr := get_address phys_page offset in
    m' ← mem_set m phys_addr val;
    Some (m', [Store_line proc_num vaddr phys_addr val]).

(** [load_byte]; it never writes [mem]. *)
Definition load_byte (m : list Z) (proc_num vaddr : Z) : option (list event) :=
  pt_page ← get_page_table m proc_num;
  let virtual_page := vaddr ≫ PAGE_SHIFT in
  let offset := Z.land vaddr 255 in
  let pt_addr := get_address pt_page virtual_page in
  phys_page ← mem_get m pt_addr;
  if phys_page =? 0 then Some [Invalid_virtual_address]
  else
    let phys_addr := get_address phys_page offset in
    val ← mem_get m phys_addr;
    Some [Load_line proc_num vaddr phys_addr val].

(** The test [mem[addr] == 0 ? '.' : '#'] of [print_page_free_map], for the
    64 pages in order: [true] is a used page. *)
Definition free_map_snapshot (m : list Z) : option (list bool) :=
  mapM (λ i, b ← mem_get m (get_address 0 i); Some (negb (b =? 0)))
       (seqZ 0 64).

Definition print_page_free_map (m : list Z) : option (list event) :=
  used ← free_map_snapshot m; Some [Free_map_dump used].

(** The pairs printed by [print_page_table]. *)
Definition page_table_snapshot (m : list Z) (proc_num : Z)
  : option (list (Z * Z)) :=
  page_table ← get_page_table m proc_num;
  rows ← mapM (λ i, page ← mem_get m (get_address page_table i); Some (i, page))
              (seqZ 0 PAGE_COUNT);
  Some (List.filter (λ r, negb (r.2 =? 0)) rows).

Definition print_page_table (m : list Z) (proc_num : Z) : option (list event) :=
  rows ← page_table_snapshot m proc_num; Some [Page_table_dump proc_num rows].

(** ** The command line *)

(** One parsed command of [main]'s loop; the numbers are what [atoi]
    returned. *)
Inductive command : Type :=
  | Pfm
  | Ppt (proc_num : Z)
  | Np (proc_num page_count : Z)
  | Kp (proc_num : Z)
  | Sb (proc_num vaddr val : Z)
  | Lb (proc_num vaddr : Z).

Definition exec (m : list Z) (c : command) : option (list Z * list event) :=
  match c with
  | Pfm => out ← print_page_free_map m; Some (m, out)
  | Ppt p => out ← print_page_table m p; Some (m, out)
  | Np p n => new_process m p n
  | Kp p => kill_process m p
  | Sb p a v => store_byte m p a (v `mod` 256)
  | Lb p a => out ← load_byte m p a; Some (m, out)
  end.

Fixpoint exec_all (m : list Z) (cs : list command)
  : option (list Z * list event) :=
  match cs with
  | [] => Some (m, [])
  | c :: cs' =>
      '(m1, out1) ← exec m c;
      '(m2, out2) ← exec_all m1 cs';
      Some (m2, out1 ++ out2)
  end.

(** [main] on a command line that holds at least one command, after
    argument parsing: [initialize_mem], then the commands in order. *)
Definition main (cs : list command) : option (list Z * list event) :=
  exec_all initialize_mem cs.


(** The memory a run leaves behind (empty if the run is undefined). *)
Definition mem_after (cs : list command) : list Z :=
  from_option fst [] (main cs).

(** ** Vocabulary of the statements *)

(** Page [i] is free: its byte of the free map is 0. *)
Definition is_free (m : list Z) (i : Z) : Prop :=
  mem_get m (get_address 0 i) = Some 0.

#[global] Instance is_free_dec m i : Decision (is_free m i).
Proof. unfold is_free. apply _. Defined.

(** The free pages, in ascending order of their index. *)
Definition free_pages (m : list Z) : list Z :=
  filter (is_free m) (seqZ 0 PAGE_COUNT).

(** [p] is the free page of lowest index. *)
Definition lowest_free (m : list Z) (p : Z) : Prop :=
  0 ≤ p < PAGE_COUNT ∧ is_free m p ∧ ∀ i, 0 ≤ i < p → ¬ is_free m i.

Definition none_free (m : list Z) : Prop :=
  ∀ i, 0 ≤ i < PAGE_COUNT → ¬ is_free m i.

(** [m] with the free-map byte of [p] set to 1, and nothing else changed. *)
Definition mark_used (m : list Z) (p : Z) : list Z :=
  <[Z.to_nat (get_address 0 p) := 1]> m.

Definition mark_all (m : list Z) (ps : list Z) : list Z :=
  foldl mark_used m ps.

(** [m] with the cells [ds] set to 0. *)
Definition clear_all (m : list Z) (ds : list Z) : list Z :=
  foldl (λ m d, <[Z.to_nat d := 0]> m) m ds.

(** The free-map byte of page 0 is nonzero. *)
Definition page_zero_used (m : list Z) : Prop :=
  ∃ b, mem_get m (get_address 0 0) = Some b ∧ b ≠ 0.

(** Every byte of the free map is the index of a page (0 and 1 are). *)
Definition free_map_names_pages (m : list Z) : Prop :=
  ∀ i, 0 ≤ i < PAGE_COUNT →
    ∃ b, mem_get m (get_address 0 i) = Some b ∧ 0 ≤ b < PAGE_COUNT.

Definition names_page (m : list Z) (i : Z) : bool :=
  match mem_get m (get_address 0 i) with
  | Some b => bool_decide (0 ≤ b < PAGE_COUNT)
  | None => false
  end.

(** The [PAGE_COUNT] entries of page [p] are all 0. *)
Definition page_is_clear (m : list Z) (p : Z) : bool :=
  forallb (λ i, bool_decide (mem_get m (get_address p 0 + i) = Some 0))
          (seqZ 0 PAGE_COUNT).

(** The entries of page [p] from number [k] on are all 0. *)
Definition page_is_clear_from (m : list Z) (p k : Z) : bool :=
  forallb (λ i, bool_decide (mem_get m (get_address p 0 + i) = Some 0))
          (seqZ k (PAGE_COUNT - k)).

(** Every nonzero entry in the page table of a live process names a page
    whose free-map byte is nonzero. *)
Definition tables_consistent (m : list Z) : Prop :=
  ∀ proc_num pt_page virtual_page phys_page,
    0 ≤ proc_num →
    get_page_table m proc_num = Some pt_page → pt_page ≠ 0 →
    0 ≤ virtual_page < PAGE_COUNT →
    mem_get m (get_address pt_page virtual_page) = Some phys_page →
    phys_page ≠ 0 →
    ∃ b, mem_get m (get_address 0 phys_page) = Some b ∧ b ≠ 0.

(** A command whose process number is not negative and which, if it is a
    [kp], names a process that has a page table. *)
Definition names_live_process (m : list Z) (c : command) : Prop :=
  match c with
  | Np p _ => 0 ≤ p
  | Kp p => 0 ≤ p ∧ get_page_table m p ≠ Some 0
  | _ => True
  end.

(** Every command of a run names a live process at the moment it runs. *)
Fixpoint live_run (m : list Z) (cs : list command) : Prop :=
  match cs with
  | [] => True
  | c :: cs' =>
      names_live_process m c ∧
      match exec m c with
      | Some (m1, _) => live_run m1 cs'
      | None => True
      end
  end.

(** [first_fit m ps m']: starting from [m], the pages [ps] are taken one
    after the other, each one the free page of lowest index at its turn,
    each time setting that one byte of the free map; [m'] is the result. *)
Inductive first_fit : list Z → list Z → list Z → Prop :=
  | first_fit_nil m : first_fit m [] m
  | first_fit_cons m p ps m' :
      lowest_free m p → first_fit (mark_used m p) ps m' →
      first_fit m (p :: ps) m'.

(** Lines 89-99 of [new_process]: the directory byte, then the entries. *)
Definition commit (m : list Z) (proc_num pt_page : Z) (data_pages : list Z)
  : option (list Z * list event) :=
  m3 ← mem_set m (get_address 0 (PTP_OFFSET + proc_num)) pt_page;
  m4 ← write_entries (length data_pages) 0 (get_address pt_page 0) data_pages m3;
  Some (m4, []).

(** The [PAGE_COUNT] entries of the page [pt_page], in order, as
    [kill_process] reads them at [pt_addr + i]. *)
Definition table_entries (m : list Z) (pt_page : Z) : list Z :=
  omap (λ i, mem_get m (get_address pt_page 0 + i)) (seqZ 0 PAGE_COUNT).

(** [e] is the index of a page (page 0 included): what a page-table
    entry must be for the translation to stay inside the array. *)
Definition is_page_index (e : Z) : Prop := 0 ≤ e < PAGE_COUNT.

(** The memory has [MEM_SIZE] cells, every cell holds a byte, and every
    cell of page 0 (the free map and the directory) holds a page index. *)
Definition well_formed (m : list Z) : Prop :=
  length m = Z.to_nat MEM_SIZE ∧
  (∀ a b, mem_get m a = Some b → 0 ≤ b < 256) ∧
  (∀ a b, 0 ≤ a < PAGE_SIZE → mem_get m a = Some b → is_page_index b).

(** A command of the allocator ([pfm], [ppt], [np], [kp]) whose directory
    byte lies in page 0 and whose page count is not negative. *)
Definition allocator_command (c : command) : Prop :=
  match c with
  | Pfm => True
  | Ppt p | Kp p => 0 ≤ PTP_OFFSET + p < PAGE_SIZE
  | Np p n => 0 ≤ PTP_OFFSET + p < PAGE_SIZE ∧ 0 ≤ n
  | Sb _ _ _ | Lb _ _ => False
  end.

(** The array of an [np] fits the stack. *)
Definition fits_stack (c : command) : Prop :=
  match c with
  | Np _ n => n ≤ STACK_INTS
  | _ => True
  end.

(** A command that creates or prints, the command set of [ptsim.c], with
    the directory byte of an [np] in page 0. *)
Definition creating_command (c : command) : Prop :=
  match c with
  | Pfm | Ppt _ => True
  | Np p _ => 0 ≤ p ∧ PTP_OFFSET + p < PAGE_SIZE
  | Kp _ | Sb _ _ _ | Lb _ _ => False
  end.

(** Every cell of page [p] is 0. *)
Definition blank (m : list Z) (p : Z) : Prop :=
  ∀ i, 0 ≤ i < PAGE_SIZE → mem_get m (get_address p i) = Some 0.

(** Every nonzero cell of page [p] is the index of a page that is marked
    used and is blank. *)
Definition names_blank_pages (m : list Z) (p : Z) : Prop :=
  ∀ i e, 0 ≤ i < PAGE_SIZE → mem_get m (get_address p i) = Some e → e ≠ 0 →
    0 < e < PAGE_COUNT ∧ ¬ is_free m e ∧ blank m e.

(** The shape of a memory in which processes were created and nothing
    else was done: page 0 is marked used, every free page is blank, and
    every other page is blank or a page table of blank used pages. *)
Definition only_created (m : list Z) : Prop :=
  length m = Z.to_nat MEM_SIZE ∧ page_zero_used m ∧
  ∀ p, 0 < p < PAGE_COUNT →
    names_blank_pages m p ∧ (is_free m p → blank m p).

(** [pt] is the directory byte of a process whose directory byte lies in
    page 0. *)
Definition is_page_table (m : list Z) (pt : Z) : Prop :=
  ∃ proc_num, 0 ≤ proc_num ∧ PTP_OFFSET + proc_num < PAGE_SIZE ∧
              get_page_table m proc_num = Some pt.

(** Every nonzero entry of the table in page [pt] is the index of a page
    that is marked used and is nobody's page table. *)
Definition maps_data_pages (m : list Z) (pt : Z) : Prop :=
  ∀ i e, 0 ≤ i < PAGE_COUNT → mem_get m (get_address pt i) = Some e → e ≠ 0 →
    0 < e < PAGE_COUNT ∧ ¬ is_free m e ∧ ¬ is_page_table m e.

(** Page tables and data pages are kept apart: page 0 is marked used,
    every page table is a used page that maps data pages only, and every
    free page is blank. *)
Definition separated (m : list Z) : Prop :=
  length m = Z.to_nat MEM_SIZE ∧ page_zero_used m ∧
  (∀ pt, is_page_table m pt → pt ≠ 0 →
     0 < pt < PAGE_COUNT ∧ ¬ is_free m pt ∧ maps_data_pages m pt) ∧
  (∀ p, 0 < p < PAGE_COUNT → is_free m p → blank m p).

(** The use the simulator is made for: processes are created and printed
    with their directory byte in page 0 and a page count that is not
    negative, bytes are stored and loaded inside the 64 virtual pages of
    a process that has a page table; no process is killed. *)
Definition intended (m : list Z) (c : command) : Prop :=
  match c with
  | Pfm => True
  | Ppt p => 0 ≤ p ∧ PTP_OFFSET + p < PAGE_SIZE
  | Np p n => 0 ≤ p ∧ PTP_OFFSET + p < PAGE_SIZE ∧ 0 ≤ n
  | Kp _ => False
  | Sb p a _ | Lb p a =>
      0 ≤ p ∧ PTP_OFFSET + p < PAGE_SIZE ∧
      0 ≤ a < PAGE_COUNT * PAGE_SIZE ∧ get_page_table m p ≠ Some 0
  end.

Fixpoint intended_run (m : list Z) (cs : list command) : Prop :=
  match cs with
  | [] => True
  | c :: cs' =>
      intended m c ∧
      match exec m c with
      | Some (m1, _) => intended_run m1 cs'
      | None => True
      end
  end.

(** ** The command line, token by token *)

(** How [main] ends: the usage message on [stderr] with status 1, or the
    end of the loop with the memory and the lines printed. *)
Inductive main_result : Type :=
  | Usage
  | Ran (m : list Z) (out : list event).

(** One call of the loop body followed by the rest of the loop. *)
Definition and_then (r : option (list Z * list event))
    (k : list Z → option (list Z * list event))
  : option (list Z * list event) :=
  '(m1, out1) ← r; '(m2, out2) ← k m1; Some (m2, out1 ++ out2).

(** A call that only prints. *)
Definition prints (m : list Z) (r : option (list event))
  : option (list Z * list event) :=
  out ← r; Some (m, out).

Section CommandLine.

(** [atoi] of the C library, on the tokens of the command line. *)
Variable atoi : string → Z.

(** The loop [for (int i = 1; i < argc; i++)] of [main] in the complete
    variant; [args] is [argv[i]], ..., [argv[argc - 1]].  Each [argv[++i]]
    takes the next token; [argv[argc]] is the null pointer, so [atoi] of
    it, on a command cut short by the end of the line, is undefined.  A
    token that is none of the six command names falls through every
    [strcmp] and is skipped.  The cast [(unsigned char)atoi(...)] of [sb]
    is the [mod 256]. *)
Fixpoint main_loop (args : list string) (m : list Z)
  : option (list Z * list event) :=
  match args with
  | [] => Some (m, [])
  | t :: rest =>
      if String.eqb t "pfm" then
        and_then (prints m (print_page_free_map m)) (main_loop rest)
      else if String.eqb t "ppt" then
        match rest with
        | a :: rest' =>
            let proc_num := atoi a in
            and_then (prints m (print_page_table m proc_num)) (main_loop rest')
        | _ => None
        end
      else if String.eqb t "np" then
        match rest with
        | a :: b :: rest' =>
            let proc_num := atoi a in
            let page_count := atoi b in
            and_then (new_process m proc_num page_count) (main_loop rest')
        | _ => None
        end
      else if String.eqb t "kp" then
        match rest with
        | a :: rest' =>
            let proc_num := atoi a in
            and_then (kill_process m proc_num) (main_loop rest')
        | _ => None
        end
      else if String.eqb t "sb" then
        match rest with
        | a :: b :: c :: rest' =>
            let proc_num := atoi a in
            let vaddr := atoi b in
            let val := atoi c `mod` 256 in
            and_then (store_byte m proc_num vaddr val) (main_loop rest')
        | _ => None
        end
      else if String.eqb t "lb" then
        match rest with
        | a :: b :: rest' =>
            let proc_num := atoi a in
            let vaddr := atoi b in
            and_then (prints m (load_byte m proc_num vaddr)) (main_loop rest')
        | _ => None
        end
      else main_loop rest m
  end.

(** [main] of the complete variant on [argv[1]], ..., [argv[argc - 1]]. *)
Definition main_argv (args : list string) : option main_result :=
  match args with
  | [] => Some Usage
  | _ => '(m, out) ← main_loop args initialize_mem; Some (Ran m out)
  end.

(** The loop of [main] in [ptsim.c], which knows [pfm], [ppt] and [np]
    only. *)
Fixpoint main_loop_ptsim (args : list string) (m : list Z)
  : option (list Z * list event) :=
  match args with
  | [] => Some (m, [])
  | t :: rest =>
      if String.eqb t "pfm" then
        and_then (prints m (print_page_free_map m)) (main_loop_ptsim rest)
      else if String.eqb t "ppt" then
        match rest with
        | a :: rest' =>
            let proc_num := atoi a in
            and_then (prints m (print_page_table m proc_num))
                     (main_loop_ptsim rest')
        | _ => None
        end
      else if String.eqb t "np" then
        match rest with
        | a :: b :: rest' =>
            let proc_num := atoi a in
            let page_count := atoi b in
            and_then (new_process m proc_num page_count) (main_loop_ptsim rest')
        | _ => None
        end
      else main_loop_ptsim rest m
  end.

Definition main_argv_ptsim (args : list string) : option main_result :=
  match args with
  | [] => Some Usage
  | _ => '(m, out) ← main_loop_ptsim args initialize_mem; Some (Ran m out)
  end.

(** The commands a line of tokens stands for, with the numbers [atoi]
    gives; [None] if the last command lacks an argument. *)
Fixpoint parse (args : list string) : option (list command) :=
  match args with
  | [] => Some []
  | t :: rest =>
      if String.eqb t "pfm" then cs ← parse rest; Some (Pfm :: cs)
      else if String.eqb t "ppt" then
        match rest with
        | a :: rest' => cs ← parse rest'; Some (Ppt (atoi a) :: cs)
        | _ => None
        end
      else if String.eqb t "np" then
        match rest with
        | a :: b :: rest' => cs ← parse rest'; Some (Np (atoi a) (atoi b) :: cs)
        | _ => None
        end
      else if String.eqb t "kp" then
        match rest with
        | a :: rest' => cs ← parse rest'; Some (Kp (atoi a) :: cs)
        | _ => None
        end
      else if String.eqb t "sb" then
        match rest with
        | a :: b :: c :: rest' =>
            cs ← parse rest'; Some (Sb (atoi a) (atoi b) (atoi c) :: cs)
        | _ => None
        end
      else if String.eqb t "lb" then
        match rest with
        | a :: b :: rest' => cs ← parse rest'; Some (Lb (atoi a) (atoi b) :: cs)
        | _ => None
        end
      else parse rest
  end.

End CommandLine.

(** The names of the commands that only the complete variant knows. *)
Definition later_command (t : string) : bool :=
  String.eqb t "kp" || String.eqb t "sb" || String.eqb t "lb".

(** [atoi] on a token made of decimal digits, for the examples. *)
Fixpoint digits_value (acc : Z) (s : string) : Z :=
  match s with
  | EmptyString => acc
  | String c s' =>
      let d := Z.of_nat (Ascii.nat_of_ascii c) - 48 in
      if bool_decide (0 ≤ d ≤ 9) then digits_value (10 * acc + d) s' else acc
  end.

(** * Properties *)

(** ** Addresses and single cells *)

Section Cells.
Implicit Types (m : list Z) (a v b : Z).

Lemma get_address_0_l x : get_address 0 x = x.
Proof. unfold get_address. by rewrite Z.shiftl_0_l, Z.lor_0_l. Qed.

Lemma get_address_page_start page : get_address page 0 = page * PAGE_SIZE.
Proof.
  unfold get_address, PAGE_SHIFT, PAGE_SIZE.
  rewrite Z.lor_0_r, Z.shiftl_mul_pow2 by lia. done.
Qed.

Lemma mem_get_Some_range m a b : mem_get m a = Some b → 0 ≤ a < MEM_SIZE.
Proof. unfold mem_get. case_bool_decide; [done|discriminate]. Qed.

Lemma mem_get_lookup m a :
  0 ≤ a < MEM_SIZE → mem_get m a = m !! Z.to_nat a.
Proof. intros Ha. unfold mem_get. by rewrite bool_decide_eq_true_2. Qed.

Lemma mem_get_is_Some m a :
  length m = Z.to_nat MEM_SIZE → 0 ≤ a < MEM_SIZE → is_Some (mem_get m a).
Proof.
  intros Hlen Ha. rewrite mem_get_lookup by done.
  apply lookup_lt_is_Some. lia.
Qed.

Lemma mem_set_Some m a v :
  0 ≤ a < MEM_SIZE → mem_set m a v = Some (<[Z.to_nat a := v `mod` 256]> m).
Proof. intros Ha. unfold mem_set. by rewrite bool_decide_eq_true_2. Qed.

Lemma mem_get_insert_eq m a v :
  length m = Z.to_nat MEM_SIZE → 0 ≤ a < MEM_SIZE →
  mem_get (<[Z.to_nat a := v]> m) a = Some v.
Proof.
  intros Hlen Ha. rewrite mem_get_lookup by done.
  apply list_lookup_insert_eq. lia.
Qed.

Lemma mem_get_insert_ne m a a' v :
  0 ≤ a → a ≠ a' → mem_get (<[Z.to_nat a := v]> m) a' = mem_get m a'.
Proof.
  intros Ha Hne. unfold mem_get. case_bool_decide; [|done].
  apply list_lookup_insert_ne. lia.
Qed.
End Cells.

(** ** The first-fit scan *)

Section Allocation.
Implicit Types (m : list Z) (p i : Z) (ps : list Z).

Lemma mark_used_length m p : length (mark_used m p) = length m.
Proof. apply length_insert. Qed.

Lemma is_free_range m i : is_free m i → 0 ≤ i < MEM_SIZE.
Proof.
  unfold is_free. rewrite get_address_0_l. apply mem_get_Some_range.
Qed.

Lemma free_pages_range m p : p ∈ free_pages m → 0 ≤ p < PAGE_COUNT.
Proof.
  unfold free_pages. rewrite list_elem_of_filter, elem_of_seqZ. lia.
Qed.

Lemma is_free_mark_used m p i :
  length m = Z.to_nat MEM_SIZE → 0 ≤ p < MEM_SIZE →
  is_free (mark_used m p) i ↔ i ≠ p ∧ is_free m i.
Proof.
  intros Hlen Hp. unfold is_free, mark_used. rewrite !get_address_0_l.
  destruct (decide (i = p)) as [->|Hne].
  - rewrite mem_get_insert_eq by done.
    split; [discriminate | by intros [? _]].
  - rewrite mem_get_insert_ne by lia.
    split; [by intros | by intros [_ ?]].
Qed.

Lemma filter_ne_not_elem_of p ps : p ∉ ps → filter (λ i, i ≠ p) ps = ps.
Proof.
  induction ps as [|q ps IH]; [done|].
  rewrite not_elem_of_cons. intros [Hne Hnot].
  rewrite filter_cons_True by done. by rewrite IH.
Qed.

(** Marking the lowest free page removes the head of [free_pages]. *)
Lemma free_pages_mark_used m p ps :
  length m = Z.to_nat MEM_SIZE →
  free_pages m = p :: ps → free_pages (mark_used m p) = ps.
Proof.
  intros Hlen Hfree.
  assert (0 ≤ p < PAGE_COUNT) as Hp.
  { apply (free_pages_range m). rewrite Hfree. left. }
  assert (p ∉ ps) as Hnot.
  { apply NoDup_cons_1_1. rewrite <- Hfree. apply NoDup_filter, NoDup_seqZ. }
  unfold free_pages in *.
  rewrite (list_filter_iff _ (λ i, i ≠ p ∧ is_free m i)).
  2:{ intros i. apply is_free_mark_used; [done|]. unfold PAGE_COUNT, MEM_SIZE in *. lia. }
  rewrite <- list_filter_filter, Hfree.
  rewrite filter_cons_False by (by intros ?).
  by apply filter_ne_not_elem_of.
Qed.

(** What one scan does, by the free pages it walks over. *)
Lemma scan_from_filter (n : nat) i m :
  length m = Z.to_nat MEM_SIZE → 0 ≤ i → i + Z.of_nat n ≤ PAGE_COUNT →
  scan_from n i m =
    Some (match filter (is_free m) (seqZ i (Z.of_nat n)) with
          | [] => (-1, m)
          | p :: _ => (p, mark_used m p)
          end).
Proof.
  intros Hlen. unfold PAGE_COUNT. revert i.
  induction n as [|n IH]; intros i Hi Hn; [done|].
  rewrite seqZ_cons by lia.
  replace (Z.pred (Z.of_nat (S n))) with (Z.of_nat n) by lia.
  cbn [scan_from].
  destruct (mem_get_is_Some m (get_address 0 i)) as [b Hb]; [done| |].
  { rewrite get_address_0_l. unfold MEM_SIZE. lia. }
  rewrite Hb. simpl. destruct (Z.eqb_spec b 0) as [->|Hnz].
  - rewrite filter_cons_True by done.
    rewrite mem_set_Some by (by eapply mem_get_Some_range). done.
  - rewrite filter_cons_False.
    2:{ unfold is_free. rewrite Hb. congruence. }
    rewrite IH by lia. by replace (i + 1) with (Z.succ i) by lia.
Qed.

Lemma scan_free_page_head m :
  length m = Z.to_nat MEM_SIZE →
  scan_free_page m =
    Some (match free_pages m with
          | [] => (-1, m)
          | p :: _ => (p, mark_used m p)
          end).
Proof.
  intros Hlen. unfold scan_free_page, free_pages.
  rewrite scan_from_filter by (done || unfold PAGE_COUNT; lia).
  by rewrite Z2Nat.id by (unfold PAGE_COUNT; lia).
Qed.
End Allocation.

(** ** The allocations of [new_process] *)

Section NewProcess.
Implicit Types (m : list Z) (p a : Z) (ps done : list Z).

Lemma mark_all_length m ps : length (mark_all m ps) = length m.
Proof.
  revert m. induction ps as [|p ps IH]; intros m; [done|].
  simpl. unfold mark_all in IH. by rewrite IH, mark_used_length.
Qed.

Lemma mem_get_mark_all_other m ps a :
  (∀ p, p ∈ ps → 0 ≤ p) → a ∉ ps →
  mem_get (mark_all m ps) a = mem_get m a.
Proof.
  revert m. induction ps as [|p ps IH]; intros m Hpos Hnot; [done|].
  apply not_elem_of_cons in Hnot as [Hne Hnot]. simpl.
  unfold mark_all in IH. rewrite IH; [|by intros q Hq; apply Hpos; right|done].
  unfold mark_used. rewrite get_address_0_l.
  apply mem_get_insert_ne; [apply Hpos; left | done].
Qed.

Lemma mem_get_mark_all_elem m ps a :
  length m = Z.to_nat MEM_SIZE →
  (∀ p, p ∈ ps → 0 ≤ p) → 0 ≤ a < MEM_SIZE → a ∈ ps →
  mem_get (mark_all m ps) a = Some 1.
Proof.
  revert m. induction ps as [|p ps IH]; intros m Hlen Hpos Ha Hin.
  { by apply elem_of_nil in Hin. }
  simpl. destruct (decide (a ∈ ps)) as [Hps|Hps].
  - unfold mark_all in IH.
    apply IH; [by rewrite mark_used_length| |done..].
    intros q Hq. apply Hpos. by right.
  - apply elem_of_cons in Hin as [->|?]; [|done].
    change (foldl mark_used (mark_used m p) ps) with (mark_all (mark_used m p) ps).
    rewrite mem_get_mark_all_other; [|by intros q Hq; apply Hpos; right|done].
    unfold mark_used. rewrite get_address_0_l. by apply mem_get_insert_eq.
Qed.

(** The loop over the data pages takes the free pages from the lowest
    index upwards, [n] of them if there are that many, else all. *)
Lemma alloc_data_pages_take (n : nat) m done :
  length m = Z.to_nat MEM_SIZE →
  alloc_data_pages n (Z.of_nat (length done)) m (done ++ replicate n (-1)) =
    Some (if decide (n ≤ length (free_pages m))%nat
          then (Some (done ++ take n (free_pages m)),
                mark_all m (take n (free_pages m)))
          else (None, mark_all m (free_pages m))).
Proof.
  revert m done. induction n as [|n IH]; intros m done Hlen.
  { cbn [alloc_data_pages replicate]. rewrite decide_True by lia.
    by rewrite take_0. }
  cbn [alloc_data_pages]. rewrite scan_free_page_head by done.
  destruct (free_pages m) as [|p ps] eqn:Hfree; simpl; [done|].
  assert (0 ≤ p < PAGE_COUNT) as Hp.
  { apply (free_pages_range m). rewrite Hfree. left. }
  destruct (Z.eqb_spec p (-1)) as [?|_]; [lia|].
  rewrite Nat2Z.id.
  replace (<[length done := p]> (done ++ -1 :: replicate n (-1)))
    with ((done ++ [p]) ++ replicate n (-1)).
  2:{ rewrite <- (Nat.add_0_r (length done)) at 1.
      rewrite insert_app_r. simpl. by rewrite <- app_assoc. }
  replace (Z.of_nat (length done) + 1) with (Z.of_nat (length (done ++ [p])))
    by (rewrite length_app; simpl; lia).
  rewrite IH by (by rewrite mark_used_length).
  rewrite (free_pages_mark_used m p ps) by done.
  destruct (decide (n ≤ length ps)%nat).
  - rewrite decide_True by lia. by rewrite <- app_assoc.
  - by rewrite decide_False by lia.
Qed.

(** [new_process] by the free pages it finds: the page table is the
    lowest free page, the data pages are the next ones in ascending
    order. *)
Lemma new_process_first_fit m proc_num page_count :
  length m = Z.to_nat MEM_SIZE → 0 ≤ page_count ≤ STACK_INTS →
  new_process m proc_num page_count =
    match free_pages m with
    | [] => Some (m, [OOM_page_table proc_num])
    | pt_page :: ps =>
        let n := Z.to_nat page_count in
        if decide (n ≤ length ps)%nat
        then commit (mark_all m (pt_page :: take n ps)) proc_num pt_page (take n ps)
        else Some (mark_all m (pt_page :: ps), [OOM_data_page proc_num])
    end.
Proof.
  intros Hlen Hcount. unfold new_process.
  rewrite scan_free_page_head by done.
  destruct (free_pages m) as [|p ps] eqn:Hfree; simpl; [done|].
  assert (0 ≤ p < PAGE_COUNT) as Hp.
  { apply (free_pages_range m). rewrite Hfree. left. }
  destruct (Z.eqb_spec p (-1)) as [?|_]; [lia|].
  destruct (Z.ltb_spec page_count 0) as [?|_]; [lia|].
  destruct (Z.ltb_spec STACK_INTS page_count) as [?|_]; [lia|].
  pose proof (alloc_data_pages_take (Z.to_nat page_count) (mark_used m p) []) as Hloop.
  change (Z.of_nat (length [])) with 0 in Hloop.
  change ([] ++ ?l) with l in Hloop.
  rewrite Hloop by (by rewrite mark_used_length).
  rewrite (free_pages_mark_used m p ps) by done.
  destruct (decide (Z.to_nat page_count ≤ length ps)%nat) as [Hle|Hgt]; simpl; [|done].
  unfold commit. by rewrite length_take_le by done.
Qed.
End NewProcess.

(** ** Lowest free page and the list of free pages *)

Section Lowest.
Implicit Types (m : list Z) (p i : Z) (ps : list Z).

Lemma filter_seqZ_below (P : Z → Prop) `{!∀ x, Decision (P x)} (n : nat) i p ps :
  filter P (seqZ i (Z.of_nat n)) = p :: ps → ∀ k, i ≤ k < p → ¬ P k.
Proof.
  revert i. induction n as [|n IH]; intros i Hfilter k Hk; [done|].
  rewrite seqZ_cons in Hfilter by lia.
  replace (Z.pred (Z.of_nat (S n))) with (Z.of_nat n) in Hfilter by lia.
  rewrite filter_cons in Hfilter. destruct (decide (P i)) as [|Hi].
  - injection Hfilter as <- _. lia.
  - destruct (decide (k = i)) as [->|Hne]; [done|].
    apply (IH (Z.succ i)); [done|lia].
Qed.

Lemma free_pages_head_lowest m p ps :
  free_pages m = p :: ps → lowest_free m p.
Proof.
  intros Hfree.
  assert (p ∈ free_pages m) as Hin by (rewrite Hfree; left).
  split; [by apply (free_pages_range m)|]. split.
  - by apply list_elem_of_filter in Hin as [? _].
  - unfold free_pages, PAGE_COUNT in Hfree.
    change 64 with (Z.of_nat 64) in Hfree.
    by apply (filter_seqZ_below _ _ _ _ _ Hfree).
Qed.

Lemma free_pages_nil m : free_pages m = [] ↔ none_free m.
Proof.
  split.
  - intros Hnil i Hi Hfree.
    apply (filter_nil_not_elem_of _ _ i Hnil Hfree), elem_of_seqZ. lia.
  - intros Hnone. destruct (free_pages m) as [|p ps] eqn:Hfree; [done|].
    destruct (free_pages_head_lowest m p ps Hfree) as (Hp & Hp' & _).
    by destruct (Hnone p Hp).
Qed.

Lemma lowest_free_unique m p q : lowest_free m p → lowest_free m q → p = q.
Proof.
  intros (Hp & Hfp & Hbp) (Hq & Hfq & Hbq).
  destruct (Z.lt_trichotomy p q) as [Hlt|[->|Hgt]]; [|done|].
  - destruct (Hbq p); [lia|done].
  - destruct (Hbp q); [lia|done].
Qed.

Lemma lowest_free_head m p :
  lowest_free m p → ∃ ps, free_pages m = p :: ps.
Proof.
  intros Hlow. destruct (free_pages m) as [|q ps] eqn:Hfree.
  - apply free_pages_nil in Hfree. destruct Hlow as (Hp & Hfp & _).
    by destruct (Hfree p Hp).
  - exists ps. f_equal.
    eapply lowest_free_unique; [|done]. by eapply free_pages_head_lowest.
Qed.

Lemma first_fit_take (k : nat) m :
  length m = Z.to_nat MEM_SIZE → (k ≤ length (free_pages m))%nat →
  first_fit m (take k (free_pages m)) (mark_all m (take k (free_pages m))).
Proof.
  revert m. induction k as [|k IH]; intros m Hlen Hk.
  { rewrite take_0. constructor. }
  destruct (free_pages m) as [|p ps] eqn:Hfree; [simpl in Hk; lia|].
  simpl. constructor; [by eapply free_pages_head_lowest|].
  pose proof (free_pages_mark_used m p ps Hlen Hfree) as Hnext.
  specialize (IH (mark_used m p)). rewrite Hnext in IH.
  apply IH; [by rewrite mark_used_length | simpl in Hk; lia].
Qed.

Lemma free_pages_mark_all_take (k : nat) m :
  length m = Z.to_nat MEM_SIZE →
  free_pages (mark_all m (take k (free_pages m))) = drop k (free_pages m).
Proof.
  revert m. induction k as [|k IH]; intros m Hlen; [done|].
  destruct (free_pages m) as [|p ps] eqn:Hfree; [by simpl|].
  simpl. pose proof (free_pages_mark_used m p ps Hlen Hfree) as Hnext.
  specialize (IH (mark_used m p)). rewrite Hnext in IH.
  apply IH. by rewrite mark_used_length.
Qed.
End Lowest.

(** ** Out of memory in [new_process] *)

Section OutOfMemory.
Implicit Types (m : list Z) (p a : Z) (ps : list Z).

Lemma commit_prints_nothing m proc_num pt_page data_pages m' out :
  commit m proc_num pt_page data_pages = Some (m', out) → out = [].
Proof.
  unfold commit. intros Hcommit.
  destruct (mem_set m _ pt_page) as [m3|]; [simpl in Hcommit|done].
  destruct (write_entries _ 0 _ data_pages m3); simpl in Hcommit; congruence.
Qed.

Lemma new_process_no_array m proc_num page_count :
  length m = Z.to_nat MEM_SIZE → ¬ (0 ≤ page_count ≤ STACK_INTS) →
  new_process m proc_num page_count =
    match free_pages m with
    | [] => Some (m, [OOM_page_table proc_num])
    | _ :: _ => None
    end.
Proof.
  intros Hlen Hneg. unfold new_process.
  rewrite scan_free_page_head by done.
  destruct (free_pages m) as [|p ps] eqn:Hfree; simpl; [done|].
  assert (0 ≤ p < PAGE_COUNT) as Hp.
  { apply (free_pages_range m). rewrite Hfree. left. }
  destruct (Z.eqb_spec p (-1)) as [?|_]; [lia|].
  destruct (Z.ltb_spec page_count 0) as [_|?]; [done|].
  by destruct (Z.ltb_spec STACK_INTS page_count) as [_|?]; [|lia].
Qed.

(** When the "data page" message is printed, every page that was free is
    marked, and that is all that happened. *)
Lemma new_process_data_page_oom m proc_num page_count m' :
  length m = Z.to_nat MEM_SIZE →
  new_process m proc_num page_count = Some (m', [OOM_data_page proc_num]) →
  free_pages m ≠ [] ∧ m' = mark_all m (free_pages m).
Proof.
  intros Hlen Hnew. destruct (decide (0 ≤ page_count ≤ STACK_INTS)) as [[Hpos Hfits]|Hneg].
  - rewrite new_process_first_fit in Hnew by done.
    destruct (free_pages m) as [|p ps]; [done|]. cbv zeta in Hnew.
    destruct (decide (Z.to_nat page_count ≤ length ps)%nat) as [_|_].
    + by apply commit_prints_nothing in Hnew.
    + split; [done|congruence].
  - rewrite new_process_no_array in Hnew by done.
    by destruct (free_pages m).
Qed.

Lemma mark_all_free_pages_get m ps a :
  length m = Z.to_nat MEM_SIZE →
  (∀ p, p ∈ ps → 0 ≤ p < PAGE_COUNT) →
  mem_get (mark_all m ps) a =
    if decide (a ∈ ps) then Some 1 else mem_get m a.
Proof.
  intros Hlen Hps. destruct (decide (a ∈ ps)) as [Hin|Hnot].
  - apply mem_get_mark_all_elem; [done| |by apply Hps in Hin; unfold PAGE_COUNT, MEM_SIZE in *; lia|done].
    intros p Hp. apply Hps in Hp. lia.
  - apply mem_get_mark_all_other; [|done].
    intros p Hp. apply Hps in Hp. lia.
Qed.
End OutOfMemory.

(** ** [new_process] runs to its end *)

Section Defined.
Implicit Types (m : list Z) (p a : Z) (ps : list Z).

Lemma free_pages_length m : (length (free_pages m) ≤ 64)%nat.
Proof.
  unfold free_pages. etrans; [apply length_filter|].
  by rewrite length_seqZ.
Qed.

Lemma write_entries_is_Some (n : nat) i pt_addr data_pages m :
  0 ≤ i → 0 ≤ pt_addr → pt_addr + i + Z.of_nat n ≤ MEM_SIZE →
  (Z.to_nat i + n ≤ length data_pages)%nat →
  is_Some (write_entries n i pt_addr data_pages m).
Proof.
  revert i m. induction n as [|n IH]; intros i m Hi Hpt Hend Hlen; [by eexists|].
  cbn [write_entries].
  destruct (lookup_lt_is_Some_2 data_pages (Z.to_nat i)) as [d ->]; [lia|].
  cbn [mbind option_bind].
  destruct (d =? -1); cbn [mbind option_bind]; [apply IH; lia|].
  rewrite mem_set_Some by lia. cbn [mbind option_bind]. apply IH; lia.
Qed.

(** With a count that is not negative and fits the stack, and a directory
    byte inside the memory, [new_process] is defined on every memory. *)
Lemma new_process_defined m proc_num page_count :
  length m = Z.to_nat MEM_SIZE → 0 ≤ page_count ≤ STACK_INTS →
  0 ≤ PTP_OFFSET + proc_num < MEM_SIZE →
  is_Some (new_process m proc_num page_count).
Proof.
  intros Hlen Hcount Hdir. rewrite new_process_first_fit by done.
  pose proof (free_pages_length m) as Hfree_len.
  destruct (free_pages m) as [|p ps] eqn:Hfree; [by eexists|]. cbv zeta.
  destruct (decide (Z.to_nat page_count ≤ length ps)%nat) as [Hle|_]; [|by eexists].
  assert (0 ≤ p < PAGE_COUNT) as Hp.
  { apply (free_pages_range m). rewrite Hfree. left. }
  unfold commit. rewrite get_address_0_l.
  rewrite mem_set_Some by done. cbn [mbind option_bind].
  edestruct (write_entries_is_Some (length (take (Z.to_nat page_count) ps)) 0
               (get_address p 0) (take (Z.to_nat page_count) ps)) as [m4 ->];
    [done| | |by simpl|by eexists].
  - rewrite get_address_page_start. unfold PAGE_SIZE. lia.
  - rewrite get_address_page_start, length_take_le by done.
    simpl in Hfree_len. unfold PAGE_SIZE, PAGE_COUNT, MEM_SIZE in *. lia.
Qed.
End Defined.

(** * The allocator as [new_process] uses it *)

(** C5. Every page allocation of [new_process] is one first-fit scan of the
    free map: the scan walks the indices upwards from 0, returns the free
    page of lowest index and sets exactly that byte; with no free page it
    returns -1 and leaves the memory as it was.  The page-table page is
    taken by such a scan (with no page free, the "page table" message is
    printed and nothing changes), and so is every data page, whether the
    call ends with the "data page" message or succeeds. *)
Theorem new_process_allocates_first_fit m proc_num page_count :
  length m = Z.to_nat MEM_SIZE →
  (∀ p, lowest_free m p → scan_free_page m = Some (p, mark_used m p)) ∧
  (none_free m →
     scan_free_page m = Some (-1, m) ∧
     new_process m proc_num page_count = Some (m, [OOM_page_table proc_num])) ∧
  (∀ m', new_process m proc_num page_count = Some (m', [OOM_data_page proc_num]) →
     ∃ ps, ps ≠ [] ∧ first_fit m ps m' ∧ none_free m') ∧
  (∀ m', new_process m proc_num page_count = Some (m', []) →
     ∃ pt_page data_pages m1,
       first_fit m (pt_page :: data_pages) m1 ∧
       Z.of_nat (length data_pages) = page_count ∧
       commit m1 proc_num pt_page data_pages = Some (m', [])).
Proof.
  intros Hlen. split_and!.
  - intros p [ps Hfree]%lowest_free_head.
    by rewrite scan_free_page_head, Hfree.
  - intros Hnone%free_pages_nil. unfold new_process.
    by rewrite scan_free_page_head, Hnone.
  - intros m' [Hne ->]%new_process_data_page_oom; [|done].
    exists (free_pages m). split; [done|].
    pose proof (first_fit_take (length (free_pages m)) m Hlen) as Hfit.
    pose proof (free_pages_mark_all_take (length (free_pages m)) m Hlen) as Hrest.
    rewrite take_ge in Hfit, Hrest by done. rewrite drop_ge in Hrest by done.
    split; [by apply Hfit | by apply free_pages_nil].
  - intros m' Hnew. destruct (decide (0 ≤ page_count ≤ STACK_INTS)) as [[Hpos Hfits]|Hneg].
    2:{ rewrite new_process_no_array in Hnew by done.
        by destruct (free_pages m). }
    rewrite new_process_first_fit in Hnew by done.
    destruct (free_pages m) as [|p ps] eqn:Hfree; [done|]. cbv zeta in Hnew.
    destruct (decide (Z.to_nat page_count ≤ length ps)%nat) as [Hle|_]; [|done].
    exists p, (take (Z.to_nat page_count) ps), (mark_all m (p :: take (Z.to_nat page_count) ps)).
    pose proof (first_fit_take (S (Z.to_nat page_count)) m Hlen) as Hfit.
    rewrite Hfree in Hfit. simpl in Hfit.
    split; [apply Hfit; lia|]. split; [|done].
    rewrite length_take_le by done. lia.
Qed.

Lemma new_process_allocates_first_fit_witness :
  length initialize_mem = Z.to_nat MEM_SIZE ∧
  lowest_free initialize_mem 1 ∧
  new_process initialize_mem 2 3 = Some (mem_after [Np 2 3], []) ∧
  scan_free_page initialize_mem = Some (1, mark_used initialize_mem 1) ∧
  ∃ pt_page data_pages m1,
    first_fit initialize_mem (pt_page :: data_pages) m1 ∧
    Z.of_nat (length data_pages) = 3 ∧
    commit m1 2 pt_page data_pages = Some (mem_after [Np 2 3], []).
Proof.
  assert (lowest_free initialize_mem 1) as Hlow.
  { split; [done|]. split; [reflexivity|].
    intros i Hi. assert (i = 0) as -> by lia. discriminate. }
  assert (new_process initialize_mem 2 3 = Some (mem_after [Np 2 3], []))
    as Hnew by (by vm_compute).
  split; [reflexivity|]. split; [done|]. split; [done|].
  destruct (new_process_allocates_first_fit initialize_mem 2 3)
    as (Hscan & _ & _ & Hsuccess); [reflexivity|].
  split; [by apply Hscan | by apply Hsuccess].
Defined.




(** * Start-up *)

(** C9. After [initialize_mem] the memory has [MEM_SIZE] cells, all of them
    0 except the free-map byte of page 0, which is 1; the free map
    therefore shows page 0 used and the 63 other pages free. *)
Theorem initialize_mem_spec a :
  0 ≤ a < MEM_SIZE →
  length initialize_mem = Z.to_nat MEM_SIZE ∧
  mem_get initialize_mem a =
    Some (if decide (a = get_address 0 0) then 1 else 0) ∧
  free_map_snapshot initialize_mem = Some (true :: replicate 63 false).
Proof.
  intros Ha. split; [reflexivity|]. split; [|by vm_compute].
  unfold initialize_mem. cbv zeta. rewrite get_address_0_l.
  destruct (decide (a = 0)) as [->|Hne].
  - apply mem_get_insert_eq; [by rewrite length_replicate|done].
  - rewrite mem_get_insert_ne by (done || lia).
    rewrite mem_get_lookup by done.
    apply lookup_replicate_2. lia.
Qed.

Lemma initialize_mem_spec_witness :
  0 ≤ 300 < MEM_SIZE ∧
  mem_get initialize_mem 300 =
    Some (if decide (300 = get_address 0 0) then 1 else 0).
Proof.
  split; [done|]. apply (initialize_mem_spec 300). done.
Defined.

(** * Translation and byte access *)

Lemma fault_on_zero_entry m proc_num vaddr val pt_page :
  get_page_table m proc_num = Some pt_page →
  mem_get m (get_address pt_page (vaddr ≫ PAGE_SHIFT)) = Some 0 →
  store_byte m proc_num vaddr val = Some (m, [Invalid_virtual_address]) ∧
  load_byte m proc_num vaddr = Some [Invalid_virtual_address].
Proof.
  intros Hpt Hentry. unfold store_byte, load_byte.
  rewrite Hpt. simpl. by rewrite Hentry.
Qed.

(** C6. When the page-table entry for the virtual page of [vaddr] is 0,
    [store_byte] prints the fault and returns the memory it was given, and
    [load_byte] prints the fault and no value. *)
Theorem unmapped_page_faults m proc_num vaddr val pt_page :
  get_page_table m proc_num = Some pt_page →
  mem_get m (get_address pt_page (vaddr ≫ PAGE_SHIFT)) = Some 0 →
  store_byte m proc_num vaddr val = Some (m, [Invalid_virtual_address]) ∧
  load_byte m proc_num vaddr = Some [Invalid_virtual_address].
Proof.
  intros Hpt Hentry. split.
  - unfold store_byte. rewrite Hpt. simpl. by rewrite Hentry.
  - unfold load_byte. rewrite Hpt. simpl. by rewrite Hentry.
Qed.

Lemma unmapped_page_faults_witness :
  get_page_table (mem_after [Np 2 3]) 2 = Some 1 ∧
  mem_get (mem_after [Np 2 3]) (get_address 1 (1280 ≫ PAGE_SHIFT)) = Some 0 ∧
  store_byte (mem_after [Np 2 3]) 2 1280 42
    = Some (mem_after [Np 2 3], [Invalid_virtual_address]) ∧
  load_byte (mem_after [Np 2 3]) 2 1280 = Some [Invalid_virtual_address].
Proof.
  split; [by vm_compute|]. split; [by vm_compute|].
  apply (unmapped_page_faults _ 2 1280 42 1); by vm_compute.
Defined.

(** C10. For a process whose directory byte is 0, [store_byte] and
    [load_byte] take page 0 as the page table: the byte they read as the
    physical page is the byte of page 0 at offset [vaddr >> PAGE_SHIFT] (a
    byte of the free map or of the directory), they print the fault only
    if that byte is 0, and otherwise they access the physical page that
    this byte names.  Right after [initialize_mem], a store at virtual
    address 0 therefore lands at offset 0 of physical page 1. *)
Theorem absent_process_walks_page_zero m proc_num vaddr val b :
  get_page_table m proc_num = Some 0 →
  mem_get m (vaddr ≫ PAGE_SHIFT) = Some b →
  let offset := Z.land vaddr 255 in
  let phys_addr := get_address b offset in
  get_address 0 (vaddr ≫ PAGE_SHIFT) = vaddr ≫ PAGE_SHIFT ∧
  (0 ≤ vaddr < PAGE_SIZE * PAGE_SIZE → 0 ≤ vaddr ≫ PAGE_SHIFT < PAGE_SIZE) ∧
  (b = 0 →
     store_byte m proc_num vaddr val = Some (m, [Invalid_virtual_address]) ∧
     load_byte m proc_num vaddr = Some [Invalid_virtual_address]) ∧
  (b ≠ 0 →
     store_byte m proc_num vaddr val =
       (m' ← mem_set m phys_addr val;
        Some (m', [Store_line proc_num vaddr phys_addr val])) ∧
     load_byte m proc_num vaddr =
       (x ← mem_get m phys_addr;
        Some [Load_line proc_num vaddr phys_addr x])) ∧
  (m = initialize_mem → vaddr = 0 →
     ∃ m', store_byte m proc_num vaddr val =
             Some (m', [Store_line proc_num 0 (get_address 1 0) val]) ∧
           mem_get m' (get_address 1 0) = Some (val `mod` 256)).
Proof.
  intros Hpt Hentry offset phys_addr.
  assert (get_address 0 (vaddr ≫ PAGE_SHIFT) = vaddr ≫ PAGE_SHIFT) as Haddr
    by apply get_address_0_l.
  assert (b ≠ 0 →
    store_byte m proc_num vaddr val =
      (m' ← mem_set m phys_addr val;
       Some (m', [Store_line proc_num vaddr phys_addr val])) ∧
    load_byte m proc_num vaddr =
      (x ← mem_get m phys_addr;
       Some [Load_line proc_num vaddr phys_addr x])) as Hmapped.
  { intros Hb%Z.eqb_neq. unfold store_byte, load_byte.
    rewrite Hpt. simpl. rewrite Haddr, Hentry. simpl. by rewrite Hb. }
  split; [done|]. split.
  { intros Hv. unfold PAGE_SHIFT, PAGE_SIZE in *.
    rewrite Z.shiftr_div_pow2 by lia. change (2 ^ 8) with 256.
    split; [apply Z.div_pos; lia | apply Z.div_lt_upper_bound; lia]. }
  split.
  { intros ->. apply (fault_on_zero_entry m proc_num vaddr val 0 Hpt).
    by rewrite Haddr. }
  split; [done|].
  intros Hm ->.
  assert (length m = Z.to_nat MEM_SIZE) as Hlen by (by rewrite Hm).
  assert (mem_get m 0 = Some 1) as Hzero by (rewrite Hm; by vm_compute).
  change (0 ≫ PAGE_SHIFT) with 0 in Hentry.
  assert (b = 1) as -> by congruence.
  destruct Hmapped as [-> _]; [done|].
  subst phys_addr offset. change (get_address 1 (Z.land 0 255)) with 256.
  change (get_address 1 0) with 256.
  rewrite mem_set_Some by done. eexists. split; [done|].
  by apply mem_get_insert_eq.
Qed.

Lemma absent_process_walks_page_zero_witness :
  get_page_table initialize_mem 7 = Some 0 ∧
  mem_get initialize_mem (0 ≫ PAGE_SHIFT) = Some 1 ∧
  ∃ m', store_byte initialize_mem 7 0 42 =
          Some (m', [Store_line 7 0 (get_address 1 0) 42]) ∧
        mem_get m' (get_address 1 0) = Some (42 `mod` 256).
Proof.
  split; [by vm_compute|]. split; [by vm_compute|].
  by apply (absent_process_walks_page_zero initialize_mem 7 0 42 1).
Defined.

(** C8, as the code has it.  When the page table of [proc_num] maps the
    virtual page of [vaddr] to a nonzero physical page, the byte addressed
    lies inside the memory, and that byte is neither the page-table entry
    that translates [vaddr] nor the directory byte of [proc_num], then
    [store_byte] of a byte [val] followed by [load_byte] prints [val]. *)
Theorem store_then_load m proc_num vaddr val pt_page phys_page :
  length m = Z.to_nat MEM_SIZE →
  0 ≤ val < 256 →
  get_page_table m proc_num = Some pt_page →
  mem_get m (get_address pt_page (vaddr ≫ PAGE_SHIFT)) = Some phys_page →
  phys_page ≠ 0 →
  let phys_addr := get_address phys_page (Z.land vaddr 255) in
  0 ≤ phys_addr < MEM_SIZE →
  phys_addr ≠ get_address pt_page (vaddr ≫ PAGE_SHIFT) →
  phys_addr ≠ get_address 0 (PTP_OFFSET + proc_num) →
  ∃ m', store_byte m proc_num vaddr val
          = Some (m', [Store_line proc_num vaddr phys_addr val]) ∧
        load_byte m' proc_num vaddr
          = Some [Load_line proc_num vaddr phys_addr val].
Proof.
  intros Hlen Hval Hpt Hentry Hphys%Z.eqb_neq phys_addr Hin Hne_entry Hne_dir.
  exists (<[Z.to_nat phys_addr := val `mod` 256]> m). split.
  - unfold store_byte. rewrite Hpt. simpl. rewrite Hentry. simpl.
    rewrite Hphys. fold phys_addr. by rewrite mem_set_Some.
  - unfold load_byte, get_page_table.
    rewrite mem_get_insert_ne by (done || lia).
    fold (get_page_table m proc_num). rewrite Hpt. simpl.
    rewrite mem_get_insert_ne by (done || lia).
    rewrite Hentry. simpl. rewrite Hphys. fold phys_addr.
    rewrite mem_get_insert_eq by done. simpl.
    by rewrite Z.mod_small.
Qed.

Lemma store_then_load_witness :
  ∃ m', store_byte (mem_after [Np 2 3]) 2 0 42
          = Some (m', [Store_line 2 0 (get_address 2 (Z.land 0 255)) 42]) ∧
        load_byte m' 2 0
          = Some [Load_line 2 0 (get_address 2 (Z.land 0 255)) 42].
Proof.
  apply (store_then_load (mem_after [Np 2 3]) 2 0 42 1 2); by vm_compute.
Defined.

(** C8 as stated fails, with no process killed.  After [np 1 1] process 1
    has page 1 as its page table.  Process 5 does not exist, so its store
    at 257 is translated through page 0 and lands in cell 257 of page 1:
    entry 1 of the table of process 1 now names page 1 itself.  Virtual
    page 1 of process 1 is mapped, to a nonzero page; the store of 0 at
    257 overwrites the entry that translated it, and the load that
    follows prints the fault instead of the value. *)
Lemma round_trip_fails_on_self_mapped_page :
  let m := mem_after [Np 1 1; Sb 5 257 1] in
  get_page_table m 1 = Some 1 ∧
  mem_get m (get_address 1 (257 ≫ PAGE_SHIFT)) = Some 1 ∧
  (∃ m', store_byte m 1 257 0 = Some (m', [Store_line 1 257 257 0]) ∧
         load_byte m' 1 257 = Some [Invalid_virtual_address] ∧
         ∀ phys_addr, load_byte m' 1 257 ≠ Some [Load_line 1 257 phys_addr 0]) ∧
  (r ← main [Np 1 1; Sb 5 257 1; Sb 1 257 0; Lb 1 257]; Some r.2)
    = Some [Store_line 5 257 257 1; Store_line 1 257 257 0;
            Invalid_virtual_address].
Proof.
  cbv zeta. split; [by vm_compute|]. split; [by vm_compute|].
  split; [|by vm_compute].
  eexists. split; [by vm_compute|].
  assert (∀ o : option (list event),
            o = Some [Invalid_virtual_address] →
            o = Some [Invalid_virtual_address] ∧
            ∀ phys_addr, o ≠ Some [Load_line 1 257 phys_addr 0]) as Hsplit.
  { intros o ->. split; [done|]. intros phys_addr. discriminate. }
  apply Hsplit. by vm_compute.
Qed.

(** * The model on the scenario of the specification *)

Example spec_scenario :
  (r ← main [Np 2 3; Ppt 2; Sb 2 0 42; Lb 2 0; Kp 2; Pfm]; Some r.2) =
  Some [Page_table_dump 2 [(0, 2); (1, 3); (2, 4)];
        Store_line 2 0 (get_address 2 0) 42;
        Load_line 2 0 (get_address 2 0) 42;
        Free_map_dump (true :: replicate 63 false)].
Proof. by vm_compute. Qed.

(** * Page 0 *)

Section PageZero.
Implicit Types (m : list Z) (a v : Z).

Lemma get_address_nonzero page offset :
  page ≠ 0 → get_address page offset ≠ 0.
Proof.
  intros Hpage Heq. unfold get_address in Heq.
  apply Z.lor_eq_0_l, Z.shiftl_eq_0_iff in Heq; [done|by unfold PAGE_SHIFT].
Qed.

Lemma mem_set_other m a v m' a' :
  mem_set m a v = Some m' → a ≠ a' → mem_get m' a' = mem_get m a'.
Proof.
  unfold mem_set. case_bool_decide as Ha; [|done].
  intros [= <-] Hne. apply mem_get_insert_ne; [lia|done].
Qed.

Lemma mem_set_length m a v m' :
  mem_set m a v = Some m' → length m' = length m.
Proof.
  unfold mem_set. case_bool_decide; [|done].
  intros [= <-]. apply length_insert.
Qed.

Lemma free_entries_length (n : nat) i pt_addr m m' :
  free_entries n i pt_addr m = Some m' → length m' = length m.
Proof.
  revert i m. induction n as [|n IH]; intros i m Hsweep; simpl in Hsweep.
  { by injection Hsweep as <-. }
  destruct (mem_get m (pt_addr + i)) as [d|]; [simpl in Hsweep|done].
  destruct (d =? 0); simpl in Hsweep; [by eapply IH|].
  destruct (mem_set m (get_address 0 d) 0) as [m1|] eqn:Hset; [|done].
  simpl in Hsweep. rewrite (IH _ _ Hsweep). by eapply mem_set_length.
Qed.

Lemma free_entries_cell_zero (n : nat) i pt_addr m m' :
  free_entries n i pt_addr m = Some m' → mem_get m' 0 = mem_get m 0.
Proof.
  revert i m. induction n as [|n IH]; intros i m Hsweep; simpl in Hsweep.
  { by injection Hsweep as <-. }
  destruct (mem_get m (pt_addr + i)) as [d|]; [simpl in Hsweep|done].
  destruct (Z.eqb_spec d 0) as [_|Hd]; simpl in Hsweep; [by eapply IH|].
  destruct (mem_set m (get_address 0 d) 0) as [m1|] eqn:Hset; [|done].
  simpl in Hsweep. rewrite (IH _ _ Hsweep).
  eapply mem_set_other; [done|]. by rewrite get_address_0_l.
Qed.

Lemma write_entries_cell_zero (n : nat) i pt_addr data_pages m m' :
  0 < pt_addr → 0 ≤ i →
  write_entries n i pt_addr data_pages m = Some m' →
  mem_get m' 0 = mem_get m 0.
Proof.
  intros Hpt. revert i m.
  induction n as [|n IH]; intros i m Hi Hwrite; simpl in Hwrite.
  { by injection Hwrite as <-. }
  destruct (data_pages !! Z.to_nat i) as [d|]; [simpl in Hwrite|done].
  destruct (d =? -1); simpl in Hwrite; [eapply IH; [|done]; lia|].
  destruct (mem_set m (pt_addr + i) d) as [m1|] eqn:Hset; [|done].
  simpl in Hwrite. rewrite (IH (i + 1) m1) by (lia || done).
  eapply mem_set_other; [done|lia].
Qed.

Lemma mark_all_page_zero_used m ps :
  length m = Z.to_nat MEM_SIZE →
  (∀ p, p ∈ ps → 0 ≤ p < PAGE_COUNT) →
  page_zero_used m → page_zero_used (mark_all m ps).
Proof.
  intros Hlen Hps (b & Hb & Hnz). unfold page_zero_used.
  rewrite get_address_0_l in *. rewrite mark_all_free_pages_get by done.
  destruct (decide (0 ∈ ps)); [by exists 1 | by exists b].
Qed.

Lemma new_process_page_zero_used m proc_num page_count m' out :
  length m = Z.to_nat MEM_SIZE → 0 ≤ proc_num → page_zero_used m →
  new_process m proc_num page_count = Some (m', out) → page_zero_used m'.
Proof.
  intros Hlen Hproc Hzero Hnew.
  destruct (decide (0 ≤ page_count ≤ STACK_INTS)) as [[Hpos Hfits]|Hneg].
  2:{ rewrite new_process_no_array in Hnew by done.
      destruct (free_pages m); [|done]. by injection Hnew as <- _. }
  rewrite new_process_first_fit in Hnew by done.
  destruct (free_pages m) as [|p ps] eqn:Hfree.
  { by injection Hnew as <- _. }
  assert (∀ q, q ∈ p :: ps → 0 ≤ q < PAGE_COUNT) as Hrange.
  { intros q Hq. apply (free_pages_range m). by rewrite Hfree. }
  cbv zeta in Hnew.
  destruct (decide (Z.to_nat page_count ≤ length ps)%nat) as [_|_].
  2:{ injection Hnew as <- _. by apply (mark_all_page_zero_used m (p :: ps)). }
  assert (page_zero_used (mark_all m (p :: take (Z.to_nat page_count) ps)))
    as (b & Hb & Hnz).
  { apply (mark_all_page_zero_used m (p :: take (Z.to_nat page_count) ps));
      [done| |done].
    intros q [->|Hq%elem_of_take]%elem_of_cons; apply Hrange; [left|].
    right. by destruct Hq as (? & ?%list_elem_of_lookup_2 & _). }
  assert (0 < p) as Hp.
  { destruct (free_pages_head_lowest m p ps Hfree) as (Hp & Hfp & _).
    destruct Hzero as (b0 & Hb0 & Hnz0). unfold is_free in Hfp.
    destruct (decide (p = 0)) as [->|]; [congruence|lia]. }
  unfold commit in Hnew.
  destruct (mem_set _ _ p) as [m3|] eqn:Hdir; [simpl in Hnew|done].
  destruct (write_entries _ 0 _ _ m3) as [m4|] eqn:Hwrite; [|done].
  injection Hnew as <- _. exists b. split; [|done].
  rewrite get_address_0_l in *.
  assert (0 < get_address p 0) as Hstart
    by (rewrite get_address_page_start; unfold PAGE_SIZE; lia).
  rewrite (write_entries_cell_zero _ 0 _ _ m3 m4 Hstart) by done.
  rewrite (mem_set_other _ _ _ _ 0 Hdir); [done|].
  unfold PTP_OFFSET. lia.
Qed.

Lemma kill_process_page_zero_used m proc_num m' out :
  0 ≤ proc_num → get_page_table m proc_num ≠ Some 0 → page_zero_used m →
  kill_process m proc_num = Some (m', out) → page_zero_used m'.
Proof.
  intros Hproc Hlive (b & Hb & Hnz) Hkill. unfold kill_process in Hkill.
  remember (Z.to_nat PAGE_COUNT) as n eqn:Hn in Hkill. clear Hn.
  destruct (get_page_table m proc_num) as [pt_page|]; [simpl in Hkill|done].
  destruct (free_entries _ 0 _ m) as [m1|] eqn:Hsweep; [simpl in Hkill|done].
  destruct (mem_set m1 _ 0) as [m2|] eqn:Hpt; [simpl in Hkill|done].
  destruct (mem_set m2 _ 0) as [m3|] eqn:Hdir; [simpl in Hkill|done].
  injection Hkill as <- _. exists b. split; [|done].
  rewrite get_address_0_l in *.
  rewrite (mem_set_other _ _ _ _ 0 Hdir) by (unfold PTP_OFFSET; lia).
  rewrite (mem_set_other _ _ _ _ 0 Hpt) by congruence.
  by rewrite (free_entries_cell_zero _ _ _ _ _ Hsweep).
Qed.

Lemma store_byte_page_zero_used m proc_num vaddr val m' out :
  page_zero_used m →
  store_byte m proc_num vaddr val = Some (m', out) → page_zero_used m'.
Proof.
  intros Hzero Hstore. unfold store_byte in Hstore.
  destruct (get_page_table m proc_num) as [pt_page|]; [simpl in Hstore|done].
  destruct (mem_get m _) as [phys_page|]; [simpl in Hstore|done].
  destruct (Z.eqb_spec phys_page 0) as [_|Hphys].
  { by injection Hstore as <- _. }
  destruct (mem_set m _ val) as [m1|] eqn:Hset; [simpl in Hstore|done].
  injection Hstore as <- _. destruct Hzero as (b & Hb & Hnz).
  exists b. split; [|done]. rewrite get_address_0_l in *.
  rewrite (mem_set_other _ _ _ _ 0 Hset); [done|].
  by apply get_address_nonzero.
Qed.

(** Every command keeps page 0 marked used, except a [kp] of a process
    that has no page table (and commands with a negative process number). *)
Lemma page_zero_stays_used m c m' out :
  length m = Z.to_nat MEM_SIZE → page_zero_used m → names_live_process m c →
  exec m c = Some (m', out) → page_zero_used m'.
Proof.
  intros Hlen Hzero Hlive Hexec. destruct c as [|p|p n|p|p a v|p a]; simpl in *.
  - destruct (print_page_free_map m); [|done]. by injection Hexec as <- _.
  - destruct (print_page_table m p); [|done]. by injection Hexec as <- _.
  - by eapply new_process_page_zero_used.
  - destruct Hlive. by eapply kill_process_page_zero_used.
  - by eapply store_byte_page_zero_used.
  - destruct (load_byte m p a); [|done]. by injection Hexec as <- _.
Qed.

Lemma write_entries_length (n : nat) i pt_addr data_pages m m' :
  write_entries n i pt_addr data_pages m = Some m' → length m' = length m.
Proof.
  revert i m. induction n as [|n IH]; intros i m Hwrite; simpl in Hwrite.
  { by injection Hwrite as <-. }
  destruct (data_pages !! Z.to_nat i) as [d|]; [simpl in Hwrite|done].
  destruct (d =? -1); simpl in Hwrite; [by eapply IH|].
  destruct (mem_set m (pt_addr + i) d) as [m1|] eqn:Hset; [|done].
  simpl in Hwrite. rewrite (IH _ _ Hwrite). by eapply mem_set_length.
Qed.

Lemma new_process_length m proc_num page_count m' out :
  length m = Z.to_nat MEM_SIZE →
  new_process m proc_num page_count = Some (m', out) → length m' = length m.
Proof.
  intros Hlen Hnew. destruct (decide (0 ≤ page_count ≤ STACK_INTS)) as [[Hpos Hfits]|Hneg].
  2:{ rewrite new_process_no_array in Hnew by done.
      destruct (free_pages m); [|done]. by injection Hnew as <- _. }
  rewrite new_process_first_fit in Hnew by done.
  destruct (free_pages m) as [|p ps]; [by injection Hnew as <- _|].
  cbv zeta in Hnew.
  destruct (decide (Z.to_nat page_count ≤ length ps)%nat) as [_|_].
  2:{ injection Hnew as <- _. apply (mark_all_length m (p :: ps)). }
  unfold commit in Hnew.
  destruct (mem_set _ _ p) as [m3|] eqn:Hdir; [simpl in Hnew|done].
  destruct (write_entries _ 0 _ _ m3) as [m4|] eqn:Hwrite; [|done].
  injection Hnew as <- _.
  rewrite (write_entries_length _ _ _ _ _ _ Hwrite).
  rewrite (mem_set_length _ _ _ _ Hdir).
  apply (mark_all_length m (p :: take (Z.to_nat page_count) ps)).
Qed.

Lemma exec_length m c m' out :
  length m = Z.to_nat MEM_SIZE →
  exec m c = Some (m', out) → length m' = length m.
Proof.
  intros Hlen Hexec. destruct c as [|p|p n|p|p a v|p a]; simpl in Hexec.
  - destruct (print_page_free_map m); [|done]. by injection Hexec as <- _.
  - destruct (print_page_table m p); [|done]. by injection Hexec as <- _.
  - by eapply new_process_length.
  - unfold kill_process in Hexec.
    remember (Z.to_nat PAGE_COUNT) as k eqn:Hk in Hexec. clear Hk.
    destruct (get_page_table m p) as [pt_page|]; [simpl in Hexec|done].
    destruct (free_entries _ 0 _ m) as [m1|] eqn:Hsweep; [simpl in Hexec|done].
    destruct (mem_set m1 _ 0) as [m2|] eqn:Hpt; [simpl in Hexec|done].
    destruct (mem_set m2 _ 0) as [m3|] eqn:Hdir; [simpl in Hexec|done].
    injection Hexec as <- _.
    rewrite (mem_set_length _ _ _ _ Hdir), (mem_set_length _ _ _ _ Hpt).
    by eapply free_entries_length.
  - unfold store_byte in Hexec.
    destruct (get_page_table m p) as [pt_page|]; [simpl in Hexec|done].
    destruct (mem_get m _) as [phys_page|]; [simpl in Hexec|done].
    destruct (phys_page =? 0); [by injection Hexec as <- _|].
    destruct (mem_set m _ _) as [m1|] eqn:Hset; [simpl in Hexec|done].
    injection Hexec as <- _. by eapply mem_set_length.
  - destruct (load_byte m p a); [|done]. by injection Hexec as <- _.
Qed.

(** Page 0 is marked used after every run from the initial memory in
    which no [kp] names a process without a page table (and no process
    number is negative). *)
Lemma page_zero_used_after_live_run cs m out :
  live_run initialize_mem cs →
  main cs = Some (m, out) → page_zero_used m.
Proof.
  unfold main.
  assert (length initialize_mem = Z.to_nat MEM_SIZE) as Hlen by done.
  assert (page_zero_used initialize_mem) as Hzero.
  { exists 1. split; [by vm_compute|done]. }
  revert Hlen Hzero. generalize initialize_mem as m0. revert m out.
  induction cs as [|c cs IH]; intros m out m0 Hlen Hzero Hlive Hrun.
  { simpl in Hrun. by injection Hrun as <- _. }
  simpl in Hrun, Hlive. destruct Hlive as [Hc Hrest].
  destruct (exec m0 c) as [[m1 out1]|] eqn:Hexec; [simpl in Hrun|done].
  destruct (exec_all m1 cs) as [[m2 out2]|] eqn:Hall; [simpl in Hrun|done].
  injection Hrun as <- _.
  apply (IH m2 out2 m1); [|by eapply page_zero_stays_used|done..].
  by rewrite (exec_length _ _ _ _ Hlen Hexec).
Qed.

(** For every process without a page table, a [kill_process] that runs to
    its end prints nothing and leaves the free-map byte of page 0 at 0. *)
Lemma kill_process_absent_clears_page_zero m proc_num m' out :
  length m = Z.to_nat MEM_SIZE →
  get_page_table m proc_num = Some 0 →
  kill_process m proc_num = Some (m', out) →
  out = [] ∧ mem_get m' (get_address 0 0) = Some 0.
Proof.
  intros Hlen Hdir Hkill. unfold kill_process in Hkill.
  remember (Z.to_nat PAGE_COUNT) as n eqn:Hn in Hkill. clear Hn.
  rewrite Hdir in Hkill. cbn [mbind option_bind] in Hkill.
  destruct (free_entries _ 0 _ m) as [m1|] eqn:Hsweep; [|done].
  cbn [mbind option_bind] in Hkill.
  rewrite (mem_set_Some m1 (get_address 0 0)) in Hkill by done.
  cbn [mbind option_bind] in Hkill.
  destruct (mem_set _ _ 0) as [m3|] eqn:Hset; [|done].
  injection Hkill as <- <-. split; [done|].
  unfold mem_set in Hset. case_bool_decide as Ha; [|done].
  injection Hset as <-. rewrite !get_address_0_l in *.
  apply free_entries_length in Hsweep.
  assert (Z.to_nat 0 < length m1)%nat as Hin
    by (rewrite Hsweep, Hlen; unfold MEM_SIZE; lia).
  change (0 `mod` 256) with 0.
  destruct (decide (PTP_OFFSET + proc_num = 0)) as [->|Hne].
  - rewrite mem_get_lookup by done. apply list_lookup_insert_eq.
    by rewrite length_insert.
  - rewrite mem_get_insert_ne by (done || lia).
    rewrite mem_get_lookup by done. by apply list_lookup_insert_eq.
Qed.
End PageZero.

(** * [new_process] followed by [kill_process] *)

Section CreateDestroy.
Implicit Types (m : list Z) (a d : Z) (ds es : list Z).

Lemma clear_all_length m ds : length (clear_all m ds) = length m.
Proof.
  revert m. induction ds as [|d ds IH]; intros m; [done|].
  simpl. unfold clear_all in IH. by rewrite IH, length_insert.
Qed.

Lemma mem_get_clear_all_other m ds a :
  (∀ d, d ∈ ds → 0 ≤ d) → a ∉ ds →
  mem_get (clear_all m ds) a = mem_get m a.
Proof.
  revert m. induction ds as [|d ds IH]; intros m Hpos Hnot; [done|].
  apply not_elem_of_cons in Hnot as [Hne Hnot]. simpl.
  unfold clear_all in IH. rewrite IH; [|by intros q Hq; apply Hpos; right|done].
  apply mem_get_insert_ne; [apply Hpos; left | done].
Qed.

Lemma mem_get_clear_all_elem m ds a :
  length m = Z.to_nat MEM_SIZE →
  (∀ d, d ∈ ds → 0 ≤ d) → 0 ≤ a < MEM_SIZE → a ∈ ds →
  mem_get (clear_all m ds) a = Some 0.
Proof.
  revert m. induction ds as [|d ds IH]; intros m Hlen Hpos Ha Hin.
  { by apply elem_of_nil in Hin. }
  simpl. destruct (decide (a ∈ ds)) as [Hds|Hds].
  - unfold clear_all in IH.
    apply IH; [by rewrite length_insert| |done..].
    intros q Hq. apply Hpos. by right.
  - apply elem_of_cons in Hin as [->|?]; [|done].
    change (foldl _ (<[Z.to_nat d := 0]> m) ds)
      with (clear_all (<[Z.to_nat d := 0]> m) ds).
    rewrite mem_get_clear_all_other; [|by intros q Hq; apply Hpos; right|done].
    by apply mem_get_insert_eq.
Qed.

(** The sweep of [kill_process] over a table whose entries [es] all lie
    below the table: it clears the cells named by the nonzero entries. *)
Lemma free_entries_clear es i pt_addr m :
  0 ≤ i →
  (∀ (k : nat) e, es !! k = Some e →
     mem_get m (pt_addr + (i + Z.of_nat k)) = Some e ∧ 0 ≤ e < pt_addr) →
  pt_addr ≤ MEM_SIZE →
  free_entries (length es) i pt_addr m
    = Some (clear_all m (filter (λ e, e ≠ 0) es)).
Proof.
  revert i m. induction es as [|e es IH]; intros i m Hi Hes Hpt; [done|].
  cbn [length free_entries].
  destruct (Hes 0%nat e) as [He Hrange]; [done|].
  rewrite Z.add_0_r in He. rewrite He. cbn [mbind option_bind].
  destruct (Z.eqb_spec e 0) as [->|Hnz]; cbn [mbind option_bind].
  - rewrite filter_cons_False by (by intros ?). apply IH; [lia| |done].
    intros k e' Hk. specialize (Hes (S k) e' Hk).
    by replace (i + 1 + Z.of_nat k) with (i + Z.of_nat (S k)) by lia.
  - rewrite filter_cons_True by done. rewrite get_address_0_l.
    rewrite mem_set_Some by lia. cbn [mbind option_bind].
    change (0 `mod` 256) with 0. apply IH; [lia| |done].
    intros k e' Hk. specialize (Hes (S k) e' Hk) as [Hget Hbelow].
    split; [|done]. rewrite mem_get_insert_ne by lia.
    by replace (i + 1 + Z.of_nat k) with (i + Z.of_nat (S k)) by lia.
Qed.

(** The loop that fills the page table, cell by cell. *)
Lemma write_entries_get (n : nat) i pt_addr data_pages m :
  length m = Z.to_nat MEM_SIZE →
  0 ≤ i → 0 ≤ pt_addr → pt_addr + i + Z.of_nat n ≤ MEM_SIZE →
  (Z.to_nat i + n ≤ length data_pages)%nat →
  Forall (λ d, 0 ≤ d < 256) data_pages →
  ∃ m', write_entries n i pt_addr data_pages m = Some m' ∧
        length m' = length m ∧
        ∀ a, mem_get m' a =
               if decide (pt_addr + i ≤ a < pt_addr + i + Z.of_nat n)
               then data_pages !! Z.to_nat (a - pt_addr)
               else mem_get m a.
Proof.
  revert i m. induction n as [|n IH]; intros i m Hlen Hi Hpt Hend Hdata Hbytes.
  { exists m. split; [done|]. split; [done|]. intros a.
    by rewrite decide_False by lia. }
  cbn [write_entries].
  destruct (lookup_lt_is_Some_2 data_pages (Z.to_nat i)) as [d Hd]; [lia|].
  rewrite Hd. cbn [mbind option_bind].
  pose proof (Forall_lookup_1 _ _ _ _ Hbytes Hd) as Hbyte. simpl in Hbyte.
  destruct (Z.eqb_spec d (-1)) as [?|_]; [lia|].
  rewrite mem_set_Some by lia. cbn [mbind option_bind].
  rewrite Z.mod_small by done.
  destruct (IH (i + 1) (<[Z.to_nat (pt_addr + i) := d]> m))
    as (m' & -> & Hlen' & Hget); [by rewrite length_insert|lia..|done|].
  exists m'. split; [done|]. split; [by rewrite Hlen', length_insert|].
  intros a. rewrite Hget.
  destruct (decide (pt_addr + (i + 1) ≤ a < pt_addr + (i + 1) + Z.of_nat n)).
  { by rewrite decide_True by lia. }
  destruct (decide (a = pt_addr + i)) as [->|Hne].
  - rewrite decide_True by lia.
    rewrite mem_get_insert_eq by (done || lia).
    by replace (pt_addr + i - pt_addr) with i by lia.
  - rewrite decide_False by lia. apply mem_get_insert_ne; lia.
Qed.

Lemma page_is_clear_sound m p i :
  page_is_clear m p = true → 0 ≤ i < PAGE_COUNT →
  mem_get m (get_address p 0 + i) = Some 0.
Proof.
  unfold page_is_clear. rewrite forallb_forall. intros Hall Hi.
  eapply bool_decide_eq_true_1, Hall.
  apply list_elem_of_In, elem_of_seqZ. lia.
Qed.

Lemma page_is_clear_from_sound m p k i :
  page_is_clear_from m p k = true → k ≤ i < PAGE_COUNT →
  mem_get m (get_address p 0 + i) = Some 0.
Proof.
  unfold page_is_clear_from. rewrite forallb_forall. intros Hall Hi.
  eapply bool_decide_eq_true_1, Hall.
  apply list_elem_of_In, elem_of_seqZ. lia.
Qed.

Lemma free_map_snapshot_ext m m' :
  (∀ i, 0 ≤ i < PAGE_COUNT →
     mem_get m' (get_address 0 i) = mem_get m (get_address 0 i)) →
  free_map_snapshot m' = free_map_snapshot m.
Proof.
  intros Hsame. unfold free_map_snapshot.
  assert (Forall (λ i, 0 ≤ i < PAGE_COUNT) (seqZ 0 64)) as Hall.
  { apply Forall_forall. intros i Hi%elem_of_seqZ. unfold PAGE_COUNT. lia. }
  induction Hall as [|i l Hi _ IH]; [done|].
  cbn [mapM]. by rewrite (Hsame i Hi), IH.
Qed.
End CreateDestroy.

Section CreateDestroyProof.
Implicit Types (m : list Z) (a d : Z) (ds es : list Z).

Lemma filter_nonzero_entries ds (k : nat) :
  Forall (λ d, d ≠ 0) ds →
  filter (λ e, e ≠ 0) (ds ++ replicate k 0) = ds.
Proof.
  intros Hds. rewrite filter_app.
  replace (filter (λ e, e ≠ 0) (replicate k 0)) with (@nil Z).
  2:{ induction k as [|k IH]; [done|]. simpl.
      by rewrite filter_cons_False by (by intros ?). }
  rewrite app_nil_r. induction Hds as [|d ds Hd _ IH]; [done|].
  by rewrite filter_cons_True, IH by done.
Qed.

(** What a successful [new_process] leaves in memory, when page 0 is used
    and the directory byte of the process lies in page 0. *)
Lemma new_process_success m proc_num page_count m1 :
  length m = Z.to_nat MEM_SIZE → page_zero_used m →
  0 ≤ proc_num → PTP_OFFSET + proc_num < PAGE_SIZE →
  new_process m proc_num page_count = Some (m1, []) →
  ∃ pt_page data_pages,
    lowest_free m pt_page ∧
    NoDup (pt_page :: data_pages) ∧
    (∀ q, q ∈ pt_page :: data_pages → 0 < q < PAGE_COUNT ∧ is_free m q) ∧
    Z.of_nat (length data_pages) = page_count ∧
    Z.of_nat (length data_pages) < PAGE_COUNT ∧
    length m1 = length m ∧
    ∀ a, mem_get m1 a =
      if decide (get_address pt_page 0 ≤ a
                 < get_address pt_page 0 + Z.of_nat (length data_pages))
      then data_pages !! Z.to_nat (a - get_address pt_page 0)
      else if decide (a = PTP_OFFSET + proc_num) then Some pt_page
      else if decide (a ∈ pt_page :: data_pages) then Some 1
      else mem_get m a.
Proof.
  intros Hlen Hzero Hproc Hdir Hnew.
  destruct (decide (0 ≤ page_count ≤ STACK_INTS)) as [[Hpos Hfits]|Hneg].
  2:{ rewrite new_process_no_array in Hnew by done.
      by destruct (free_pages m). }
  rewrite new_process_first_fit in Hnew by done.
  pose proof (free_pages_length m) as Hfree_len.
  destruct (free_pages m) as [|pt_page ps] eqn:Hfree; [done|].
  cbv zeta in Hnew.
  destruct (decide (Z.to_nat page_count ≤ length ps)%nat) as [Hle|_]; [|done].
  set (data := take (Z.to_nat page_count) ps) in *.
  assert (∀ q, q ∈ data → q ∈ ps) as Hdata_in.
  { intros q (k & Hk & _)%elem_of_take. by eapply list_elem_of_lookup_2. }
  assert (∀ q, q ∈ pt_page :: ps → 0 < q < PAGE_COUNT ∧ is_free m q) as Hpages.
  { intros q Hq. rewrite <- Hfree in Hq.
    pose proof (free_pages_range m q Hq) as Hrange.
    apply list_elem_of_filter in Hq as [Hq _]. split; [|done].
    destruct (decide (q = 0)) as [->|]; [|lia].
    destruct Hzero as (b & Hb & Hnz). unfold is_free in Hq. congruence. }
  assert (NoDup (pt_page :: ps)) as Hnodup.
  { rewrite <- Hfree. apply NoDup_filter, NoDup_seqZ. }
  assert (length data = Z.to_nat page_count) as Hdata_len
    by (by apply length_take_le).
  destruct (Hpages pt_page) as [Hpt _]; [left|].
  exists pt_page, data. split; [by eapply free_pages_head_lowest|].
  split.
  { apply NoDup_cons. split.
    - intros Hin%Hdata_in. by apply NoDup_cons_1_1 in Hnodup.
    - apply NoDup_cons_1_2 in Hnodup. subst data.
      eapply sublist_NoDup; [done|apply sublist_take]. }
  split.
  { intros q [->|Hq%Hdata_in]%elem_of_cons; apply Hpages; [left|by right]. }
  split; [lia|]. split.
  { rewrite Hdata_len. simpl in Hfree_len. unfold PAGE_COUNT. lia. }
  unfold commit in Hnew. rewrite get_address_0_l in Hnew.
  rewrite mem_set_Some in Hnew
    by (unfold PTP_OFFSET, PAGE_SIZE, MEM_SIZE in *; lia).
  cbn [mbind option_bind] in Hnew.
  rewrite (Z.mod_small pt_page) in Hnew by (unfold PAGE_COUNT in *; lia).
  pose proof (get_address_page_start pt_page) as Hstart.
  destruct (write_entries_get (length data) 0 (get_address pt_page 0) data
              (<[Z.to_nat (PTP_OFFSET + proc_num) := pt_page]>
                 (mark_all m (pt_page :: data))))
    as (m1' & Hwrite & Hlen1 & Hget).
  { by rewrite length_insert, mark_all_length. }
  { done. }
  { rewrite Hstart. unfold PAGE_SIZE. lia. }
  { rewrite Hstart, Hdata_len. simpl in Hfree_len.
    unfold PAGE_SIZE, PAGE_COUNT, MEM_SIZE in *. lia. }
  { simpl. lia. }
  { apply Forall_forall. intros q Hq.
    destruct (Hpages q) as [? _]; [right; by apply Hdata_in|].
    unfold PAGE_COUNT in *. lia. }
  rewrite Hwrite in Hnew. cbn [mbind option_bind] in Hnew.
  injection Hnew as <-.
  split; [by rewrite Hlen1, length_insert, mark_all_length|].
  intros a. rewrite Hget, Z.add_0_r.
  destruct (decide (_ ≤ a < _)); [done|].
  destruct (decide (a = PTP_OFFSET + proc_num)) as [->|Hne].
  { apply mem_get_insert_eq; [by rewrite mark_all_length|].
    unfold PTP_OFFSET, PAGE_SIZE, MEM_SIZE in *. lia. }
  rewrite mem_get_insert_ne by (unfold PTP_OFFSET in *; lia || done).
  apply mark_all_free_pages_get; [done|].
  intros q [->|Hq%Hdata_in]%elem_of_cons.
  - lia.
  - destruct (Hpages q); [by right|lia].
Qed.
End CreateDestroyProof.

(** X25. Create, then destroy, on a page whose later entries are 0.  Let
    page 0 be marked used and let the directory byte of [proc_num] lie in
    page 0.  If the page that a successful [new_process] takes as page
    table (the free page of lowest index) holds 0 in its entries from
    [page_count] on before the call, then [kill_process] on the new
    process runs to its end, prints nothing and gives every byte of the
    free map the value it had before the [new_process]; the two free-map
    snapshots are equal.  What the first [page_count] entries held before
    the call does not matter: [new_process] overwrites them. *)
Theorem kill_after_create_restores_free_map m proc_num page_count m1 :
  length m = Z.to_nat MEM_SIZE →
  page_zero_used m →
  0 ≤ proc_num → PTP_OFFSET + proc_num < PAGE_SIZE →
  (∀ p i, lowest_free m p → page_count ≤ i < PAGE_COUNT →
     mem_get m (get_address p 0 + i) = Some 0) →
  new_process m proc_num page_count = Some (m1, []) →
  ∃ m2, kill_process m1 proc_num = Some (m2, []) ∧
        (∀ i, 0 ≤ i < PAGE_COUNT →
           mem_get m2 (get_address 0 i) = mem_get m (get_address 0 i)) ∧
        free_map_snapshot m2 = free_map_snapshot m.
Proof.
  intros Hlen Hzero Hproc Hdir Hclean Hnew.
  destruct (new_process_success m proc_num page_count m1)
    as (pt_page & data & Hlow & Hnodup & Hpages & Hdata_count & Hcount
        & Hlen1 & Hget);
    [done..|].
  specialize (Hclean pt_page). pose proof (λ i, Hclean i Hlow) as Hzeros.
  clear Hclean. destruct (Hpages pt_page) as [Hpt Hpt_free]; [left|].
  pose proof (get_address_page_start pt_page) as Hstart.
  set (pt_addr := get_address pt_page 0) in *.
  assert (PAGE_SIZE ≤ pt_addr ∧ pt_addr + PAGE_COUNT ≤ MEM_SIZE) as Htable
    by (unfold PAGE_SIZE, PAGE_COUNT, MEM_SIZE in *; lia).
  assert (∀ q, q ∈ data → 0 < q < PAGE_COUNT ∧ is_free m q) as Hdata
    by (intros q Hq; apply Hpages; by right).
  assert (pt_page ∉ data) as Hpt_data by (by apply NoDup_cons_1_1).
  assert (Z.to_nat PAGE_COUNT
          = length (data ++ replicate (64 - length data) 0)) as Hes.
  { rewrite length_app, length_replicate. unfold PAGE_COUNT in *. lia. }
  unfold kill_process.
  assert (get_page_table m1 proc_num = Some pt_page) as ->.
  { unfold get_page_table. rewrite get_address_0_l, Hget.
    rewrite decide_False by (unfold PAGE_SIZE in *; lia).
    by rewrite decide_True. }
  cbn [mbind option_bind]. fold pt_addr. rewrite Hes.
  rewrite free_entries_clear; [|done| |lia].
  2:{ intros k e Hk. rewrite Z.add_0_l, Hget.
      destruct (decide (k < length data)%nat) as [Hlt|Hge].
      - rewrite lookup_app_l in Hk by done.
        rewrite decide_True by lia.
        replace (Z.to_nat (pt_addr + Z.of_nat k - pt_addr)) with k by lia.
        split; [done|]. apply list_elem_of_lookup_2, Hdata in Hk as [? _].
        unfold PAGE_SIZE, PAGE_COUNT in *. lia.
      - rewrite lookup_app_r in Hk by lia.
        apply lookup_replicate in Hk as [-> Hk].
        rewrite decide_False by lia.
        rewrite decide_False by (unfold PAGE_SIZE in *; lia).
        rewrite decide_False.
        2:{ intros Hin%Hpages. unfold PAGE_SIZE, PAGE_COUNT in *. lia. }
        split; [|unfold PAGE_SIZE in *; lia].
        apply Hzeros. unfold PAGE_COUNT in *. lia. }
  cbn [mbind option_bind].
  rewrite filter_nonzero_entries.
  2:{ apply Forall_forall. intros q [? _]%Hdata. lia. }
  rewrite !get_address_0_l.
  rewrite mem_set_Some by (unfold PAGE_COUNT, MEM_SIZE in *; lia).
  cbn [mbind option_bind].
  rewrite mem_set_Some by (unfold PTP_OFFSET, PAGE_SIZE, MEM_SIZE in *; lia).
  cbn [mbind option_bind]. change (0 `mod` 256) with 0.
  eexists. split; [done|].
  assert (∀ i, 0 ≤ i < PAGE_COUNT →
            mem_get (<[Z.to_nat (PTP_OFFSET + proc_num) := 0]>
                       (<[Z.to_nat pt_page := 0]> (clear_all m1 data)))
                    (get_address 0 i)
            = mem_get m (get_address 0 i)) as Hsame.
  { intros i Hi. rewrite get_address_0_l.
    rewrite mem_get_insert_ne by (unfold PTP_OFFSET, PAGE_COUNT in *; lia).
    destruct (decide (i = pt_page)) as [->|Hne].
    { rewrite mem_get_insert_eq
        by (rewrite ?clear_all_length, ?Hlen1;
            done || unfold PAGE_COUNT, MEM_SIZE in *; lia).
      unfold is_free in Hpt_free. by rewrite get_address_0_l in Hpt_free. }
    rewrite mem_get_insert_ne by (lia || done).
    destruct (decide (i ∈ data)) as [Hin|Hnot].
    - rewrite mem_get_clear_all_elem;
        [|by rewrite Hlen1|by intros q [? _]%Hdata; lia
         |unfold PAGE_COUNT, MEM_SIZE in *; lia|done].
      apply Hdata in Hin as [_ Hfree]. unfold is_free in Hfree.
      by rewrite get_address_0_l in Hfree.
    - rewrite mem_get_clear_all_other;
        [|by intros q [? _]%Hdata; lia|done].
      rewrite Hget. rewrite decide_False by (unfold PAGE_SIZE, PAGE_COUNT in *; lia).
      rewrite decide_False by (unfold PTP_OFFSET, PAGE_COUNT in *; lia).
      rewrite decide_False; [done|].
      by intros [->|?]%elem_of_cons. }
  split; [done|]. by apply free_map_snapshot_ext.
Qed.

Lemma kill_after_create_restores_free_map_witness :
  mem_get (mem_after [Np 1 2; Kp 1]) (get_address 1 0 + 1) = Some 3 ∧
  new_process (mem_after [Np 1 2; Kp 1]) 2 2
    = Some (mem_after [Np 1 2; Kp 1; Np 2 2], []) ∧
  ∃ m2, kill_process (mem_after [Np 1 2; Kp 1; Np 2 2]) 2 = Some (m2, []) ∧
        (∀ i, 0 ≤ i < PAGE_COUNT →
           mem_get m2 (get_address 0 i)
             = mem_get (mem_after [Np 1 2; Kp 1]) (get_address 0 i)) ∧
        free_map_snapshot m2 = free_map_snapshot (mem_after [Np 1 2; Kp 1]).
Proof.
  split; [by vm_compute|]. split; [by vm_compute|].
  apply (kill_after_create_restores_free_map (mem_after [Np 1 2; Kp 1]) 2 2);
    [by vm_compute|by exists 1; split; [by vm_compute|]|done|done| |by vm_compute].
  intros p i Hlow Hi.
  assert (p = 1) as ->.
  { eapply lowest_free_unique; [done|].
    split; [done|]. split; [by vm_compute|].
    intros j Hj. assert (j = 0) as -> by lia. by vm_compute. }
  apply (page_is_clear_from_sound _ 1 2); [by vm_compute|done].
Defined.

(** * [kill_process] on a process without a page table *)

Section KillAbsent.
Implicit Types (m : list Z) (a : Z).

(** The sweep over page 0 taken as a page table: it writes inside the free
    map only. *)
Lemma free_entries_over_free_map (n : nat) i m :
  length m = Z.to_nat MEM_SIZE → free_map_names_pages m →
  0 ≤ i → i + Z.of_nat n ≤ PAGE_COUNT →
  ∃ m', free_entries n i 0 m = Some m' ∧
        length m' = length m ∧
        ∀ a, PAGE_COUNT ≤ a → mem_get m' a = mem_get m a.
Proof.
  revert i m. induction n as [|n IH]; intros i m Hlen Hmap Hi Hn.
  { by exists m. }
  cbn [free_entries]. rewrite Z.add_0_l.
  destruct (Hmap i) as (b & Hb & Hrange); [lia|].
  rewrite get_address_0_l in Hb. rewrite Hb. cbn [mbind option_bind].
  destruct (Z.eqb_spec b 0) as [->|Hnz]; cbn [mbind option_bind].
  { apply IH; [done..|lia|lia]. }
  rewrite get_address_0_l.
  rewrite mem_set_Some by (unfold PAGE_COUNT, MEM_SIZE in *; lia).
  cbn [mbind option_bind]. change (0 `mod` 256) with 0.
  destruct (IH (i + 1) (<[Z.to_nat b := 0]> m)) as (m' & Hsweep & Hlen' & Hsame);
    [by rewrite length_insert| |lia|lia|].
  { intros j Hj. rewrite get_address_0_l.
    destruct (decide (j = b)) as [->|Hne].
    - exists 0. rewrite mem_get_insert_eq
        by (done || unfold PAGE_COUNT, MEM_SIZE in *; lia).
      split; [done|by unfold PAGE_COUNT].
    - rewrite mem_get_insert_ne by (lia || done).
      rewrite <- (get_address_0_l j). by apply Hmap. }
  rewrite Hsweep. exists m'. split; [done|]. split; [by rewrite Hlen', length_insert|].
  intros a Ha. rewrite Hsame by done.
  apply mem_get_insert_ne; lia.
Qed.

Lemma free_map_names_pages_check m :
  forallb (names_page m) (seqZ 0 PAGE_COUNT) = true → free_map_names_pages m.
Proof.
  intros Hall i Hi. rewrite forallb_forall in Hall.
  specialize (Hall i). unfold names_page in Hall.
  destruct (mem_get m (get_address 0 i)) as [b|].
  - exists b. split; [done|]. eapply bool_decide_eq_true_1, Hall.
    apply list_elem_of_In, elem_of_seqZ. lia.
  - discriminate Hall. apply list_elem_of_In, elem_of_seqZ. lia.
Qed.
End KillAbsent.

(** C1, as the code has it.  [kill_process] has no process-not-found
    condition: for a process whose directory byte is 0 it runs to its end
    and prints nothing.  In a memory whose free-map bytes are page indices
    it then changes no byte outside the free map: no directory byte and
    nothing in the pages 1 to 63. *)
Theorem absent_kill_stays_in_free_map m proc_num :
  length m = Z.to_nat MEM_SIZE → free_map_names_pages m →
  get_page_table m proc_num = Some 0 →
  ∃ m', kill_process m proc_num = Some (m', []) ∧
        ∀ a, PAGE_COUNT ≤ a → mem_get m' a = mem_get m a.
Proof.
  intros Hlen Hmap Hdir. unfold kill_process. rewrite Hdir.
  cbn [mbind option_bind]. rewrite (get_address_0_l 0).
  destruct (free_entries_over_free_map (Z.to_nat PAGE_COUNT) 0 m)
    as (m1 & -> & Hlen1 & Hsame); [done..|by unfold PAGE_COUNT|].
  cbn [mbind option_bind].
  unfold get_page_table in Hdir. rewrite !get_address_0_l in *.
  pose proof (mem_get_Some_range _ _ _ Hdir) as Hproc.
  rewrite (mem_set_Some m1 0) by done. cbn [mbind option_bind].
  rewrite mem_set_Some by done. cbn [mbind option_bind].
  change (0 `mod` 256) with 0. eexists. split; [done|].
  intros a Ha. destruct (decide (a = PTP_OFFSET + proc_num)) as [->|Hne].
  - rewrite mem_get_insert_eq by (by rewrite ?length_insert, ?Hlen1). done.
  - rewrite !mem_get_insert_ne by (done || unfold PAGE_COUNT in *; lia).
    by apply Hsame.
Qed.

Lemma absent_kill_stays_in_free_map_witness :
  get_page_table (mem_after [Np 1 1]) 7 = Some 0 ∧
  ∃ m', kill_process (mem_after [Np 1 1]) 7 = Some (m', []) ∧
        ∀ a, PAGE_COUNT ≤ a → mem_get m' a = mem_get (mem_after [Np 1 1]) a.
Proof.
  split; [by vm_compute|].
  apply (absent_kill_stays_in_free_map (mem_after [Np 1 1]) 7); [by vm_compute| |by vm_compute].
  apply free_map_names_pages_check. by vm_compute.
Defined.

(** * Where the code departs from the specification *)

(** C1 as stated fails: [kill_process] makes no report.  Right after
    [initialize_mem] process 5 is absent (its directory byte is 0), and
    [kill_process 5] runs to its end without printing; the same holds for
    [kp 7] with process 1 in place.  The function has no output
    statement and no test of the directory byte. *)
Lemma kill_process_absent_reports_nothing :
  get_page_table initialize_mem 5 = Some 0 ∧
  (∃ m', kill_process initialize_mem 5 = Some (m', [])) ∧
  (r ← main [Kp 5]; Some r.2) = Some [] ∧
  get_page_table (mem_after [Np 1 1]) 7 = Some 0 ∧
  (r ← main [Np 1 1; Kp 7]; Some r.2) = Some [].
Proof.
  split; [by vm_compute|]. split; [eexists; by vm_compute|].
  split; [by vm_compute|]. split; by vm_compute.
Qed.

(** C2 fails on the code.  The run [kp 5] from the initial memory is a
    sequence of the four operations, and it leaves the free-map byte of
    page 0 at 0; the next [np] then takes page 0 as a page table. *)
Lemma page_zero_freed :
  ∃ m out, main [Kp 5] = Some (m, out) ∧
    mem_get m (get_address 0 0) = Some 0 ∧
    ¬ page_zero_used m ∧
    free_map_snapshot m = Some (replicate 64 false) ∧
    (r ← main [Kp 5; Np 1 1; Ppt 1]; Some r.2)
      = Some [Page_table_dump 1 [(0, 1); (1, 1)]].
Proof.
  eexists _, _. split; [by vm_compute|]. split; [by vm_compute|].
  split; [|by vm_compute].
  intros (b & Hb & Hnz). vm_compute in Hb. congruence.
Qed.

(** C3 fails on the code.  After [np 1 2], [kp 1], [np 2 1] process 2 is
    live with page 1 as its page table; entry 1 of that table still holds
    3, left there by process 1, and page 3 is free. *)
Lemma stale_entry_names_free_page :
  let m := mem_after [Np 1 2; Kp 1; Np 2 1] in
  main [Np 1 2; Kp 1; Np 2 1] = Some (m, []) ∧
  get_page_table m 2 = Some 1 ∧
  mem_get m (get_address 1 1) = Some 3 ∧
  mem_get m (get_address 0 3) = Some 0 ∧
  page_table_snapshot m 2 = Some [(0, 2); (1, 3)] ∧
  ¬ tables_consistent m.
Proof.
  cbv zeta. do 5 (split; [by vm_compute|]).
  intros Hcons.
  destruct (Hcons 2 1 1 3) as (b & Hb & Hnz);
    [done|by vm_compute|done|done|by vm_compute|done|].
  vm_compute in Hb. congruence.
Qed.

(** C7 fails on the code.  In the memory left by [np 1 2], [sb 1 257 2],
    [kp 1], [np 2 1], pages 0, 1 and 2 are used.  [new_process 3 1]
    succeeds with page 3 as page table and page 4 as data page; page 3
    still holds the byte 2 that process 1 stored in it, so [kill_process 3]
    also frees page 2, the data page of the live process 2, and the free
    map after the kill differs from the free map before the create. *)
Lemma kill_after_create_frees_more :
  let m := mem_after [Np 1 2; Sb 1 257 2; Kp 1; Np 2 1] in
  ∃ m1 m2,
    new_process m 3 1 = Some (m1, []) ∧
    kill_process m1 3 = Some (m2, []) ∧
    free_map_snapshot m = Some ([true; true; true] ++ replicate 61 false) ∧
    free_map_snapshot m2 = Some ([true; true] ++ replicate 62 false) ∧
    free_map_snapshot m ≠ free_map_snapshot m2 ∧
    page_table_snapshot m 2 = Some [(0, 2); (1, 3)].
Proof.
  cbv zeta. eexists _, _. split; [by vm_compute|]. split; [by vm_compute|].
  split; [by vm_compute|]. split; [by vm_compute|]. split; [|by vm_compute].
  intros Heq. vm_compute in Heq. discriminate.
Qed.

(** * Further properties of the code *)

(** ** The address codec *)

Lemma get_address_offset page offset :
  0 ≤ offset < PAGE_SIZE →
  get_address page offset = page * PAGE_SIZE + offset.
Proof.
  intros Hoff. unfold get_address, PAGE_SHIFT, PAGE_SIZE in *.
  rewrite Z.shiftl_mul_pow2 by lia.
  assert (Z.land (page * 2 ^ 8) offset = 0) as Hdisj.
  { apply Z.bits_inj'. intros n Hn.
    rewrite Z.land_spec, Z.bits_0.
    destruct (decide (n < 8)) as [Hlt|Hge].
    - by rewrite Z.mul_pow2_bits_low by lia.
    - rewrite (Z.bits_above_log2 offset n), andb_false_r; [done|lia|].
      destruct (decide (offset = 0)) as [->|Hnz]; [simpl; lia|].
      apply Z.lt_le_trans with 8; [|lia].
      apply Z.log2_lt_pow2; lia. }
  pose proof (Z.add_lor_land (page * 2 ^ 8) offset) as Hadd.
  rewrite Hdisj in Hadd. change (2 ^ 8) with 256 in *. lia.
Qed.

Lemma land_255_range vaddr : 0 ≤ Z.land vaddr 255 < PAGE_SIZE.
Proof.
  change 255 with (Z.ones 8). rewrite Z.land_ones by lia.
  unfold PAGE_SIZE. change (2 ^ 8) with 256. apply Z.mod_pos_bound. lia.
Qed.

(** X1. Decoding an encoded address the way [store_byte] and [load_byte]
    do ([>> PAGE_SHIFT] and [& 255]) gives back the page and the offset,
    for every offset below [PAGE_SIZE] and every page from 0 to below
    2^23, the pages for which [page << PAGE_SHIFT] stays inside a 32-bit
    [int]; the encoded address is then an [int] that is not negative. *)
Theorem get_address_decode page offset :
  0 ≤ page < 2 ^ 23 → 0 ≤ offset < PAGE_SIZE →
  0 ≤ get_address page offset < 2 ^ 31 ∧
  get_address page offset ≫ PAGE_SHIFT = page ∧
  Z.land (get_address page offset) 255 = offset.
Proof.
  intros Hpage Hoff. rewrite get_address_offset by done.
  split; [unfold PAGE_SIZE in *; lia|].
  unfold PAGE_SHIFT, PAGE_SIZE in *. split.
  - rewrite Z.shiftr_div_pow2 by lia. change (2 ^ 8) with 256.
    rewrite Z.div_add_l by lia. rewrite Z.div_small by lia. lia.
  - change 255 with (Z.ones 8). rewrite Z.land_ones by lia.
    change (2 ^ 8) with 256.
    rewrite Z.add_comm, Z.mod_add by lia. by apply Z.mod_small.
Qed.

Lemma get_address_decode_witness :
  0 ≤ 5 < 2 ^ 23 ∧ 0 ≤ 17 < PAGE_SIZE ∧
  get_address 5 17 ≫ PAGE_SHIFT = 5 ∧ Z.land (get_address 5 17) 255 = 17.
Proof.
  split; [done|]. split; [done|].
  by destruct (get_address_decode 5 17) as [_ Hdecode].
Defined.

(** X2. Every virtual address is the encoding of its own page and offset:
    splitting [vaddr] with [>> PAGE_SHIFT] and [& 255] and putting the two
    parts back with [get_address] loses nothing, also for negative
    addresses. *)
Theorem vaddr_split_encode vaddr :
  get_address (vaddr ≫ PAGE_SHIFT) (Z.land vaddr 255) = vaddr.
Proof.
  rewrite get_address_offset by apply land_255_range.
  unfold PAGE_SHIFT, PAGE_SIZE.
  rewrite Z.shiftr_div_pow2 by lia.
  change 255 with (Z.ones 8). rewrite Z.land_ones by lia.
  change (2 ^ 8) with 256.
  pose proof (Z.div_mod vaddr 256). lia.
Qed.

(** X3. The cells of a page: for a page index below [PAGE_COUNT] and an
    offset below [PAGE_SIZE], [get_address] is [page * PAGE_SIZE + offset],
    it lies inside the array, and two such addresses are equal only if
    page and offset are: pages do not overlap. *)
Theorem get_address_page_cells page offset :
  0 ≤ page < PAGE_COUNT → 0 ≤ offset < PAGE_SIZE →
  get_address page offset = page * PAGE_SIZE + offset ∧
  0 ≤ get_address page offset < MEM_SIZE ∧
  ∀ page' offset', 0 ≤ offset' < PAGE_SIZE →
    get_address page' offset' = get_address page offset →
    page' = page ∧ offset' = offset.
Proof.
  intros Hpage Hoff. split; [by apply get_address_offset|]. split.
  - rewrite get_address_offset by done.
    unfold PAGE_COUNT, PAGE_SIZE, MEM_SIZE in *. lia.
  - intros page' offset' Hoff' Heq.
    rewrite !get_address_offset in Heq by done.
    unfold PAGE_SIZE in *. lia.
Qed.

Lemma get_address_page_cells_witness :
  0 ≤ 63 < PAGE_COUNT ∧ 0 ≤ 255 < PAGE_SIZE ∧
  get_address 63 255 = 63 * PAGE_SIZE + 255 ∧
  0 ≤ get_address 63 255 < MEM_SIZE.
Proof.
  split; [done|]. split; [done|].
  destruct (get_address_page_cells 63 255) as (Hcell & Hin & _); done.
Defined.

(** ** [store_byte] *)

(** X4. [store_byte] changes at most one cell, and never a cell of page 0:
    either it prints the fault and returns the memory it was given, or it
    prints the store line and the new memory differs from the old one in
    the single cell [phys_addr], which lies at or above [PAGE_SIZE].  The
    free map and the directory are out of its reach. *)
Theorem store_byte_one_cell m proc_num vaddr val m' out :
  store_byte m proc_num vaddr val = Some (m', out) →
  (out = [Invalid_virtual_address] ∧ m' = m) ∨
  (∃ phys_addr, PAGE_SIZE ≤ phys_addr < MEM_SIZE ∧
     out = [Store_line proc_num vaddr phys_addr val] ∧
     m' = <[Z.to_nat phys_addr := val `mod` 256]> m).
Proof.
  unfold store_byte. intros Hstore.
  destruct (get_page_table m proc_num) as [pt_page|]; [|done].
  cbn [mbind option_bind] in Hstore.
  destruct (mem_get m _) as [phys_page|]; [|done].
  cbn [mbind option_bind] in Hstore.
  destruct (Z.eqb_spec phys_page 0) as [_|Hphys].
  { left. by injection Hstore as <- <-. }
  right. unfold mem_set in Hstore. case_bool_decide as Hin; [|done].
  cbn [mbind option_bind] in Hstore. injection Hstore as <- <-.
  eexists. split; [|done].
  pose proof (land_255_range vaddr) as Hoff.
  rewrite get_address_offset in Hin |- * by done.
  unfold PAGE_SIZE in *. lia.
Qed.

Lemma store_byte_one_cell_witness :
  store_byte (mem_after [Np 2 3]) 2 300 42
    = Some (<[Z.to_nat 812 := 42]> (mem_after [Np 2 3]),
            [Store_line 2 300 812 42]) ∧
  ((([Store_line 2 300 812 42] : list event) = [Invalid_virtual_address] ∧
    <[Z.to_nat 812 := 42]> (mem_after [Np 2 3]) = mem_after [Np 2 3]) ∨
   (∃ phys_addr, PAGE_SIZE ≤ phys_addr < MEM_SIZE ∧
      [Store_line 2 300 812 42] = [Store_line 2 300 phys_addr 42] ∧
      <[Z.to_nat 812 := 42]> (mem_after [Np 2 3])
        = <[Z.to_nat phys_addr := 42 `mod` 256]> (mem_after [Np 2 3]))).
Proof.
  assert (store_byte (mem_after [Np 2 3]) 2 300 42
            = Some (<[Z.to_nat 812 := 42]> (mem_after [Np 2 3]),
                    [Store_line 2 300 812 42])) as Hstore by (by vm_compute).
  split; [done|]. by apply (store_byte_one_cell _ _ _ _ _ _ Hstore).
Defined.

(** ** [kill_process] on a live process *)

Section KillLive.
Implicit Types (m : list Z) (a : Z).

Lemma omap_all_Some {A B} (f : A → option B) (g : A → B) (l : list A) :
  (∀ x, x ∈ l → f x = Some (g x)) → omap f l = g <$> l.
Proof.
  induction l as [|x l IH]; intros Hall; [done|].
  cbn [omap list_omap]. rewrite (Hall x) by left. cbn.
  f_equal. apply IH. intros y Hy. apply Hall. by right.
Qed.

(** The entries of a table that lies inside the array. *)
Lemma table_entries_lookup m pt_page :
  length m = Z.to_nat MEM_SIZE → 0 ≤ pt_page < PAGE_COUNT →
  length (table_entries m pt_page) = Z.to_nat PAGE_COUNT ∧
  ∀ (k : nat) e, table_entries m pt_page !! k = Some e →
    mem_get m (get_address pt_page 0 + Z.of_nat k) = Some e.
Proof.
  intros Hlen Hpt. unfold table_entries.
  rewrite get_address_page_start.
  rewrite (omap_all_Some _ (λ i, default 0 (mem_get m (pt_page * PAGE_SIZE + i)))).
  2:{ intros i Hi%elem_of_seqZ.
      destruct (mem_get_is_Some m (pt_page * PAGE_SIZE + i)) as [b ->]; [done| |done].
      unfold PAGE_COUNT, PAGE_SIZE, MEM_SIZE in *. lia. }
  split; [by rewrite length_fmap, length_seqZ|].
  intros k e Hk. rewrite list_lookup_fmap in Hk.
  destruct (seqZ 0 PAGE_COUNT !! k) as [i|] eqn:Hi; [|done].
  apply lookup_seqZ in Hi as [-> Hi]. cbn in Hk. rewrite Z.add_0_l in Hk.
  destruct (mem_get_is_Some m (pt_page * PAGE_SIZE + Z.of_nat k)) as [b Hb];
    [done| |].
  { unfold PAGE_COUNT, PAGE_SIZE, MEM_SIZE in *. lia. }
  rewrite Hb in Hk |- *. cbn in Hk. congruence.
Qed.
End KillLive.

(** X5. [kill_process] on a process with a page table.  Let every cell be a
    byte and the directory byte of the process be a page index [pt_page]
    other than 0.  Then [kill_process] stays inside the array, prints
    nothing, and sets to 0 exactly these cells: the directory byte of the
    process, the free-map byte of [pt_page], and the free-map byte of every
    page that a nonzero entry of the table names.  Every other cell keeps
    its value; with the directory byte in page 0, nothing at or above
    [PAGE_SIZE] changes: the table keeps its entries and the data pages
    their bytes. *)
Theorem kill_process_live m proc_num pt_page :
  length m = Z.to_nat MEM_SIZE → Forall (λ b, 0 ≤ b < 256) m →
  get_page_table m proc_num = Some pt_page → 0 < pt_page < PAGE_COUNT →
  ∃ m', kill_process m proc_num = Some (m', []) ∧
    (∀ a, mem_get m' a =
       if decide (a = PTP_OFFSET + proc_num ∨ a = pt_page ∨
                  (a ≠ 0 ∧ a ∈ table_entries m pt_page))
       then Some 0 else mem_get m a) ∧
    (PTP_OFFSET + proc_num < PAGE_SIZE →
       ∀ a, PAGE_SIZE ≤ a → mem_get m' a = mem_get m a).
Proof.
  intros Hlen Hbytes Hdir Hpt.
  destruct (table_entries_lookup m pt_page) as [Hes_len Hes]; [done|lia|].
  pose proof (get_address_page_start pt_page) as Hstart.
  assert (∀ e, e ∈ table_entries m pt_page → 0 ≤ e < 256) as Hentry.
  { intros e (k & Hk)%list_elem_of_lookup_1. apply Hes in Hk.
    unfold mem_get in Hk. case_bool_decide; [|done].
    by apply (Forall_lookup_1 _ _ _ _ Hbytes Hk). }
  unfold get_page_table in Hdir. rewrite get_address_0_l in Hdir.
  pose proof (mem_get_Some_range _ _ _ Hdir) as Hproc.
  set (cleared := filter (λ e, e ≠ 0) (table_entries m pt_page)).
  assert (∀ e, e ∈ cleared → 0 ≤ e < 256) as Hcleared
    by (intros e [_ He]%list_elem_of_filter; by apply Hentry).
  exists (<[Z.to_nat (PTP_OFFSET + proc_num) := 0]>
            (<[Z.to_nat pt_page := 0]> (clear_all m cleared))).
  assert (∀ a, mem_get (<[Z.to_nat (PTP_OFFSET + proc_num) := 0]>
                          (<[Z.to_nat pt_page := 0]> (clear_all m cleared))) a =
            if decide (a = PTP_OFFSET + proc_num ∨ a = pt_page ∨
                       (a ≠ 0 ∧ a ∈ table_entries m pt_page))
            then Some 0 else mem_get m a) as Hcells.
  { intros a. destruct (decide (a = PTP_OFFSET + proc_num)) as [->|Hne1].
    { rewrite decide_True by (by left).
      apply mem_get_insert_eq; [|done].
      by rewrite length_insert, clear_all_length. }
    rewrite mem_get_insert_ne by (lia || done).
    destruct (decide (a = pt_page)) as [->|Hne2].
    { rewrite decide_True by (right; by left).
      apply mem_get_insert_eq; [by rewrite clear_all_length|].
      unfold PAGE_COUNT, MEM_SIZE in *. lia. }
    rewrite mem_get_insert_ne by (lia || done).
    destruct (decide (a ∈ cleared)) as [Hin|Hnot].
    - rewrite decide_True.
      2:{ apply list_elem_of_filter in Hin as [? ?]. right. by right. }
      apply mem_get_clear_all_elem; [done| |  |done].
      + intros d Hd%Hcleared. lia.
      + apply Hcleared in Hin. unfold MEM_SIZE. lia.
    - rewrite decide_False.
      2:{ intros [?|[?|[Hnz Hin]]]; [done..|].
          apply Hnot, list_elem_of_filter. by split. }
      apply mem_get_clear_all_other; [|done]. intros d Hd%Hcleared. lia. }
  split; [|split; [done|]].
  - unfold kill_process, get_page_table. rewrite get_address_0_l, Hdir.
    cbn [mbind option_bind]. rewrite <- Hes_len.
    rewrite free_entries_clear; [|done| |].
    + cbn [mbind option_bind]. rewrite !get_address_0_l.
      rewrite mem_set_Some by (unfold PAGE_COUNT, MEM_SIZE in *; lia).
      cbn [mbind option_bind]. rewrite mem_set_Some by done.
      cbn [mbind option_bind]. by change (0 `mod` 256) with 0.
    + intros k e Hk. rewrite Z.add_0_l. split; [by apply Hes|].
      apply list_elem_of_lookup_2, Hentry in Hk.
      rewrite Hstart. unfold PAGE_SIZE. lia.
    + rewrite Hstart. unfold PAGE_COUNT, PAGE_SIZE, MEM_SIZE in *. lia.
  - intros Hin_page a Ha. rewrite Hcells. rewrite decide_False; [done|].
    intros [->|[->|[_ Hin%Hentry]]];
      unfold PAGE_COUNT, PAGE_SIZE in *; lia.
Qed.

Lemma kill_process_live_witness :
  Forall (λ b, 0 ≤ b < 256) (mem_after [Np 2 3]) ∧
  get_page_table (mem_after [Np 2 3]) 2 = Some 1 ∧
  ∃ m', kill_process (mem_after [Np 2 3]) 2 = Some (m', []) ∧
        ∀ a, PAGE_SIZE ≤ a → mem_get m' a = mem_get (mem_after [Np 2 3]) a.
Proof.
  assert (Forall (λ b, 0 ≤ b < 256) (mem_after [Np 2 3])) as Hbytes.
  { apply (bool_decide_unpack _). by vm_compute. }
  split; [done|]. split; [by vm_compute|].
  destruct (kill_process_live (mem_after [Np 2 3]) 2 1)
    as (m' & Hkill & _ & Hframe); [by vm_compute|done|by vm_compute|done|].
  exists m'. split; [done|]. by apply Hframe.
Defined.

(** X6. [kill_process] on a process without a page table hands page 0 to
    the allocator.  In a memory whose free-map bytes are page indices, a
    [kill_process] of a process whose directory byte is 0 runs to its end,
    prints nothing, and leaves page 0 as the free page of lowest index, so
    the next scan of [new_process] returns page 0. *)
Theorem absent_kill_frees_page_zero m proc_num :
  length m = Z.to_nat MEM_SIZE → free_map_names_pages m →
  get_page_table m proc_num = Some 0 →
  ∃ m', kill_process m proc_num = Some (m', []) ∧
        lowest_free m' 0 ∧
        scan_free_page m' = Some (0, mark_used m' 0).
Proof.
  intros Hlen Hmap Hdir.
  destruct (free_entries_over_free_map (Z.to_nat PAGE_COUNT) 0 m)
    as (m1 & Hsweep & Hlen1 & _); [done..|by unfold PAGE_COUNT|].
  unfold get_page_table in Hdir. rewrite get_address_0_l in Hdir.
  pose proof (mem_get_Some_range _ _ _ Hdir) as Hproc.
  set (m' := <[Z.to_nat (PTP_OFFSET + proc_num) := 0]> (<[Z.to_nat 0 := 0]> m1)).
  assert (length m' = Z.to_nat MEM_SIZE) as Hlen'
    by (unfold m'; by rewrite !length_insert, Hlen1).
  assert (lowest_free m' 0) as Hlow.
  { split; [done|]. split; [|intros i Hi; lia].
    unfold is_free, m'. rewrite get_address_0_l.
    destruct (decide (PTP_OFFSET + proc_num = 0)) as [->|Hne].
    - apply mem_get_insert_eq; [by rewrite length_insert, Hlen1|done].
    - rewrite mem_get_insert_ne by (lia || done).
      apply mem_get_insert_eq; [by rewrite Hlen1|done]. }
  exists m'. split; [|split; [done|]].
  - unfold kill_process, get_page_table. rewrite get_address_0_l, Hdir.
    cbn [mbind option_bind]. rewrite ?get_address_0_l, Hsweep.
    cbn [mbind option_bind]. rewrite ?get_address_0_l.
    rewrite (mem_set_Some m1 0) by done. cbn [mbind option_bind].
    rewrite mem_set_Some by done. cbn [mbind option_bind].
    by change (0 `mod` 256) with 0.
  - destruct (lowest_free_head m' 0 Hlow) as [ps Hfree].
    by rewrite scan_free_page_head, Hfree.
Qed.

Lemma absent_kill_frees_page_zero_witness :
  get_page_table initialize_mem 5 = Some 0 ∧
  ∃ m', kill_process initialize_mem 5 = Some (m', []) ∧
        lowest_free m' 0 ∧
        scan_free_page m' = Some (0, mark_used m' 0).
Proof.
  split; [by vm_compute|].
  apply (absent_kill_frees_page_zero initialize_mem 5);
    [by vm_compute| |by vm_compute].
  apply free_map_names_pages_check. by vm_compute.
Defined.

(** ** A successful [new_process] *)

Section Layout.
Implicit Types (m : list Z) (a : Z) (ps : list Z).

Lemma free_pages_cons_facts m pt_page ps :
  page_zero_used m → free_pages m = pt_page :: ps →
  NoDup (pt_page :: ps) ∧
  (length ps < 64)%nat ∧
  ∀ q, q ∈ pt_page :: ps → 0 < q < PAGE_COUNT ∧ is_free m q.
Proof.
  intros Hzero Hfree. split; [|split].
  - rewrite <- Hfree. apply NoDup_filter, NoDup_seqZ.
  - pose proof (free_pages_length m) as Hlen. rewrite Hfree in Hlen.
    simpl in Hlen. lia.
  - intros q Hq. rewrite <- Hfree in Hq.
    pose proof (free_pages_range m q Hq) as Hrange.
    apply list_elem_of_filter in Hq as [Hq _]. split; [|done].
    destruct (decide (q = 0)) as [->|]; [|lia].
    destruct Hzero as (b & Hb & Hnz). unfold is_free in Hq. congruence.
Qed.

(** The memory after a successful [new_process], cell by cell, in terms of
    the free pages before the call. *)
Lemma new_process_layout m proc_num page_count m1 :
  length m = Z.to_nat MEM_SIZE → page_zero_used m →
  0 ≤ proc_num → PTP_OFFSET + proc_num < PAGE_SIZE →
  new_process m proc_num page_count = Some (m1, []) →
  ∃ pt_page ps,
    free_pages m = pt_page :: ps ∧
    0 ≤ page_count ∧ (Z.to_nat page_count ≤ length ps)%nat ∧
    length m1 = length m ∧
    ∀ a, mem_get m1 a =
      if decide (get_address pt_page 0 ≤ a < get_address pt_page 0 + page_count)
      then take (Z.to_nat page_count) ps !! Z.to_nat (a - get_address pt_page 0)
      else if decide (a = PTP_OFFSET + proc_num) then Some pt_page
      else if decide (a ∈ pt_page :: take (Z.to_nat page_count) ps) then Some 1
      else mem_get m a.
Proof.
  intros Hlen Hzero Hproc Hdir Hnew.
  destruct (decide (0 ≤ page_count ≤ STACK_INTS)) as [[Hpos Hfits]|Hneg].
  2:{ rewrite new_process_no_array in Hnew by done.
      by destruct (free_pages m). }
  rewrite new_process_first_fit in Hnew by done.
  destruct (free_pages m) as [|pt_page ps] eqn:Hfree; [done|].
  cbv zeta in Hnew.
  destruct (decide (Z.to_nat page_count ≤ length ps)%nat) as [Hle|_]; [|done].
  destruct (free_pages_cons_facts m pt_page ps Hzero Hfree)
    as (Hnodup & Hps_len & Hpages).
  set (data := take (Z.to_nat page_count) ps) in *.
  assert (∀ q, q ∈ data → q ∈ ps) as Hdata_in.
  { intros q (k & Hk & _)%elem_of_take. by eapply list_elem_of_lookup_2. }
  assert (length data = Z.to_nat page_count) as Hdata_len
    by (by apply length_take_le).
  destruct (Hpages pt_page) as [Hpt _]; [left|].
  exists pt_page, ps. do 3 (split; [done|]).
  unfold commit in Hnew. rewrite get_address_0_l in Hnew.
  rewrite mem_set_Some in Hnew
    by (unfold PTP_OFFSET, PAGE_SIZE, MEM_SIZE in *; lia).
  cbn [mbind option_bind] in Hnew.
  rewrite (Z.mod_small pt_page) in Hnew by (unfold PAGE_COUNT in *; lia).
  pose proof (get_address_page_start pt_page) as Hstart.
  destruct (write_entries_get (length data) 0 (get_address pt_page 0) data
              (<[Z.to_nat (PTP_OFFSET + proc_num) := pt_page]>
                 (mark_all m (pt_page :: data))))
    as (m1' & Hwrite & Hlen1 & Hget).
  { by rewrite length_insert, mark_all_length. }
  { done. }
  { rewrite Hstart. unfold PAGE_SIZE. lia. }
  { rewrite Hstart, Hdata_len.
    unfold PAGE_SIZE, PAGE_COUNT, MEM_SIZE in *. lia. }
  { simpl. lia. }
  { apply Forall_forall. intros q Hq.
    destruct (Hpages q) as [? _]; [right; by apply Hdata_in|].
    unfold PAGE_COUNT in *. lia. }
  rewrite Hwrite in Hnew. cbn [mbind option_bind] in Hnew.
  injection Hnew as <-.
  split; [by rewrite Hlen1, length_insert, mark_all_length|].
  intros a. rewrite Hget, Z.add_0_r, Hdata_len, Z2Nat.id by done.
  destruct (decide (_ ≤ a < _)); [done|].
  destruct (decide (a = PTP_OFFSET + proc_num)) as [->|Hne].
  { apply mem_get_insert_eq; [by rewrite mark_all_length|].
    unfold PTP_OFFSET, PAGE_SIZE, MEM_SIZE in *. lia. }
  rewrite mem_get_insert_ne by (unfold PTP_OFFSET in *; lia || done).
  apply mark_all_free_pages_get; [done|].
  intros q [->|Hq%Hdata_in]%elem_of_cons.
  - lia.
  - destruct (Hpages q); [by right|lia].
Qed.
End Layout.

(** X7. What a successful [new_process] writes.  With page 0 marked used
    and the directory byte of the process in page 0, a successful call
    sets the directory byte to the free page of lowest index, and outside
    the free map it changes only that byte and the first [page_count]
    entries of that page: the pages handed out as data pages keep the
    bytes they held, and so do the entries of the new page table from
    [page_count] on. *)
Theorem new_process_writes_only m proc_num page_count m1 :
  length m = Z.to_nat MEM_SIZE → page_zero_used m →
  0 ≤ proc_num → PTP_OFFSET + proc_num < PAGE_SIZE →
  new_process m proc_num page_count = Some (m1, []) →
  ∃ pt_page, lowest_free m pt_page ∧
    get_page_table m1 proc_num = Some pt_page ∧
    ∀ a, PAGE_COUNT ≤ a → a ≠ PTP_OFFSET + proc_num →
      ¬ (get_address pt_page 0 ≤ a < get_address pt_page 0 + page_count) →
      mem_get m1 a = mem_get m a.
Proof.
  intros Hlen Hzero Hproc Hdir Hnew.
  destruct (new_process_layout m proc_num page_count m1)
    as (pt_page & ps & Hfree & Hpos & Hle & Hlen1 & Hget); [done..|].
  destruct (free_pages_cons_facts m pt_page ps Hzero Hfree)
    as (Hnodup & Hps_len & Hpages).
  destruct (Hpages pt_page) as [Hpt _]; [left|].
  pose proof (get_address_page_start pt_page) as Hstart.
  exists pt_page. split; [by eapply free_pages_head_lowest|]. split.
  - unfold get_page_table. rewrite get_address_0_l, Hget.
    rewrite decide_False by (unfold PAGE_SIZE in *; lia).
    by rewrite decide_True.
  - intros a Ha Hne Hout. rewrite Hget.
    rewrite decide_False by done. rewrite decide_False by done.
    rewrite decide_False; [done|].
    intros [->|(k & Hk & _)%elem_of_take]%elem_of_cons; [lia|].
    apply list_elem_of_lookup_2 in Hk.
    destruct (Hpages a); [by right|lia].
Qed.

Lemma new_process_writes_only_witness :
  new_process (mem_after [Np 1 1]) 2 3
    = Some (mem_after [Np 1 1; Np 2 3], []) ∧
  ∃ pt_page, lowest_free (mem_after [Np 1 1]) pt_page ∧
    get_page_table (mem_after [Np 1 1; Np 2 3]) 2 = Some pt_page ∧
    ∀ a, PAGE_COUNT ≤ a → a ≠ PTP_OFFSET + 2 →
      ¬ (get_address pt_page 0 ≤ a < get_address pt_page 0 + 3) →
      mem_get (mem_after [Np 1 1; Np 2 3]) a = mem_get (mem_after [Np 1 1]) a.
Proof.
  split; [by vm_compute|].
  apply (new_process_writes_only (mem_after [Np 1 1]) 2 3);
    [by vm_compute| |done|done|by vm_compute].
  exists 1. split; [by vm_compute|done].
Defined.

Section Snapshot.
Implicit Types (m : list Z).

Lemma mapM_all_Some {A B} (f : A → option B) (g : A → B) (l : list A) :
  (∀ x, x ∈ l → f x = Some (g x)) → mapM f l = Some (g <$> l).
Proof.
  induction l as [|x l IH]; intros Hall; [done|].
  cbn [mapM]. rewrite (Hall x) by left. cbn [mbind option_bind].
  rewrite IH by (intros y Hy; apply Hall; by right). done.
Qed.

Lemma filter_keeps_all {A} (f : A → bool) (l : list A) :
  (∀ x, x ∈ l → f x = true) → List.filter f l = l.
Proof.
  induction l as [|x l IH]; intros Hall; [done|].
  simpl. rewrite (Hall x) by left. f_equal. apply IH.
  intros y Hy. apply Hall. by right.
Qed.

Lemma filter_drops_all {A} (f : A → bool) (l : list A) :
  (∀ x, x ∈ l → f x = false) → List.filter f l = [].
Proof.
  induction l as [|x l IH]; intros Hall; [done|].
  simpl. rewrite (Hall x) by left. apply IH.
  intros y Hy. apply Hall. by right.
Qed.

(** The rows of [print_page_table] for a table whose first entries are
    [data], all nonzero, and whose other entries are 0. *)
Lemma page_table_snapshot_rows m proc_num pt_page data :
  get_page_table m proc_num = Some pt_page →
  Z.of_nat (length data) ≤ PAGE_COUNT →
  (∀ (k : nat) d, data !! k = Some d →
     mem_get m (get_address pt_page (Z.of_nat k)) = Some d ∧ d ≠ 0) →
  (∀ i, Z.of_nat (length data) ≤ i < PAGE_COUNT →
     mem_get m (get_address pt_page i) = Some 0) →
  page_table_snapshot m proc_num
    = Some (zip (seqZ 0 (Z.of_nat (length data))) data).
Proof.
  intros Hdir Hcount Hdata Hzeros. unfold page_table_snapshot.
  rewrite Hdir. cbn [mbind option_bind].
  set (e := λ i : Z, default 0 (data !! Z.to_nat i)).
  rewrite (mapM_all_Some _ (λ i, (i, e i))).
  2:{ intros i Hi%elem_of_seqZ. unfold e.
      destruct (decide (i < Z.of_nat (length data))) as [Hlt|Hge].
      - destruct (lookup_lt_is_Some_2 data (Z.to_nat i)) as [d Hd]; [lia|].
        destruct (Hdata _ _ Hd) as [Hget _].
        rewrite Z2Nat.id in Hget by lia. by rewrite Hget, Hd.
      - rewrite Hzeros by lia. cbn [mbind option_bind].
        by rewrite lookup_ge_None_2 by lia. }
  cbn [mbind option_bind]. f_equal.
  replace PAGE_COUNT
    with (Z.of_nat (length data) + (PAGE_COUNT - Z.of_nat (length data))) by lia.
  rewrite seqZ_app by lia. rewrite fmap_app, List.filter_app.
  rewrite (filter_drops_all _ (_ <$> seqZ (0 + _) _)), app_nil_r.
  2:{ intros r (i & -> & Hi%elem_of_seqZ)%list_elem_of_fmap. cbn. unfold e.
      by rewrite lookup_ge_None_2 by lia. }
  rewrite filter_keeps_all.
  2:{ intros r (i & -> & Hi%elem_of_seqZ)%list_elem_of_fmap. cbn. unfold e.
      destruct (lookup_lt_is_Some_2 data (Z.to_nat i)) as [d Hd]; [lia|].
      rewrite Hd. cbn. destruct (Hdata _ _ Hd) as [_ Hnz].
      by destruct (Z.eqb_spec d 0). }
  assert (data = e <$> seqZ 0 (Z.of_nat (length data))) as Hdata_eq.
  { apply list_eq. intros k. rewrite list_lookup_fmap.
    destruct (decide (k < length data)%nat) as [Hlt|Hge].
    - rewrite lookup_seqZ_lt by lia. cbn. unfold e.
      rewrite Z.add_0_l, Nat2Z.id.
      by destruct (lookup_lt_is_Some_2 data k Hlt) as [d ->].
    - rewrite lookup_seqZ_ge by lia. cbn. by apply lookup_ge_None_2; lia. }
  clearbody e. revert Hdata_eq.
  generalize (seqZ 0 (Z.of_nat (length data))) as l.
  intros l ->. by rewrite zip_with_fmap_r, zip_with_diag.
Qed.
End Snapshot.

(** X8. The page table of a new process.  Under the conditions of X7, and
    if the entries from [page_count] on of the page taken as page table
    are 0 before the call, [print_page_table] after a successful
    [new_process] shows exactly [page_count] rows, for the virtual pages
    0, 1, ... in order; the physical pages in them are different from each
    other, from the page table and from 0, were free before the call and
    are marked used after it. *)
Theorem new_process_page_table m proc_num page_count m1 :
  length m = Z.to_nat MEM_SIZE → page_zero_used m →
  0 ≤ proc_num → PTP_OFFSET + proc_num < PAGE_SIZE →
  (∀ p i, lowest_free m p → page_count ≤ i < PAGE_COUNT →
     mem_get m (get_address p 0 + i) = Some 0) →
  new_process m proc_num page_count = Some (m1, []) →
  ∃ pt_page data_pages,
    lowest_free m pt_page ∧
    Z.of_nat (length data_pages) = page_count ∧
    NoDup (pt_page :: data_pages) ∧
    (∀ d, d ∈ data_pages →
       0 < d < PAGE_COUNT ∧ is_free m d ∧
       mem_get m1 (get_address 0 d) = Some 1) ∧
    page_table_snapshot m1 proc_num
      = Some (zip (seqZ 0 page_count) data_pages).
Proof.
  intros Hlen Hzero Hproc Hdir Hclean Hnew.
  destruct (new_process_layout m proc_num page_count m1)
    as (pt_page & ps & Hfree & Hpos & Hle & Hlen1 & Hget); [done..|].
  destruct (free_pages_cons_facts m pt_page ps Hzero Hfree)
    as (Hnodup & Hps_len & Hpages).
  assert (lowest_free m pt_page) as Hlow by (by eapply free_pages_head_lowest).
  destruct (Hpages pt_page) as [Hpt _]; [left|].
  pose proof (get_address_page_start pt_page) as Hstart.
  set (data := take (Z.to_nat page_count) ps) in *.
  assert (∀ q, q ∈ data → q ∈ ps) as Hdata_in.
  { intros q (k & Hk & _)%elem_of_take. by eapply list_elem_of_lookup_2. }
  assert (Z.of_nat (length data) = page_count) as Hdata_len.
  { unfold data. rewrite length_take_le by done. lia. }
  assert (∀ i, 0 ≤ i < PAGE_SIZE →
            get_address pt_page i = get_address pt_page 0 + i) as Hoffset.
  { intros i Hi. rewrite get_address_offset by done. lia. }
  exists pt_page, data. split; [done|]. split; [done|]. split.
  { apply NoDup_cons. split.
    - intros Hin%Hdata_in. by apply NoDup_cons_1_1 in Hnodup.
    - apply NoDup_cons_1_2 in Hnodup.
      eapply sublist_NoDup; [done|apply sublist_take]. }
  split.
  { intros d Hd. destruct (Hpages d) as [Hrange Hfree_d]; [right; by apply Hdata_in|].
    split; [done|]. split; [done|].
    rewrite get_address_0_l, Hget.
    rewrite decide_False by (unfold PAGE_COUNT, PAGE_SIZE in *; lia).
    rewrite decide_False by (unfold PTP_OFFSET, PAGE_COUNT in *; lia).
    by rewrite decide_True by (by right). }
  rewrite <- Hdata_len at 1. apply (page_table_snapshot_rows m1 proc_num pt_page data).
  - unfold get_page_table. rewrite get_address_0_l, Hget.
    rewrite decide_False by (unfold PAGE_SIZE in *; lia).
    by rewrite decide_True.
  - unfold PAGE_COUNT. lia.
  - intros k d Hk. pose proof (lookup_lt_Some _ _ _ Hk) as Hlt.
    split.
    + rewrite Hoffset by (unfold PAGE_SIZE; lia). rewrite Hget.
      rewrite decide_True by lia.
      by replace (Z.to_nat (get_address pt_page 0 + Z.of_nat k
                            - get_address pt_page 0)) with k by lia.
    + apply list_elem_of_lookup_2, Hdata_in in Hk.
      destruct (Hpages d); [by right|lia].
  - intros i Hi. rewrite Hoffset by (unfold PAGE_COUNT, PAGE_SIZE in *; lia).
    rewrite Hget. rewrite decide_False by lia.
    rewrite decide_False by (unfold PAGE_COUNT, PAGE_SIZE in *; lia).
    rewrite decide_False.
    2:{ intros Hin. assert (get_address pt_page 0 + i ∈ pt_page :: ps) as Hin'.
        { apply elem_of_cons in Hin as [Heq|?];
            [rewrite Heq; by left|right; by apply Hdata_in]. }
        apply Hpages in Hin'. unfold PAGE_COUNT, PAGE_SIZE in *. lia. }
    apply Hclean; [done|lia].
Qed.

Lemma new_process_page_table_witness :
  new_process (mem_after [Np 3 2]) 5 2
    = Some (mem_after [Np 3 2; Np 5 2], []) ∧
  ∃ pt_page data_pages,
    lowest_free (mem_after [Np 3 2]) pt_page ∧
    Z.of_nat (length data_pages) = 2 ∧
    NoDup (pt_page :: data_pages) ∧
    (∀ d, d ∈ data_pages →
       0 < d < PAGE_COUNT ∧ is_free (mem_after [Np 3 2]) d ∧
       mem_get (mem_after [Np 3 2; Np 5 2]) (get_address 0 d) = Some 1) ∧
    page_table_snapshot (mem_after [Np 3 2; Np 5 2]) 5
      = Some (zip (seqZ 0 2) data_pages).
Proof.
  split; [by vm_compute|].
  apply (new_process_page_table (mem_after [Np 3 2]) 5 2);
    [by vm_compute|by exists 1; split; [by vm_compute|]|done|done|
     |by vm_compute].
  intros p i Hlow Hi.
  assert (p = 4) as ->.
  { eapply lowest_free_unique; [done|].
    split; [done|]. split; [by vm_compute|].
    intros j Hj. assert (j = 0 ∨ j = 1 ∨ j = 2 ∨ j = 3) as [->|[->|[->| ->]]]
      by lia; by vm_compute. }
  apply page_is_clear_sound; [by vm_compute|unfold PAGE_COUNT in *; lia].
Defined.

(** ** The outcome of [new_process] *)

Section Outcome.
Implicit Types (m : list Z) (ps : list Z).

Lemma filter_iff_in {A} (P Q : A → Prop) `{!∀ x, Decision (P x)}
    `{!∀ x, Decision (Q x)} (l : list A) :
  (∀ x, x ∈ l → P x ↔ Q x) → filter P l = filter Q l.
Proof.
  induction l as [|x l IH]; intros Hiff; [done|].
  rewrite !filter_cons.
  rewrite IH by (intros y Hy; apply Hiff; by right).
  destruct (decide (P x)) as [HP|HP], (decide (Q x)) as [HQ|HQ]; try done.
  - destruct HQ. apply Hiff; [left|done].
  - destruct HP. apply Hiff; [left|done].
Qed.

(** Marking every free page leaves none. *)
Lemma free_pages_mark_all_all m :
  length m = Z.to_nat MEM_SIZE → free_pages (mark_all m (free_pages m)) = [].
Proof.
  intros Hlen.
  pose proof (free_pages_mark_all_take (length (free_pages m)) m Hlen) as Hall.
  by rewrite firstn_all, drop_all in Hall.
Qed.

(** With no free page, [new_process] prints the "page table" message and
    returns the memory it was given, whatever its arguments. *)
Lemma new_process_none_free m proc_num page_count :
  length m = Z.to_nat MEM_SIZE → free_pages m = [] →
  new_process m proc_num page_count = Some (m, [OOM_page_table proc_num]).
Proof.
  intros Hlen Hnil. destruct (decide (0 ≤ page_count ≤ STACK_INTS)).
  - rewrite new_process_first_fit by done. by rewrite Hnil.
  - rewrite new_process_no_array by done. by rewrite Hnil.
Qed.
End Outcome.

(** X9. The outcome of [new_process] by the number of free pages.  On a
    memory with page 0 marked used, for a count that is not negative and
    whose array fits the stack ([page_count ≤ STACK_INTS]), and a
    directory byte in page 0, [new_process] runs to its end; it prints
    the "page table" message if no page is free, the "data page" message
    if at most [page_count] pages are free, and nothing if more are; and
    in all three cases the pages free after the call are the pages free
    before it without the first [1 + page_count] of them. *)
Theorem new_process_outcome m proc_num page_count :
  length m = Z.to_nat MEM_SIZE → page_zero_used m →
  0 ≤ page_count ≤ STACK_INTS →
  0 ≤ proc_num → PTP_OFFSET + proc_num < PAGE_SIZE →
  ∃ m', new_process m proc_num page_count
          = Some (m', if decide (free_pages m = [])
                      then [OOM_page_table proc_num]
                      else if decide (length (free_pages m)
                                        ≤ Z.to_nat page_count)%nat
                           then [OOM_data_page proc_num]
                           else []) ∧
        length m' = length m ∧
        free_pages m' = drop (S (Z.to_nat page_count)) (free_pages m).
Proof.
  intros Hlen Hzero Hcount Hproc Hdir.
  destruct (new_process_defined m proc_num page_count) as [[m' out] Hnew];
    [done..|unfold PTP_OFFSET, PAGE_SIZE, MEM_SIZE in *; lia|].
  exists m'. pose proof Hnew as Hfit.
  rewrite new_process_first_fit in Hfit by done.
  destruct (free_pages m) as [|pt_page ps] eqn:Hfree.
  { injection Hfit as <- <-. by rewrite Hnew. }
  rewrite decide_False by done. cbv zeta in Hfit.
  destruct (decide (Z.to_nat page_count ≤ length ps)%nat) as [Hle|Hgt].
  - apply commit_prints_nothing in Hfit as ->.
    rewrite decide_False by (simpl; lia). split; [done|].
    destruct (new_process_layout m proc_num page_count m')
      as (pt_page' & ps' & Hfree' & _ & _ & Hlen' & Hget); [done..|].
    rewrite Hfree in Hfree'. injection Hfree' as <- <-.
    split; [done|].
    destruct (free_pages_cons_facts m pt_page ps Hzero Hfree)
      as (_ & _ & Hpages).
    pose proof (free_pages_mark_all_take (S (Z.to_nat page_count)) m Hlen)
      as Htake.
    rewrite Hfree in Htake. rewrite <- Htake.
    unfold free_pages. apply filter_iff_in.
    intros i Hi%elem_of_seqZ. unfold is_free.
    rewrite get_address_0_l, Hget.
    destruct (Hpages pt_page) as [Hpt _]; [left|].
    rewrite get_address_page_start.
    rewrite decide_False by (unfold PAGE_COUNT, PAGE_SIZE in *; lia).
    rewrite decide_False by (unfold PAGE_COUNT, PTP_OFFSET in *; lia).
    change (take (S ?n) (pt_page :: ps)) with (pt_page :: take n ps).
    rewrite mark_all_free_pages_get; [done..|].
    intros q [->|(k & Hk & _)%elem_of_take]%elem_of_cons; [lia|].
    apply list_elem_of_lookup_2 in Hk.
    destruct (Hpages q); [by right|lia].
  - injection Hfit as <- <-.
    rewrite decide_True by (simpl; lia).
    split; [done|]. split; [apply (mark_all_length m (pt_page :: ps))|].
    change (mark_all (mark_used m pt_page) ps)
      with (mark_all m (pt_page :: ps)).
    rewrite <- Hfree at 1. rewrite free_pages_mark_all_all by done.
    symmetry. apply drop_ge. simpl. lia.
Qed.

Lemma new_process_outcome_witness :
  ∃ m', new_process (mem_after [Np 1 60]) 2 1 = Some (m', []) ∧
        length m' = length (mem_after [Np 1 60]) ∧
        free_pages m' = [].
Proof.
  destruct (new_process_outcome (mem_after [Np 1 60]) 2 1)
    as (m' & Hnew & Hlen & Hfree);
    [by vm_compute|by exists 1; split; [by vm_compute|]|done..|].
  exists m'. split; [by rewrite Hnew|]. split; [done|].
  rewrite Hfree. by vm_compute.
Defined.

(** X10. A failed allocation is not rolled back.  When [new_process]
    prints the "data page" message, the pages it had taken stay marked:
    no page is free afterwards, and every later [new_process], for any
    process and any count, prints the "page table" message and changes
    nothing. *)
Theorem failed_allocation_keeps_pages m proc_num page_count m' :
  length m = Z.to_nat MEM_SIZE →
  new_process m proc_num page_count = Some (m', [OOM_data_page proc_num]) →
  none_free m' ∧
  ∀ proc_num' page_count',
    new_process m' proc_num' page_count'
      = Some (m', [OOM_page_table proc_num']).
Proof.
  intros Hlen Hnew.
  apply new_process_data_page_oom in Hnew as [_ ->]; [|done].
  assert (length (mark_all m (free_pages m)) = Z.to_nat MEM_SIZE) as Hlen'
    by (by rewrite mark_all_length).
  pose proof (free_pages_mark_all_all m Hlen) as Hnil.
  split; [by apply free_pages_nil|].
  intros proc_num' page_count'. by apply new_process_none_free.
Qed.

Lemma failed_allocation_keeps_pages_witness :
  new_process (mem_after [Np 1 60]) 2 5
    = Some (mem_after [Np 1 60; Np 2 5], [OOM_data_page 2]) ∧
  none_free (mem_after [Np 1 60; Np 2 5]) ∧
  new_process (mem_after [Np 1 60; Np 2 5]) 3 0
    = Some (mem_after [Np 1 60; Np 2 5], [OOM_page_table 3]).
Proof.
  assert (new_process (mem_after [Np 1 60]) 2 5
            = Some (mem_after [Np 1 60; Np 2 5], [OOM_data_page 2])) as Hnew
    by (by vm_compute).
  split; [done|].
  destruct (failed_allocation_keeps_pages (mem_after [Np 1 60]) 2 5
              (mem_after [Np 1 60; Np 2 5])) as [Hnone Hlater];
    [by vm_compute|done|].
  split; [done|apply Hlater].
Defined.

(** ** The address space of a new process *)

Section Fresh.
Implicit Types (m : list Z) (a : Z).

Lemma shiftr_page_range vaddr n :
  0 ≤ n → 0 ≤ vaddr < n * PAGE_SIZE → 0 ≤ vaddr ≫ PAGE_SHIFT < n.
Proof.
  intros Hn Hv. unfold PAGE_SHIFT, PAGE_SIZE in *.
  rewrite Z.shiftr_div_pow2 by lia. change (2 ^ 8) with 256.
  split; [apply Z.div_pos; lia|apply Z.div_lt_upper_bound; lia].
Qed.

(** How a new process translates an address below [page_count] pages:
    virtual page [k] is the free page number [k + 1] of the memory the
    process was created in (number 0 is its page table). *)
Lemma new_process_translate m proc_num page_count m1 vaddr :
  length m = Z.to_nat MEM_SIZE → page_zero_used m →
  0 ≤ proc_num → PTP_OFFSET + proc_num < PAGE_SIZE →
  new_process m proc_num page_count = Some (m1, []) →
  0 ≤ vaddr < page_count * PAGE_SIZE →
  ∃ pt_page d,
    free_pages m !! 0%nat = Some pt_page ∧
    free_pages m !! S (Z.to_nat (vaddr ≫ PAGE_SHIFT)) = Some d ∧
    0 < pt_page < PAGE_COUNT ∧ 0 < d < PAGE_COUNT ∧ d ≠ pt_page ∧
    mem_get m1 pt_page = Some 1 ∧ mem_get m1 d = Some 1 ∧
    length m1 = length m ∧
    get_page_table m1 proc_num = Some pt_page ∧
    mem_get m1 (get_address pt_page (vaddr ≫ PAGE_SHIFT)) = Some d.
Proof.
  intros Hlen Hzero Hproc Hdir Hnew Hvaddr.
  destruct (new_process_layout m proc_num page_count m1)
    as (pt_page & ps & Hfree & Hpos & Hle & Hlen1 & Hget); [done..|].
  destruct (free_pages_cons_facts m pt_page ps Hzero Hfree)
    as (Hnodup & Hps_len & Hpages).
  destruct (Hpages pt_page) as [Hpt _]; [left|].
  pose proof (shiftr_page_range vaddr page_count Hpos Hvaddr) as Hvp.
  set (vp := vaddr ≫ PAGE_SHIFT) in *.
  destruct (lookup_lt_is_Some_2 (take (Z.to_nat page_count) ps) (Z.to_nat vp))
    as [d Hd]; [rewrite length_take_le by done; lia|].
  assert (d ∈ take (Z.to_nat page_count) ps) as Hin_take
    by (by eapply list_elem_of_lookup_2).
  assert (d ∈ ps) as Hin.
  { apply elem_of_take in Hin_take as (k & Hk & _).
    by eapply list_elem_of_lookup_2. }
  destruct (Hpages d) as [Hd_range _]; [by right|].
  assert (∀ q, q ∈ pt_page :: take (Z.to_nat page_count) ps →
            mem_get m1 q = Some 1) as Hmarked.
  { intros q Hq. rewrite Hget, get_address_page_start.
    assert (0 < q < PAGE_COUNT) as Hq_range.
    { apply Hpages. apply elem_of_cons in Hq as [->|Hq]; [left|right].
      apply elem_of_take in Hq as (k & Hk & _).
      by eapply list_elem_of_lookup_2. }
    rewrite decide_False by (unfold PAGE_COUNT, PAGE_SIZE in *; lia).
    rewrite decide_False by (unfold PAGE_COUNT, PTP_OFFSET in *; lia).
    by rewrite decide_True. }
  exists pt_page, d. rewrite Hfree. split; [done|]. split.
  { simpl. by rewrite lookup_take_Some in Hd; destruct Hd. }
  do 2 (split; [done|]). split.
  { intros ->. by apply NoDup_cons_1_1 in Hnodup. }
  split; [apply Hmarked; left|]. split; [apply Hmarked; by right|].
  split; [done|]. split.
  - unfold get_page_table. rewrite get_address_0_l, Hget.
    rewrite get_address_page_start.
    rewrite decide_False by (unfold PAGE_SIZE in *; lia).
    by rewrite decide_True.
  - rewrite get_address_offset by (unfold PAGE_COUNT, PAGE_SIZE in *; lia).
    rewrite Hget, get_address_page_start. rewrite decide_True by lia.
    by replace (Z.to_nat (pt_page * PAGE_SIZE + vp - pt_page * PAGE_SIZE))
      with (Z.to_nat vp) by lia.
Qed.

(** [load_byte] reads three cells: the directory byte, the entry and the
    byte; a memory that agrees on them gives the same line. *)
Lemma load_byte_reads m m' proc_num vaddr pt_page d :
  get_page_table m proc_num = Some pt_page →
  mem_get m (get_address pt_page (vaddr ≫ PAGE_SHIFT)) = Some d →
  mem_get m' (get_address 0 (PTP_OFFSET + proc_num)) = Some pt_page →
  mem_get m' (get_address pt_page (vaddr ≫ PAGE_SHIFT)) = Some d →
  mem_get m' (get_address d (Z.land vaddr 255))
    = mem_get m (get_address d (Z.land vaddr 255)) →
  load_byte m' proc_num vaddr = load_byte m proc_num vaddr.
Proof.
  intros Hpt Hentry Hpt' Hentry' Hbyte. unfold load_byte, get_page_table.
  fold (get_page_table m proc_num). rewrite Hpt, Hpt'.
  cbn [mbind option_bind]. rewrite Hentry, Hentry'.
  cbn [mbind option_bind]. by rewrite Hbyte.
Qed.
End Fresh.

(** X11. A new process can use every address below [page_count] pages.
    After a successful [new_process] (page 0 marked used, directory byte
    in page 0), for every address [0 ≤ vaddr < page_count * PAGE_SIZE] and
    every byte value, [store_byte] prints the store line and the
    [load_byte] that follows prints the same physical address and the
    value stored.  The physical page is the free page number
    [1 + (vaddr >> PAGE_SHIFT)] of the memory before the call, in
    ascending order of index. *)
Theorem fresh_process_round_trip m proc_num page_count m1 vaddr val :
  length m = Z.to_nat MEM_SIZE → page_zero_used m →
  0 ≤ proc_num → PTP_OFFSET + proc_num < PAGE_SIZE →
  new_process m proc_num page_count = Some (m1, []) →
  0 ≤ vaddr < page_count * PAGE_SIZE → 0 ≤ val < 256 →
  ∃ d m2,
    free_pages m !! S (Z.to_nat (vaddr ≫ PAGE_SHIFT)) = Some d ∧
    let phys_addr := get_address d (Z.land vaddr 255) in
    store_byte m1 proc_num vaddr val
      = Some (m2, [Store_line proc_num vaddr phys_addr val]) ∧
    load_byte m2 proc_num vaddr
      = Some [Load_line proc_num vaddr phys_addr val].
Proof.
  intros Hlen Hzero Hproc Hdir Hnew Hvaddr Hval.
  destruct (new_process_translate m proc_num page_count m1 vaddr)
    as (pt_page & d & _ & Hd & Hpt & Hd_range & Hne & _ & _ & Hlen1 & Hdir1
        & Hentry); [done..|].
  pose proof (land_255_range vaddr) as Hoff.
  assert (0 ≤ page_count) as Hcount by (unfold PAGE_SIZE in *; lia).
  pose proof (shiftr_page_range vaddr page_count Hcount Hvaddr) as Hvp.
  assert (vaddr ≫ PAGE_SHIFT < PAGE_COUNT) as Hvp_lt.
  { pose proof (lookup_lt_Some _ _ _ Hd) as Hlt.
    pose proof (free_pages_length m). unfold PAGE_COUNT. lia. }
  set (phys_addr := get_address d (Z.land vaddr 255)).
  assert (phys_addr = d * PAGE_SIZE + Z.land vaddr 255) as Hphys
    by (by apply get_address_offset).
  assert (get_address pt_page (vaddr ≫ PAGE_SHIFT)
            = pt_page * PAGE_SIZE + vaddr ≫ PAGE_SHIFT) as Hcell
    by (apply get_address_offset; unfold PAGE_COUNT, PAGE_SIZE in *; lia).
  exists d, (<[Z.to_nat phys_addr := val `mod` 256]> m1).
  split; [done|]. cbv zeta. fold phys_addr. split.
  - unfold store_byte. rewrite Hdir1. cbn [mbind option_bind].
    rewrite Hentry. cbn [mbind option_bind].
    destruct (Z.eqb_spec d 0) as [?|_]; [lia|]. fold phys_addr.
    by rewrite mem_set_Some
      by (unfold PAGE_COUNT, PAGE_SIZE, MEM_SIZE in *; lia).
  - unfold load_byte, get_page_table. rewrite get_address_0_l.
    rewrite mem_get_insert_ne
      by (unfold PTP_OFFSET, PAGE_COUNT, PAGE_SIZE in *; lia).
    unfold get_page_table in Hdir1. rewrite get_address_0_l in Hdir1.
    rewrite Hdir1. cbn [mbind option_bind].
    rewrite mem_get_insert_ne by (unfold PAGE_COUNT, PAGE_SIZE in *; lia).
    rewrite Hentry. cbn [mbind option_bind].
    destruct (Z.eqb_spec d 0) as [?|_]; [lia|]. fold phys_addr.
    rewrite mem_get_insert_eq
      by (rewrite ?Hlen1; unfold PAGE_COUNT, PAGE_SIZE, MEM_SIZE in *; done || lia).
    cbn [mbind option_bind]. by rewrite Z.mod_small.
Qed.

Lemma fresh_process_round_trip_witness :
  new_process (mem_after [Np 1 1]) 2 3
    = Some (mem_after [Np 1 1; Np 2 3], []) ∧
  ∃ d m2,
    free_pages (mem_after [Np 1 1]) !! S (Z.to_nat (700 ≫ PAGE_SHIFT)) = Some d ∧
    let phys_addr := get_address d (Z.land 700 255) in
    store_byte (mem_after [Np 1 1; Np 2 3]) 2 700 99
      = Some (m2, [Store_line 2 700 phys_addr 99]) ∧
    load_byte m2 2 700 = Some [Load_line 2 700 phys_addr 99].
Proof.
  split; [by vm_compute|].
  apply (fresh_process_round_trip (mem_after [Np 1 1]) 2 3);
    [by vm_compute|by exists 1; split; [by vm_compute|]|done|done
    |by vm_compute|done|done].
Defined.

(** X12. A new process faults on every address beyond its pages.  If in
    addition the page taken as the page table holds 0 in its entries from
    [page_count] on, then for every address from [page_count * PAGE_SIZE]
    up to the end of the 64 virtual pages [store_byte] prints the fault
    and changes nothing, and [load_byte] prints the fault. *)
Theorem fresh_process_fault_beyond m proc_num page_count m1 vaddr val :
  length m = Z.to_nat MEM_SIZE → page_zero_used m →
  0 ≤ proc_num → PTP_OFFSET + proc_num < PAGE_SIZE →
  (∀ p i, lowest_free m p → page_count ≤ i < PAGE_COUNT →
     mem_get m (get_address p 0 + i) = Some 0) →
  new_process m proc_num page_count = Some (m1, []) →
  page_count * PAGE_SIZE ≤ vaddr < PAGE_COUNT * PAGE_SIZE →
  store_byte m1 proc_num vaddr val = Some (m1, [Invalid_virtual_address]) ∧
  load_byte m1 proc_num vaddr = Some [Invalid_virtual_address].
Proof.
  intros Hlen Hzero Hproc Hdir Hclean Hnew Hvaddr.
  destruct (new_process_layout m proc_num page_count m1)
    as (pt_page & ps & Hfree & Hpos & Hle & Hlen1 & Hget); [done..|].
  destruct (free_pages_cons_facts m pt_page ps Hzero Hfree)
    as (Hnodup & Hps_len & Hpages).
  destruct (Hpages pt_page) as [Hpt _]; [left|].
  assert (page_count ≤ vaddr ≫ PAGE_SHIFT < PAGE_COUNT) as Hvp.
  { unfold PAGE_SHIFT, PAGE_SIZE, PAGE_COUNT in *.
    rewrite Z.shiftr_div_pow2 by lia. change (2 ^ 8) with 256.
    split; [apply Z.div_le_lower_bound; lia|apply Z.div_lt_upper_bound; lia]. }
  set (vp := vaddr ≫ PAGE_SHIFT) in *.
  apply (fault_on_zero_entry m1 proc_num vaddr val pt_page).
  - unfold get_page_table. rewrite get_address_0_l, Hget.
    rewrite get_address_page_start.
    rewrite decide_False by (unfold PAGE_SIZE in *; lia).
    by rewrite decide_True.
  - fold vp.
    rewrite get_address_offset by (unfold PAGE_COUNT, PAGE_SIZE in *; lia).
    rewrite Hget, get_address_page_start.
    rewrite decide_False by lia.
    rewrite decide_False by (unfold PTP_OFFSET, PAGE_SIZE in *; lia).
    rewrite decide_False.
    2:{ intros Hin.
        assert (pt_page * PAGE_SIZE + vp ∈ pt_page :: ps) as Hin'.
        { apply elem_of_cons in Hin as [Heq|Hin];
            [rewrite Heq; by left|right].
          apply elem_of_take in Hin as (k & Hk & _).
          by eapply list_elem_of_lookup_2. }
        apply Hpages in Hin'. unfold PAGE_COUNT, PAGE_SIZE in *. lia. }
    rewrite <- get_address_page_start.
    apply Hclean; [by eapply free_pages_head_lowest|done].
Qed.

Lemma fresh_process_fault_beyond_witness :
  new_process (mem_after [Np 1 1]) 2 3
    = Some (mem_after [Np 1 1; Np 2 3], []) ∧
  store_byte (mem_after [Np 1 1; Np 2 3]) 2 768 7
    = Some (mem_after [Np 1 1; Np 2 3], [Invalid_virtual_address]) ∧
  load_byte (mem_after [Np 1 1; Np 2 3]) 2 768 = Some [Invalid_virtual_address].
Proof.
  split; [by vm_compute|].
  apply (fresh_process_fault_beyond (mem_after [Np 1 1]) 2 3);
    [by vm_compute|by exists 1; split; [by vm_compute|]|done|done|
     |by vm_compute|done].
  intros p i Hlow Hi.
  assert (p = 3) as ->.
  { eapply lowest_free_unique; [done|].
    split; [done|]. split; [by vm_compute|].
    intros j Hj. assert (j = 0 ∨ j = 1 ∨ j = 2) as [->|[->| ->]] by lia;
      by vm_compute. }
  apply page_is_clear_sound; [by vm_compute|unfold PAGE_COUNT in *; lia].
Defined.

(** ** Two processes *)

Section Isolation.
Implicit Types (m : list Z) (a : Z).

(** A store that lands in page [d] leaves alone every load whose
    translation goes through a table and a page other than [d]. *)
Lemma store_byte_other_pages m p vaddr val m' out d q vaddr' pt' d' :
  (∃ pt, get_page_table m p = Some pt ∧
         mem_get m (get_address pt (vaddr ≫ PAGE_SHIFT)) = Some d) →
  0 < d →
  get_page_table m q = Some pt' → PTP_OFFSET + q < PAGE_SIZE →
  mem_get m (get_address pt' (vaddr' ≫ PAGE_SHIFT)) = Some d' →
  0 ≤ vaddr' ≫ PAGE_SHIFT < PAGE_SIZE →
  d ≠ pt' → d ≠ d' →
  store_byte m p vaddr val = Some (m', out) →
  load_byte m' q vaddr' = load_byte m q vaddr'.
Proof.
  intros (pt & Hpt & Hentry) Hd Hpt' Hq Hentry' Hvp' Hne_pt Hne_d Hstore.
  unfold store_byte in Hstore. rewrite Hpt in Hstore.
  cbn [mbind option_bind] in Hstore. rewrite Hentry in Hstore.
  cbn [mbind option_bind] in Hstore.
  destruct (Z.eqb_spec d 0) as [?|_]; [lia|].
  unfold mem_set in Hstore. case_bool_decide as Hin; [|done].
  cbn [mbind option_bind] in Hstore. injection Hstore as <- _.
  pose proof (land_255_range vaddr) as Hoff.
  pose proof (land_255_range vaddr') as Hoff'.
  rewrite get_address_offset in Hin |- * by done.
  assert (0 ≤ d * PAGE_SIZE + Z.land vaddr 255) as Hpos by lia.
  apply (load_byte_reads m _ q vaddr' pt' d'); [done..| | |].
  - rewrite get_address_0_l.
    rewrite mem_get_insert_ne by (unfold PAGE_SIZE in *; lia).
    unfold get_page_table in Hpt'. by rewrite get_address_0_l in Hpt'.
  - rewrite mem_get_insert_ne; [done|done|].
    rewrite get_address_offset by done. unfold PAGE_SIZE in *. lia.
  - rewrite mem_get_insert_ne; [done|done|].
    rewrite get_address_offset by done. unfold PAGE_SIZE in *. lia.
Qed.
End Isolation.

(** X13. Two new processes do not see each other's stores.  Let process
    [procA] and then process [procB] be created by successful calls of
    [new_process], starting from a memory with page 0 marked used, with
    different process numbers and both directory bytes in page 0.  Then,
    for addresses inside the pages each process was given, a
    [store_byte] by one process changes nothing in what [load_byte]
    prints for the other. *)
Theorem fresh_processes_isolated m procA countA m1 procB countB m2
    vaddrA vaddrB :
  length m = Z.to_nat MEM_SIZE → page_zero_used m →
  0 ≤ procA → PTP_OFFSET + procA < PAGE_SIZE →
  0 ≤ procB → PTP_OFFSET + procB < PAGE_SIZE → procA ≠ procB →
  new_process m procA countA = Some (m1, []) →
  new_process m1 procB countB = Some (m2, []) →
  0 ≤ vaddrA < countA * PAGE_SIZE →
  0 ≤ vaddrB < countB * PAGE_SIZE →
  ∀ val m3 out,
    (store_byte m2 procB vaddrB val = Some (m3, out) →
     load_byte m3 procA vaddrA = load_byte m2 procA vaddrA) ∧
    (store_byte m2 procA vaddrA val = Some (m3, out) →
     load_byte m3 procB vaddrB = load_byte m2 procB vaddrB).
Proof.
  intros Hlen Hzero HprocA HdirA HprocB HdirB Hne HnewA HnewB HvaddrA HvaddrB.
  assert (length m1 = Z.to_nat MEM_SIZE) as Hlen1
    by (by rewrite (new_process_length _ _ _ _ _ Hlen HnewA)).
  pose proof (new_process_page_zero_used m procA countA m1 []
                Hlen HprocA Hzero HnewA) as Hzero1.
  destruct (new_process_translate m procA countA m1 vaddrA)
    as (ptA & dA & _ & HdA & HptA & HdA_range & _ & HptA_used & HdA_used & _
        & HdirA1 & HentryA1); [done..|].
  destruct (new_process_translate m1 procB countB m2 vaddrB)
    as (ptB & dB & HptB_free & HdB_free & HptB & HdB_range & HneB & _ & _ & _
        & HdirB2 & HentryB2); [done..|].
  (* The pages of B were free when B was created, those of A were not. *)
  assert (is_free m1 ptB ∧ is_free m1 dB) as [HptB_is_free HdB_is_free].
  { split; eapply (list_elem_of_filter (is_free m1));
      by eapply list_elem_of_lookup_2. }
  unfold is_free in HptB_is_free, HdB_is_free.
  rewrite get_address_0_l in HptB_is_free, HdB_is_free.
  assert (ptB ≠ ptA ∧ dB ≠ ptA ∧ dB ≠ dA) as (Hpt_ne & HdB_ptA & HdB_dA)
    by (repeat split; congruence).
  assert (ptB ≠ dA) as HptB_dA by congruence.
  (* The creation of B left the directory byte and the table of A alone. *)
  destruct (new_process_layout m1 procB countB m2)
    as (ptB' & psB & HfreeB & HposB & HleB & _ & Hget2); [done..|].
  rewrite HfreeB in HptB_free. injection HptB_free as ->.
  destruct (free_pages_cons_facts m1 ptB psB Hzero1 HfreeB)
    as (_ & HpsB_len & HpagesB).
  assert (0 ≤ countA) as HcountA by (unfold PAGE_SIZE in *; lia).
  assert (0 ≤ countB) as HcountB by (unfold PAGE_SIZE in *; lia).
  pose proof (shiftr_page_range vaddrA countA HcountA HvaddrA) as HvpA.
  pose proof (shiftr_page_range vaddrB countB HcountB HvaddrB) as HvpB.
  assert (vaddrA ≫ PAGE_SHIFT < PAGE_COUNT) as HvpA_lt.
  { pose proof (lookup_lt_Some _ _ _ HdA) as Hlt.
    pose proof (free_pages_length m). unfold PAGE_COUNT. lia. }
  assert (∀ a, PAGE_COUNT ≤ a → a ≠ PTP_OFFSET + procB →
            ¬ (get_address ptB 0 ≤ a < get_address ptB 0 + countB) →
            mem_get m2 a = mem_get m1 a) as Hframe.
  { intros a Ha Hne_dir Hout. rewrite Hget2.
    rewrite decide_False by done. rewrite decide_False by done.
    rewrite decide_False; [done|].
    intros [->|(k & Hk & _)%elem_of_take]%elem_of_cons; [lia|].
    apply list_elem_of_lookup_2 in Hk.
    destruct (HpagesB a); [by right|lia]. }
  pose proof (get_address_page_start ptB) as HstartB.
  assert (get_page_table m2 procA = Some ptA) as HdirA2.
  { unfold get_page_table in *. rewrite get_address_0_l in *.
    rewrite Hframe; [done|unfold PTP_OFFSET, PAGE_COUNT; lia|lia|].
    unfold PTP_OFFSET, PAGE_SIZE in *. lia. }
  assert (mem_get m2 (get_address ptA (vaddrA ≫ PAGE_SHIFT)) = Some dA)
    as HentryA2.
  { rewrite <- HentryA1.
    rewrite get_address_offset by (unfold PAGE_COUNT, PAGE_SIZE in *; lia).
    apply Hframe; unfold PTP_OFFSET, PAGE_COUNT, PAGE_SIZE in *; lia. }
  intros val m3 out. split; intros Hstore.
  - apply (store_byte_other_pages m2 procB vaddrB val m3 out dB
             procA vaddrA ptA dA);
      [by exists ptB|lia|done..|unfold PAGE_COUNT, PAGE_SIZE in *; lia
      |done|done|done].
  - apply (store_byte_other_pages m2 procA vaddrA val m3 out dA
             procB vaddrB ptB dB);
      [by exists ptA|lia|done..| |done|done|done].
    pose proof (lookup_lt_Some _ _ _ HdB_free) as Hlt.
    pose proof (free_pages_length m1). unfold PAGE_SIZE. lia.
Qed.

Lemma fresh_processes_isolated_witness :
  new_process (mem_after [Np 1 1]) 2 3
    = Some (mem_after [Np 1 1; Np 2 3], []) ∧
  new_process (mem_after [Np 1 1; Np 2 3]) 4 2
    = Some (mem_after [Np 1 1; Np 2 3; Np 4 2], []) ∧
  ∀ val m3 out,
    (store_byte (mem_after [Np 1 1; Np 2 3; Np 4 2]) 4 300 val = Some (m3, out) →
     load_byte m3 2 700 = load_byte (mem_after [Np 1 1; Np 2 3; Np 4 2]) 2 700) ∧
    (store_byte (mem_after [Np 1 1; Np 2 3; Np 4 2]) 2 700 val = Some (m3, out) →
     load_byte m3 4 300 = load_byte (mem_after [Np 1 1; Np 2 3; Np 4 2]) 4 300).
Proof.
  split; [by vm_compute|]. split; [by vm_compute|].
  apply (fresh_processes_isolated (mem_after [Np 1 1]) 2 3
           (mem_after [Np 1 1; Np 2 3]) 4 2);
    [by vm_compute|by exists 1; split; [by vm_compute|]|done..
    |by vm_compute|by vm_compute|done|done].
Defined.

(** ** The two dumps *)

Section Dumps.
Implicit Types (m : list Z) (a : Z).

Lemma free_map_snapshot_marks m :
  length m = Z.to_nat MEM_SIZE →
  free_map_snapshot m
    = Some ((λ i, negb (bool_decide (is_free m i))) <$> seqZ 0 64).
Proof.
  intros Hlen. unfold free_map_snapshot. apply mapM_all_Some.
  intros i Hi%elem_of_seqZ.
  destruct (mem_get_is_Some m (get_address 0 i)) as [b Hb]; [done| |].
  { rewrite get_address_0_l. unfold MEM_SIZE. lia. }
  rewrite Hb. cbn [mbind option_bind]. do 2 f_equal.
  destruct (Z.eqb_spec b 0) as [->|Hnz].
  - by rewrite bool_decide_eq_true_2.
  - rewrite bool_decide_eq_false_2; [done|]. unfold is_free. congruence.
Qed.

Lemma count_unmarked {A} (P : A → Prop) `{!∀ x, Decision (P x)} (l : list A) :
  length (filter (λ u : bool, u = false)
            ((λ x, negb (bool_decide (P x))) <$> l))
    = length (filter P l).
Proof.
  induction l as [|x l IH]; [done|].
  rewrite fmap_cons, !filter_cons. destruct (decide (P x)) as [HP|HP].
  - rewrite bool_decide_eq_true_2 by done. simpl. by rewrite IH.
  - rewrite bool_decide_eq_false_2 by done. simpl. by rewrite IH.
Qed.

(** The rows of [print_page_table] for a table inside the array. *)
Lemma page_table_snapshot_filter m proc_num pt_page :
  length m = Z.to_nat MEM_SIZE →
  get_page_table m proc_num = Some pt_page → is_page_index pt_page →
  page_table_snapshot m proc_num
    = Some (List.filter (λ r, negb (r.2 =? 0))
              ((λ i, (i, default 0 (mem_get m (get_address pt_page i))))
                 <$> seqZ 0 PAGE_COUNT)).
Proof.
  intros Hlen Hdir Hpt. unfold page_table_snapshot. rewrite Hdir.
  cbn [mbind option_bind].
  rewrite (mapM_all_Some _
             (λ i, (i, default 0 (mem_get m (get_address pt_page i))))); [done|].
  intros i Hi%elem_of_seqZ.
  destruct (mem_get_is_Some m (get_address pt_page i)) as [b ->]; [done| |done].
  rewrite get_address_offset by (unfold PAGE_COUNT, PAGE_SIZE in *; lia).
  unfold is_page_index, PAGE_COUNT, PAGE_SIZE, MEM_SIZE in *. lia.
Qed.
End Dumps.

(** X14. [print_page_free_map] on a memory of [MEM_SIZE] cells prints 64
    marks; the mark of page [i] is '.' exactly if the free-map byte of
    page [i] is 0, and the number of '.' is the number of free pages. *)
Theorem print_page_free_map_marks m :
  length m = Z.to_nat MEM_SIZE →
  ∃ used, print_page_free_map m = Some [Free_map_dump used] ∧
    length used = 64%nat ∧
    (∀ i, 0 ≤ i < PAGE_COUNT →
       used !! Z.to_nat i = Some false ↔ is_free m i) ∧
    length (filter (λ u, u = false) used) = length (free_pages m).
Proof.
  intros Hlen. eexists. split; [|split; [|split]].
  - unfold print_page_free_map. by rewrite free_map_snapshot_marks.
  - by rewrite length_fmap, length_seqZ.
  - intros i Hi. rewrite list_lookup_fmap.
    rewrite (lookup_seqZ_lt 0 64 (Z.to_nat i)) by (unfold PAGE_COUNT in *; lia).
    cbn. rewrite Z2Nat.id by lia. rewrite Z.add_0_l.
    destruct (decide (is_free m i)) as [Hfree|Hused].
    + by rewrite bool_decide_eq_true_2.
    + rewrite bool_decide_eq_false_2 by done. cbn. split; [done|].
      intros Hfree. by destruct Hused.
  - apply (count_unmarked (is_free m)).
Qed.

Lemma print_page_free_map_marks_witness :
  ∃ used, print_page_free_map (mem_after [Np 1 2]) = Some [Free_map_dump used] ∧
    length used = 64%nat ∧
    length (filter (λ u, u = false) used)
      = length (free_pages (mem_after [Np 1 2])).
Proof.
  destruct (print_page_free_map_marks (mem_after [Np 1 2]))
    as (used & Hprint & Hlen & _ & Hcount); [by vm_compute|].
  by exists used.
Defined.

(** X15. [print_page_table] and [load_byte] read the same table.  For a
    process whose directory byte is a page index, [print_page_table]
    prints one row per nonzero entry among the [PAGE_COUNT] entries of
    that page, and [load_byte] prints the fault for exactly the addresses
    of the 64 virtual pages whose page has no row. *)
Theorem print_page_table_rows m proc_num pt_page :
  length m = Z.to_nat MEM_SIZE →
  get_page_table m proc_num = Some pt_page → is_page_index pt_page →
  ∃ rows, print_page_table m proc_num = Some [Page_table_dump proc_num rows] ∧
    (∀ i e, (i, e) ∈ rows ↔
       0 ≤ i < PAGE_COUNT ∧ e ≠ 0 ∧
       mem_get m (get_address pt_page i) = Some e) ∧
    (∀ vaddr, 0 ≤ vaddr < PAGE_COUNT * PAGE_SIZE →
       load_byte m proc_num vaddr = Some [Invalid_virtual_address] ↔
       ∀ e, (vaddr ≫ PAGE_SHIFT, e) ∉ rows).
Proof.
  intros Hlen Hdir Hpt.
  assert (∀ i, 0 ≤ i < PAGE_COUNT →
            is_Some (mem_get m (get_address pt_page i))) as Hcell.
  { intros i Hi. apply mem_get_is_Some; [done|].
    rewrite get_address_offset by (unfold PAGE_COUNT, PAGE_SIZE in *; lia).
    unfold is_page_index, PAGE_COUNT, PAGE_SIZE, MEM_SIZE in *. lia. }
  set (rows := List.filter (λ r : Z * Z, negb (r.2 =? 0))
                 ((λ i, (i, default 0 (mem_get m (get_address pt_page i))))
                    <$> seqZ 0 PAGE_COUNT)).
  assert (∀ i e, (i, e) ∈ rows ↔
            0 ≤ i < PAGE_COUNT ∧ e ≠ 0 ∧
            mem_get m (get_address pt_page i) = Some e) as Hrows.
  { intros i e. unfold rows.
    rewrite list_elem_of_In, filter_In, <- list_elem_of_In, list_elem_of_fmap.
    cbn. rewrite negb_true_iff, Z.eqb_neq. split.
    - intros [(j & [= -> ->] & Hj%elem_of_seqZ) Hnz].
      destruct (Hcell j) as [b Hb]; [lia|]. rewrite Hb in Hnz |- *.
      split; [lia|done].
    - intros (Hi & Hnz & He). split; [|done].
      exists i. rewrite He. split; [done|]. apply elem_of_seqZ. lia. }
  exists rows. split; [|split; [done|]].
  - unfold print_page_table.
    by rewrite (page_table_snapshot_filter m proc_num pt_page).
  - intros vaddr Hvaddr.
    assert (0 ≤ vaddr ≫ PAGE_SHIFT < PAGE_COUNT) as Hvp
      by (apply shiftr_page_range; [by unfold PAGE_COUNT|done]).
    destruct (Hcell _ Hvp) as [e He].
    unfold load_byte. rewrite Hdir. cbn [mbind option_bind].
    rewrite He. cbn [mbind option_bind].
    destruct (Z.eqb_spec e 0) as [->|Hnz].
    + split; [|done]. intros _ e' (_ & Hnz & He')%Hrows. congruence.
    + split.
      * destruct (mem_get m (get_address e _)); by cbn.
      * intros Hnone. destruct (Hnone e). by apply Hrows.
Qed.

Lemma print_page_table_rows_witness :
  get_page_table (mem_after [Np 1 2]) 1 = Some 1 ∧ is_page_index 1 ∧
  ∃ rows, print_page_table (mem_after [Np 1 2]) 1
            = Some [Page_table_dump 1 rows] ∧
    (load_byte (mem_after [Np 1 2]) 1 600 = Some [Invalid_virtual_address] ↔
     ∀ e, (600 ≫ PAGE_SHIFT, e) ∉ rows).
Proof.
  split; [by vm_compute|]. split; [done|].
  destruct (print_page_table_rows (mem_after [Np 1 2]) 1 1)
    as (rows & Hprint & _ & Hload); [by vm_compute|by vm_compute|done|].
  exists rows. split; [done|]. by apply Hload.
Defined.

(** X16. When the translation leaves the array.  Every cell is a byte, but
    only the values below [PAGE_COUNT] are pages: with the directory byte
    and the page-table entry [e] read, [store_byte] and [load_byte] run to
    their end exactly if [e] is a page index.  For an entry from 64 to 255
    the access [mem[phys_addr]] lies beyond the array. *)
Theorem translation_defined_iff m proc_num vaddr val pt_page e :
  length m = Z.to_nat MEM_SIZE →
  get_page_table m proc_num = Some pt_page →
  mem_get m (get_address pt_page (vaddr ≫ PAGE_SHIFT)) = Some e →
  (is_Some (store_byte m proc_num vaddr val) ↔ is_page_index e) ∧
  (is_Some (load_byte m proc_num vaddr) ↔ is_page_index e).
Proof.
  intros Hlen Hdir He. unfold store_byte, load_byte. rewrite Hdir.
  cbn [mbind option_bind]. rewrite He. cbn [mbind option_bind].
  pose proof (land_255_range vaddr) as Hoff.
  destruct (Z.eqb_spec e 0) as [->|Hnz].
  { split; (split; [by intros _|by eexists]). }
  rewrite get_address_offset by done.
  set (phys_addr := e * PAGE_SIZE + Z.land vaddr 255).
  assert (0 ≤ phys_addr < MEM_SIZE ↔ is_page_index e) as Hin.
  { unfold phys_addr, is_page_index, PAGE_COUNT, PAGE_SIZE, MEM_SIZE in *. lia. }
  rewrite <- Hin. split; split.
  - intros [r Hr]. unfold mem_set in Hr. by case_bool_decide.
  - intros Hrange. rewrite mem_set_Some by done. by eexists.
  - intros [r Hr]. destruct (mem_get m phys_addr) as [b|] eqn:Hb; [|done].
    by eapply mem_get_Some_range.
  - intros Hrange.
    destruct (mem_get_is_Some m phys_addr Hlen Hrange) as [b ->]. by eexists.
Qed.

Lemma translation_defined_iff_witness :
  mem_get (mem_after [Sb 5 0 200; Np 1 0]) (get_address 1 (0 ≫ PAGE_SHIFT))
    = Some 200 ∧
  store_byte (mem_after [Sb 5 0 200; Np 1 0]) 1 0 9 = None ∧
  load_byte (mem_after [Sb 5 0 200; Np 1 0]) 1 0 = None.
Proof.
  assert (mem_get (mem_after [Sb 5 0 200; Np 1 0])
            (get_address 1 (0 ≫ PAGE_SHIFT)) = Some 200) as He
    by (by vm_compute).
  split; [done|].
  destruct (translation_defined_iff (mem_after [Sb 5 0 200; Np 1 0])
              1 0 9 1 200) as [Hstore Hload]; [by vm_compute..|].
  assert (¬ is_page_index 200) as Hout
    by (unfold is_page_index, PAGE_COUNT; lia).
  split.
  - destruct (store_byte _ 1 0 9) as [r|]; [|done].
    destruct Hout. apply Hstore. by eexists.
  - destruct (load_byte _ 1 0) as [r|]; [|done].
    destruct Hout. apply Hload. by eexists.
Defined.

(** ** What the commands write *)

Section Writes.
Implicit Types (m : list Z) (a v : Z).

Lemma mem_set_cells m a v m' :
  length m = Z.to_nat MEM_SIZE → mem_set m a v = Some m' →
  ∀ a', mem_get m' a'
          = if decide (a' = a) then Some (v `mod` 256) else mem_get m a'.
Proof.
  intros Hlen Hset a'. unfold mem_set in Hset.
  case_bool_decide as Ha; [|done]. injection Hset as <-.
  destruct (decide (a' = a)) as [->|Hne].
  - by apply mem_get_insert_eq.
  - apply mem_get_insert_ne; [lia|done].
Qed.

Lemma write_entries_cells (n : nat) i pt_addr data_pages m m' :
  length m = Z.to_nat MEM_SIZE →
  write_entries n i pt_addr data_pages m = Some m' →
  ∀ a, mem_get m' a = mem_get m a ∨
       ∃ d, d ∈ data_pages ∧ mem_get m' a = Some (d `mod` 256).
Proof.
  revert i m. induction n as [|n IH]; intros i m Hlen Hwrite a.
  { injection Hwrite as <-. by left. }
  cbn [write_entries] in Hwrite.
  destruct (data_pages !! Z.to_nat i) as [d|] eqn:Hd; [|done].
  cbn [mbind option_bind] in Hwrite.
  destruct (d =? -1); cbn [mbind option_bind] in Hwrite.
  { by eapply IH. }
  destruct (mem_set m (pt_addr + i) d) as [m1|] eqn:Hset; [|done].
  cbn [mbind option_bind] in Hwrite.
  assert (length m1 = Z.to_nat MEM_SIZE) as Hlen1
    by (by rewrite (mem_set_length _ _ _ _ Hset)).
  destruct (IH (i + 1) m1 Hlen1 Hwrite a) as [Hsame|Hnew]; [|by right].
  rewrite Hsame, (mem_set_cells _ _ _ _ Hlen Hset).
  destruct (decide (a = pt_addr + i)); [right|by left].
  exists d. split; [by eapply list_elem_of_lookup_2|done].
Qed.

Lemma free_entries_cells (n : nat) i pt_addr m m' :
  length m = Z.to_nat MEM_SIZE →
  free_entries n i pt_addr m = Some m' →
  ∀ a, mem_get m' a = mem_get m a ∨ mem_get m' a = Some 0.
Proof.
  revert i m. induction n as [|n IH]; intros i m Hlen Hsweep a.
  { injection Hsweep as <-. by left. }
  cbn [free_entries] in Hsweep.
  destruct (mem_get m (pt_addr + i)) as [e|]; [|done].
  cbn [mbind option_bind] in Hsweep.
  destruct (e =? 0); cbn [mbind option_bind] in Hsweep.
  { by eapply IH. }
  destruct (mem_set m (get_address 0 e) 0) as [m1|] eqn:Hset; [|done].
  cbn [mbind option_bind] in Hsweep.
  assert (length m1 = Z.to_nat MEM_SIZE) as Hlen1
    by (by rewrite (mem_set_length _ _ _ _ Hset)).
  destruct (IH (i + 1) m1 Hlen1 Hsweep a) as [Hsame|Hzero]; [|by right].
  rewrite Hsame, (mem_set_cells _ _ _ _ Hlen Hset).
  destruct (decide (a = get_address 0 e)); [by right|by left].
Qed.

(** Whatever [new_process] writes is a page index. *)
Lemma new_process_cells m proc_num page_count m' out :
  length m = Z.to_nat MEM_SIZE →
  new_process m proc_num page_count = Some (m', out) →
  ∀ a, mem_get m' a = mem_get m a ∨
       ∃ b, mem_get m' a = Some b ∧ is_page_index b.
Proof.
  intros Hlen Hnew a. destruct (decide (0 ≤ page_count ≤ STACK_INTS)) as [[Hpos Hfits]|Hneg].
  2:{ rewrite new_process_no_array in Hnew by done.
      destruct (free_pages m); [|done]. injection Hnew as <- _. by left. }
  rewrite new_process_first_fit in Hnew by done.
  destruct (free_pages m) as [|p ps] eqn:Hfree.
  { injection Hnew as <- _. by left. }
  assert (∀ q, q ∈ p :: ps → 0 ≤ q < PAGE_COUNT) as Hrange.
  { intros q Hq. apply (free_pages_range m). by rewrite Hfree. }
  assert (∀ qs, (∀ q, q ∈ qs → q ∈ p :: ps) →
            mem_get (mark_all m qs) a = mem_get m a ∨
            ∃ b, mem_get (mark_all m qs) a = Some b ∧ is_page_index b)
    as Hmark.
  { intros qs Hqs. rewrite mark_all_free_pages_get;
      [|done|by intros q Hq; apply Hrange, Hqs].
    destruct (decide (a ∈ qs)); [right|by left].
    exists 1. split; [done|]. by unfold is_page_index, PAGE_COUNT. }
  cbv zeta in Hnew.
  destruct (decide (Z.to_nat page_count ≤ length ps)%nat) as [_|_].
  2:{ injection Hnew as <- _. by apply (Hmark (p :: ps)). }
  set (data := take (Z.to_nat page_count) ps) in *.
  assert (∀ q, q ∈ data → q ∈ ps) as Hdata_in.
  { intros q (k & Hk & _)%elem_of_take. by eapply list_elem_of_lookup_2. }
  assert (∀ q, q ∈ p :: data → q ∈ p :: ps) as Hsub.
  { intros q [->|Hq]%elem_of_cons; [left|right; by apply Hdata_in]. }
  unfold commit in Hnew.
  destruct (mem_set _ _ p) as [m3|] eqn:Hdir; [|done].
  cbn [mbind option_bind] in Hnew.
  destruct (write_entries _ 0 _ _ m3) as [m4|] eqn:Hwrite; [|done].
  injection Hnew as <- _.
  assert (length (mark_all m (p :: data)) = Z.to_nat MEM_SIZE) as Hlen2
    by (by rewrite mark_all_length).
  assert (length m3 = Z.to_nat MEM_SIZE) as Hlen3
    by (by rewrite (mem_set_length _ _ _ _ Hdir)).
  destruct (write_entries_cells _ _ _ _ _ _ Hlen3 Hwrite a)
    as [->|(d & Hd & ->)].
  - rewrite (mem_set_cells _ _ _ _ Hlen2 Hdir).
    destruct (decide (a = _)); [right|by apply (Hmark (p :: data))].
    exists (p `mod` 256). split; [done|].
    destruct (Hrange p); [left|].
    rewrite Z.mod_small by (unfold PAGE_COUNT in *; lia). done.
  - right. exists (d `mod` 256). split; [done|].
    destruct (Hrange d); [right; by apply Hdata_in|].
    rewrite Z.mod_small by (unfold PAGE_COUNT in *; lia). done.
Qed.

(** Whatever [kill_process] writes is a 0. *)
Lemma kill_process_cells m proc_num m' out :
  length m = Z.to_nat MEM_SIZE →
  kill_process m proc_num = Some (m', out) →
  ∀ a, mem_get m' a = mem_get m a ∨ mem_get m' a = Some 0.
Proof.
  intros Hlen Hkill a. unfold kill_process in Hkill.
  remember (Z.to_nat PAGE_COUNT) as n eqn:Hn in Hkill. clear Hn.
  destruct (get_page_table m proc_num) as [pt_page|]; [|done].
  cbn [mbind option_bind] in Hkill.
  destruct (free_entries _ 0 _ m) as [m1|] eqn:Hsweep; [|done].
  cbn [mbind option_bind] in Hkill.
  destruct (mem_set m1 _ 0) as [m2|] eqn:Hpt; [|done].
  cbn [mbind option_bind] in Hkill.
  destruct (mem_set m2 _ 0) as [m3|] eqn:Hdir; [|done].
  injection Hkill as <- _.
  assert (length m1 = Z.to_nat MEM_SIZE) as Hlen1
    by (by rewrite (free_entries_length _ _ _ _ _ Hsweep)).
  assert (length m2 = Z.to_nat MEM_SIZE) as Hlen2
    by (by rewrite (mem_set_length _ _ _ _ Hpt)).
  rewrite (mem_set_cells _ _ _ _ Hlen2 Hdir).
  destruct (decide (a = _)); [by right|].
  rewrite (mem_set_cells _ _ _ _ Hlen1 Hpt).
  destruct (decide (a = _)); [by right|].
  by eapply free_entries_cells.
Qed.

(** Whatever [store_byte] writes is a byte outside page 0. *)
Lemma store_byte_cells m proc_num vaddr val m' out :
  length m = Z.to_nat MEM_SIZE →
  store_byte m proc_num vaddr val = Some (m', out) →
  ∀ a, mem_get m' a = mem_get m a ∨
       PAGE_SIZE ≤ a ∧ mem_get m' a = Some (val `mod` 256).
Proof.
  intros Hlen Hstore a. unfold store_byte in Hstore.
  destruct (get_page_table m proc_num) as [pt_page|]; [|done].
  cbn [mbind option_bind] in Hstore.
  destruct (mem_get m _) as [phys_page|]; [|done].
  cbn [mbind option_bind] in Hstore.
  destruct (Z.eqb_spec phys_page 0) as [_|Hphys].
  { injection Hstore as <- _. by left. }
  destruct (mem_set m _ val) as [m1|] eqn:Hset; [|done].
  injection Hstore as <- _.
  rewrite (mem_set_cells _ _ _ _ Hlen Hset).
  destruct (decide (a = _)) as [->|]; [right|by left]. split; [|done].
  pose proof (land_255_range vaddr) as Hoff.
  unfold mem_set in Hset. case_bool_decide as Hin; [|done].
  rewrite get_address_offset in Hin |- * by done.
  unfold PAGE_SIZE in *. lia.
Qed.

(** Every command writes page indices, or (for [sb]) one byte outside
    page 0. *)
Lemma exec_cells m c m' out :
  length m = Z.to_nat MEM_SIZE → exec m c = Some (m', out) →
  ∀ a, mem_get m' a = mem_get m a ∨
       (∃ b, mem_get m' a = Some b ∧ is_page_index b) ∨
       (PAGE_SIZE ≤ a ∧ ∃ b, mem_get m' a = Some b ∧ 0 ≤ b < 256).
Proof.
  intros Hlen Hexec a. destruct c as [|p|p n|p|p v x|p v]; simpl in Hexec.
  - destruct (print_page_free_map m); [|done]. injection Hexec as <- _. by left.
  - destruct (print_page_table m p); [|done]. injection Hexec as <- _. by left.
  - destruct (new_process_cells _ _ _ _ _ Hlen Hexec a); [by left|right; by left].
  - destruct (kill_process_cells _ _ _ _ Hlen Hexec a) as [?|Hzero]; [by left|].
    right; left. exists 0. split; [done|]. by unfold is_page_index, PAGE_COUNT.
  - destruct (store_byte_cells _ _ _ _ _ _ Hlen Hexec a) as [?|[Ha Hval]];
      [by left|].
    right; right. split; [done|]. eexists. split; [done|].
    apply Z.mod_pos_bound. lia.
  - destruct (load_byte m p v); [|done]. injection Hexec as <- _. by left.
Qed.

Lemma well_formed_initialize_mem : well_formed initialize_mem.
Proof.
  assert (∀ a b, mem_get initialize_mem a = Some b → b = 0 ∨ b = 1) as Hcell.
  { intros a b Hb. pose proof (mem_get_Some_range _ _ _ Hb) as Ha.
    unfold initialize_mem in Hb. cbv zeta in Hb.
    rewrite get_address_0_l in Hb.
    destruct (decide (a = 0)) as [->|Hne].
    - rewrite mem_get_insert_eq in Hb by (by rewrite ?length_replicate).
      right. congruence.
    - rewrite mem_get_insert_ne in Hb by (done || lia).
      rewrite mem_get_lookup in Hb by done.
      apply lookup_replicate_1 in Hb as [-> _]. by left. }
  split; [done|]. split.
  - intros a b Hb. destruct (Hcell a b Hb) as [-> | ->]; lia.
  - intros a b _ Hb. unfold is_page_index, PAGE_COUNT.
    destruct (Hcell a b Hb) as [-> | ->]; lia.
Qed.

Lemma exec_well_formed m c m' out :
  well_formed m → exec m c = Some (m', out) → well_formed m'.
Proof.
  intros (Hlen & Hbytes & Hzero) Hexec.
  pose proof (exec_cells m c m' out Hlen Hexec) as Hcells.
  split; [by rewrite (exec_length _ _ _ _ Hlen Hexec)|]. split.
  - intros a b Hb.
    destruct (Hcells a) as [Hsame|[(b' & Hb' & Hidx)|(_ & b' & Hb' & Hbyte)]].
    + apply (Hbytes a). by rewrite <- Hsame.
    + unfold is_page_index, PAGE_COUNT in Hidx.
      assert (b = b') as -> by congruence. lia.
    + assert (b = b') as -> by congruence. done.
  - intros a b Ha Hb.
    destruct (Hcells a) as [Hsame|[(b' & Hb' & Hidx)|(Hge & _)]].
    + apply (Hzero a); [done|]. by rewrite <- Hsame.
    + assert (b = b') as -> by congruence. done.
    + lia.
Qed.

Lemma exec_all_well_formed cs m m' out :
  well_formed m → exec_all m cs = Some (m', out) → well_formed m'.
Proof.
  revert m m' out. induction cs as [|c cs IH]; intros m m' out Hwf Hrun.
  { simpl in Hrun. by injection Hrun as <- _. }
  simpl in Hrun.
  destruct (exec m c) as [[m1 out1]|] eqn:Hexec; [|done].
  cbn [mbind option_bind] in Hrun.
  destruct (exec_all m1 cs) as [[m2 out2]|] eqn:Hall; [|done].
  injection Hrun as <- _.
  apply (IH m1 m2 out2); [by eapply exec_well_formed|done].
Qed.

(** The sweep of [kill_process] stays inside the array when the table
    does and the cells are bytes. *)
Lemma free_entries_defined (n : nat) i pt_addr m :
  length m = Z.to_nat MEM_SIZE →
  (∀ a b, mem_get m a = Some b → 0 ≤ b < 256) →
  0 ≤ pt_addr → 0 ≤ i → pt_addr + i + Z.of_nat n ≤ MEM_SIZE →
  is_Some (free_entries n i pt_addr m).
Proof.
  revert i m. induction n as [|n IH]; intros i m Hlen Hbytes Hpt Hi Hend.
  { by eexists. }
  cbn [free_entries].
  destruct (mem_get_is_Some m (pt_addr + i)) as [e He]; [done|lia|].
  rewrite He. cbn [mbind option_bind]. pose proof (Hbytes _ _ He) as Hbyte.
  destruct (e =? 0); cbn [mbind option_bind]; [apply IH; (done || lia)|].
  rewrite get_address_0_l.
  rewrite mem_set_Some by (unfold MEM_SIZE; lia). cbn [mbind option_bind].
  apply IH; [by rewrite length_insert| |done|lia|lia].
  intros a b Hb. destruct (decide (a = e)) as [->|Hne].
  - rewrite mem_get_insert_eq in Hb by (done || unfold MEM_SIZE; lia).
    injection Hb as <-. done.
  - rewrite mem_get_insert_ne in Hb by (lia || done). by eapply Hbytes.
Qed.

(** The commands of the allocator run to their end on a well-formed
    memory, when the array of an [np] fits the stack. *)
Lemma exec_allocator_defined m c :
  well_formed m → allocator_command c → fits_stack c → is_Some (exec m c).
Proof.
  intros (Hlen & Hbytes & Hzero) Hc Hfits.
  assert (∀ p, 0 ≤ PTP_OFFSET + p < PAGE_SIZE →
            ∃ pt_page, get_page_table m p = Some pt_page ∧
                       is_page_index pt_page) as Hdir.
  { intros p Hp. unfold get_page_table. rewrite get_address_0_l.
    destruct (mem_get_is_Some m (PTP_OFFSET + p)) as [pt_page Hpt];
      [done|unfold PAGE_SIZE, MEM_SIZE in *; lia|].
    exists pt_page. split; [done|]. by eapply Hzero. }
  destruct c as [|p|p n|p|p v x|p v]; simpl in Hc, Hfits |- *; [| | | |done..].
  - unfold print_page_free_map. rewrite free_map_snapshot_marks by done.
    by eexists.
  - destruct (Hdir p Hc) as (pt_page & Hpt & Hidx).
    unfold print_page_table.
    rewrite (page_table_snapshot_filter m p pt_page) by done. by eexists.
  - destruct Hc as [Hp Hn]. apply new_process_defined; [done..|].
    unfold PAGE_SIZE, MEM_SIZE in *. lia.
  - destruct (Hdir p Hc) as (pt_page & Hpt & Hidx).
    unfold kill_process. rewrite Hpt. cbn [mbind option_bind].
    unfold is_page_index in Hidx.
    destruct (free_entries_defined (Z.to_nat PAGE_COUNT) 0
                (get_address pt_page 0) m) as [m1 Hsweep]; [done..| | | |].
    { rewrite get_address_page_start. unfold PAGE_SIZE. lia. }
    { done. }
    { rewrite get_address_page_start.
      unfold PAGE_COUNT, PAGE_SIZE, MEM_SIZE in *. lia. }
    rewrite Hsweep. cbn [mbind option_bind]. rewrite !get_address_0_l.
    rewrite mem_set_Some by (unfold PAGE_COUNT, MEM_SIZE in *; lia).
    cbn [mbind option_bind].
    rewrite mem_set_Some by (unfold PAGE_SIZE, MEM_SIZE in *; lia).
    by eexists.
Qed.
End Writes.

(** X17. In every state a run of commands reaches, every cell is a byte
    and every cell of page 0, free map and directory, holds a page
    index: [new_process] writes the figure 1 and indices of pages it
    found free, [kill_process] writes 0, and [store_byte] never writes
    page 0.  This holds for every command line, also with process
    numbers outside the directory and with [kp] of a process that does
    not exist. *)
Theorem reachable_well_formed cs m out :
  main cs = Some (m, out) → well_formed m ∧ free_map_names_pages m.
Proof.
  intros Hrun.
  assert (well_formed m) as Hwf
    by (eapply exec_all_well_formed; [apply well_formed_initialize_mem|done]).
  split; [done|]. destruct Hwf as (Hlen & _ & Hzero).
  intros i Hi. rewrite get_address_0_l.
  destruct (mem_get_is_Some m i) as [b Hb];
    [done|unfold PAGE_COUNT, MEM_SIZE in *; lia|].
  exists b. split; [done|].
  apply (Hzero i); [unfold PAGE_COUNT, PAGE_SIZE in *; lia|done].
Qed.

Lemma reachable_well_formed_witness :
  well_formed (mem_after [Np 1 2; Sb 1 300 77; Kp 9]) ∧
  free_map_names_pages (mem_after [Np 1 2; Sb 1 300 77; Kp 9]).
Proof.
  apply (reachable_well_formed [Np 1 2; Sb 1 300 77; Kp 9] _
           [Store_line 1 300 812 77]).
  by vm_compute.
Defined.

(** X18. The allocator is memory safe.  A command line of [pfm], [ppt],
    [np] and [kp] only, with every directory byte in page 0 and every
    page count not negative and small enough for its array to fit the
    stack ([page_count ≤ STACK_INTS]), runs to its end from the initial
    memory: no access leaves the array, whatever the order of the
    commands and whether or not the processes named exist. *)
Theorem allocator_runs_defined cs :
  Forall allocator_command cs → Forall fits_stack cs →
  ∃ m out, main cs = Some (m, out) ∧ well_formed m.
Proof.
  unfold main. pose proof well_formed_initialize_mem as Hwf. revert Hwf.
  generalize initialize_mem as m0.
  induction cs as [|c cs IH]; intros m0 Hwf Hcs Hfit.
  { exists m0, []. by split. }
  apply Forall_cons in Hcs as [Hc Hcs].
  apply Forall_cons in Hfit as [Hc_fits Hfit].
  destruct (exec_allocator_defined m0 c Hwf Hc Hc_fits) as [[m1 out1] Hexec].
  destruct (IH m1) as (m2 & out2 & Hrun & Hwf2);
    [by eapply exec_well_formed|done|done|].
  exists m2, (out1 ++ out2). split; [|done].
  cbn [exec_all]. rewrite Hexec. cbn [mbind option_bind].
  rewrite Hrun. done.
Qed.

Lemma allocator_runs_defined_witness :
  Forall allocator_command [Kp 5; Np 1 70; Ppt 1; Np 2 3; Kp 2; Pfm] ∧
  Forall fits_stack [Kp 5; Np 1 70; Ppt 1; Np 2 3; Kp 2; Pfm] ∧
  ∃ m out, main [Kp 5; Np 1 70; Ppt 1; Np 2 3; Kp 2; Pfm] = Some (m, out) ∧
           well_formed m.
Proof.
  assert (Forall allocator_command [Kp 5; Np 1 70; Ppt 1; Np 2 3; Kp 2; Pfm])
    as Hcs.
  { repeat constructor; unfold PTP_OFFSET, PAGE_SIZE; lia. }
  assert (Forall fits_stack [Kp 5; Np 1 70; Ppt 1; Np 2 3; Kp 2; Pfm])
    as Hfit.
  { repeat (apply Forall_cons; split; [by vm_compute|]). by apply Forall_nil. }
  split; [done|]. split; [done|]. by apply allocator_runs_defined.
Defined.

(** ** The command line *)

Section CommandLineLoop.
Variable atoi : string → Z.
Implicit Types (m : list Z) (args rest : list string).

(** One command run by the loop body, then the rest of the loop, against
    the same command at the head of the parsed list. *)
Lemma loop_step m c r (k : list Z → option (list Z * list event)) pr :
  exec m c = r → (∀ m1, k m1 = pr ≫= exec_all m1) →
  and_then r k = (cs ← pr; Some (c :: cs)) ≫= exec_all m.
Proof.
  intros <- Hk. unfold and_then. destruct pr as [cs|]; cbn.
  - destruct (exec m c) as [[m1 out1]|]; cbn; [|done]. by rewrite Hk.
  - destruct (exec m c) as [[m1 out1]|]; cbn; [|done]. by rewrite Hk.
Qed.

Lemma main_loop_parse_bounded (n : nat) args m :
  (length args ≤ n)%nat →
  main_loop atoi args m = parse atoi args ≫= exec_all m.
Proof.
  revert args m. induction n as [|n IH]; intros args m Hn.
  { destruct args; [done|simpl in Hn; lia]. }
  destruct args as [|t rest]; [done|]. simpl in Hn.
  cbn [main_loop parse].
  destruct (String.eqb t "pfm").
  { apply loop_step; [done|]. intros m1. apply IH. lia. }
  destruct (String.eqb t "ppt").
  { destruct rest as [|a rest]; [done|]. simpl in Hn.
    apply loop_step; [done|]. intros m1. apply IH. lia. }
  destruct (String.eqb t "np").
  { destruct rest as [|a [|b rest]]; [done..|]. simpl in Hn.
    apply loop_step; [done|]. intros m1. apply IH. lia. }
  destruct (String.eqb t "kp").
  { destruct rest as [|a rest]; [done|]. simpl in Hn.
    apply loop_step; [done|]. intros m1. apply IH. lia. }
  destruct (String.eqb t "sb").
  { destruct rest as [|a [|b [|c rest]]]; [done..|]. simpl in Hn.
    apply loop_step; [done|]. intros m1. apply IH. lia. }
  destruct (String.eqb t "lb").
  { destruct rest as [|a [|b rest]]; [done..|]. simpl in Hn.
    apply loop_step; [done|]. intros m1. apply IH. lia. }
  apply IH. lia.
Qed.

Lemma and_then_ext r (k k' : list Z → option (list Z * list event)) :
  (∀ m1, k m1 = k' m1) → and_then r k = and_then r k'.
Proof.
  intros Hk. unfold and_then. destruct r as [[m1 out1]|]; cbn; [|done].
  by rewrite Hk.
Qed.

Lemma main_loop_ptsim_bounded (n : nat) args m :
  (length args ≤ n)%nat → existsb later_command args = false →
  main_loop_ptsim atoi args m = main_loop atoi args m.
Proof.
  revert args m. induction n as [|n IH]; intros args m Hn Hnone.
  { destruct args; [done|simpl in Hn; lia]. }
  destruct args as [|t rest]; [done|]. simpl in Hn.
  cbn [existsb] in Hnone. apply orb_false_iff in Hnone as [Ht Hrest].
  unfold later_command in Ht.
  apply orb_false_iff in Ht as [[Hkp Hsb]%orb_false_iff Hlb].
  cbn [main_loop main_loop_ptsim]. rewrite Hkp, Hsb, Hlb.
  destruct (String.eqb t "pfm").
  { apply and_then_ext. intros m1. apply IH; [lia|done]. }
  destruct (String.eqb t "ppt").
  { destruct rest as [|a rest]; [done|]. simpl in Hn.
    cbn [existsb] in Hrest. apply orb_false_iff in Hrest as [_ Hrest].
    apply and_then_ext. intros m1. apply IH; [lia|done]. }
  destruct (String.eqb t "np").
  { destruct rest as [|a [|b rest]]; [done..|]. simpl in Hn.
    cbn [existsb] in Hrest.
    apply orb_false_iff in Hrest as [_ [_ Hrest]%orb_false_iff].
    apply and_then_ext. intros m1. apply IH; [lia|done]. }
  apply IH; [lia|done].
Qed.
End CommandLineLoop.

(** X19. [main] on the tokens of the command line.  With no token it ends
    with the usage message.  Otherwise it is the run, from the initial
    memory, of the commands the tokens stand for: each of the six names
    takes as many following tokens as it has arguments, whatever they
    spell, and every other token is skipped; if the last command lacks an
    argument, [atoi] gets the null pointer [argv[argc]] and the whole run
    is undefined. *)
Theorem main_argv_runs_parsed (atoi : string → Z) (args : list string) :
  main_argv atoi args =
    match args with
    | [] => Some Usage
    | _ => '(m, out) ← parse atoi args ≫= main; Some (Ran m out)
    end.
Proof.
  destruct args as [|t rest]; [done|]. unfold main_argv, main.
  by rewrite (main_loop_parse_bounded atoi (length (t :: rest))).
Qed.

(** X20. The two variants of [main] agree on the older command set.  On a
    command line in which no token spells [kp], [sb] or [lb], [main] of
    [ptsim.c] and [main] of the complete variant end the same way, with
    the same memory and the same lines printed. *)
Theorem main_argv_ptsim_agrees (atoi : string → Z) (args : list string) :
  existsb later_command args = false →
  main_argv_ptsim atoi args = main_argv atoi args.
Proof.
  intros Hnone. destruct args as [|t rest]; [done|].
  unfold main_argv_ptsim, main_argv.
  by rewrite (main_loop_ptsim_bounded atoi (length (t :: rest))).
Qed.

Lemma main_argv_ptsim_agrees_witness :
  existsb later_command ["np"; "1"; "2"; "pfm"; "nop"; "ppt"; "1"] = false ∧
  main_argv_ptsim (digits_value 0) ["np"; "1"; "2"; "pfm"; "nop"; "ppt"; "1"]
    = main_argv (digits_value 0) ["np"; "1"; "2"; "pfm"; "nop"; "ppt"; "1"].
Proof.
  split; [reflexivity|]. by apply main_argv_ptsim_agrees.
Defined.

(** ** Runs that only create processes *)

Section Creating.
Implicit Types (m : list Z) (a e : Z).

(** One step that marks free pages and fills cells of one of them with
    indices of others keeps the shape. *)
Lemma only_created_marks m m1 (marked data : list Z) pt_page :
  only_created m → length m1 = length m → page_zero_used m1 →
  (∀ e, e ∈ marked → 0 < e < PAGE_COUNT ∧ is_free m e) →
  (∀ e, e ∈ marked → mem_get m1 e = Some 1) →
  (∀ a, 0 ≤ a < PAGE_COUNT → a ∉ marked → mem_get m1 a = mem_get m a) →
  (∀ e, e ∈ data → e ∈ marked ∧ e ≠ pt_page) →
  (∀ a, PAGE_SIZE ≤ a →
     mem_get m1 a = mem_get m a ∨
     ∃ i e, 0 ≤ i < PAGE_SIZE ∧ a = get_address pt_page i ∧
            pt_page ∈ marked ∧ mem_get m1 a = Some e ∧ e ∈ data) →
  only_created m1.
Proof.
  intros (Hlen & Hzero & Hpages) Hlen1 Hzero1 Hmarked Hone Hmap Hdata Hcells.
  assert (∀ e, 0 < e < PAGE_COUNT → ¬ is_free m e → ¬ is_free m1 e) as Hused.
  { intros e He Hnot. unfold is_free in *. rewrite get_address_0_l in *.
    destruct (decide (e ∈ marked)) as [Hin|Hout].
    - by rewrite (Hone e Hin).
    - by rewrite Hmap by (done || lia). }
  assert (∀ e, 0 < e → blank m e → (pt_page ∈ marked → e ≠ pt_page) →
            blank m1 e) as Hblank.
  { intros e He Hb Hne j Hj.
    destruct (Hcells (get_address e j))
      as [Hsame|(i' & e' & Hi' & Heq & Hin & _)].
    - rewrite get_address_offset by done. unfold PAGE_SIZE in *. lia.
    - rewrite Hsame. by apply Hb.
    - destruct (Hne Hin). rewrite !get_address_offset in Heq by done.
      unfold PAGE_SIZE in *. lia. }
  split; [by rewrite Hlen1|]. split; [done|].
  intros q Hq. destruct (Hpages q Hq) as [Hnames Hfree_blank]. split.
  - intros i e Hi He Hnz.
    destruct (Hcells (get_address q i))
      as [Hsame|(i' & e' & Hi' & Heq & Hin & He' & Hin_data)].
    + rewrite get_address_offset by done. unfold PAGE_SIZE in *. lia.
    + rewrite Hsame in He.
      destruct (Hnames i e Hi He Hnz) as (He_range & He_used & He_blank).
      split; [done|]. split; [by apply Hused|].
      apply Hblank; [lia|done|].
      intros Hpt ->. by destruct (Hmarked pt_page Hpt).
    + assert (e = e') as <- by congruence.
      destruct (Hdata e Hin_data) as [He_marked He_ne].
      destruct (Hmarked e He_marked) as [He_range He_free].
      split; [done|]. split.
      * unfold is_free. by rewrite get_address_0_l, (Hone e He_marked).
      * apply Hblank; [lia| |done].
        by apply (Hpages e He_range).
  - intros Hfree1.
    assert (q ∉ marked) as Hout.
    { intros Hin. unfold is_free in Hfree1.
      by rewrite get_address_0_l, (Hone q Hin) in Hfree1. }
    apply Hblank; [lia| |by intros Hpt ->].
    apply Hfree_blank. unfold is_free in *. rewrite get_address_0_l in *.
    by rewrite <- Hmap by (done || lia).
Qed.

Lemma only_created_new_process m proc_num page_count m1 out :
  only_created m → 0 ≤ proc_num → PTP_OFFSET + proc_num < PAGE_SIZE →
  new_process m proc_num page_count = Some (m1, out) → only_created m1.
Proof.
  intros Hinv Hproc Hdir Hnew. pose proof Hinv as (Hlen & Hzero & Hpages).
  pose proof (new_process_length _ _ _ _ _ Hlen Hnew) as Hlen1.
  pose proof (new_process_page_zero_used _ _ _ _ _ Hlen Hproc Hzero Hnew)
    as Hzero1.
  pose proof Hnew as Hfit.
  destruct (decide (0 ≤ page_count ≤ STACK_INTS)) as [[Hpos Hfits]|Hneg].
  2:{ rewrite new_process_no_array in Hfit by done.
      destruct (free_pages m); [|done]. by injection Hfit as <- _. }
  rewrite new_process_first_fit in Hfit by done.
  destruct (free_pages m) as [|pt_page ps] eqn:Hfree.
  { by injection Hfit as <- _. }
  destruct (free_pages_cons_facts m pt_page ps Hzero Hfree)
    as (Hnodup & Hps_len & Hfacts).
  cbv zeta in Hfit.
  destruct (decide (Z.to_nat page_count ≤ length ps)%nat) as [Hle|Hgt].
  - apply commit_prints_nothing in Hfit as ->.
    destruct (new_process_layout m proc_num page_count m1)
      as (pt_page' & ps' & Hfree' & _ & _ & _ & Hget); [done..|].
    rewrite Hfree in Hfree'. injection Hfree' as <- <-.
    set (data := take (Z.to_nat page_count) ps) in *.
    assert (∀ q, q ∈ data → q ∈ ps) as Hdata_in.
    { intros q (k & Hk & _)%elem_of_take. by eapply list_elem_of_lookup_2. }
    assert (∀ q, q ∈ pt_page :: data → q ∈ pt_page :: ps) as Hsub.
    { intros q [->|Hq]%elem_of_cons; [left|right; by apply Hdata_in]. }
    destruct (Hfacts pt_page) as [Hpt _]; [left|].
    pose proof (get_address_page_start pt_page) as Hstart.
    apply (only_created_marks m m1 (pt_page :: data) data pt_page);
      [done..| | | | |].
    + intros e He. by apply Hfacts, Hsub.
    + intros e He. destruct (Hfacts e (Hsub e He)) as [He_range _].
      rewrite Hget.
      rewrite decide_False by (unfold PAGE_COUNT, PAGE_SIZE in *; lia).
      rewrite decide_False by (unfold PAGE_COUNT, PTP_OFFSET in *; lia).
      by rewrite decide_True.
    + intros a Ha Hout. rewrite Hget.
      rewrite decide_False by (unfold PAGE_COUNT, PAGE_SIZE in *; lia).
      rewrite decide_False by (unfold PAGE_COUNT, PTP_OFFSET in *; lia).
      by rewrite decide_False.
    + intros e He. split; [by right|]. intros ->.
      by apply NoDup_cons_1_1 in Hnodup; apply Hnodup, Hdata_in.
    + intros a Ha. rewrite Hget.
      destruct (decide (_ ≤ a < _)) as [Hin|Hout].
      * right.
        destruct (lookup_lt_is_Some_2 data (Z.to_nat (a - get_address pt_page 0)))
          as [e He].
        { unfold data. rewrite length_take_le by done. lia. }
        exists (a - get_address pt_page 0), e.
        split; [unfold PAGE_SIZE; lia|]. split.
        { rewrite get_address_offset by (unfold PAGE_SIZE; lia). lia. }
        split; [left|]. split; [done|]. by eapply list_elem_of_lookup_2.
      * left. rewrite decide_False by lia.
        rewrite decide_False; [done|].
        intros Hin. destruct (Hfacts a (Hsub a Hin)).
        unfold PAGE_COUNT, PAGE_SIZE in *. lia.
  - injection Hfit as <- _.
    assert (∀ a, mem_get (mark_all m (pt_page :: ps)) a
                 = if decide (a ∈ pt_page :: ps) then Some 1 else mem_get m a)
      as Hget.
    { intros a. apply mark_all_free_pages_get; [done|].
      intros q Hq. destruct (Hfacts q Hq). lia. }
    apply (only_created_marks m _ (pt_page :: ps) [] 0); [done..| | | | |].
    + done.
    + intros e He. by rewrite Hget, decide_True.
    + intros a Ha Hout. by rewrite Hget, decide_False.
    + by intros e He%elem_of_nil.
    + intros a Ha. left. rewrite Hget, decide_False; [done|].
      intros Hin. destruct (Hfacts a Hin).
      unfold PAGE_COUNT, PAGE_SIZE in *. lia.
Qed.

Lemma only_created_exec m c m1 out :
  only_created m → creating_command c → exec m c = Some (m1, out) →
  only_created m1.
Proof.
  intros Hinv Hc Hexec. destruct c as [|p|p n|p|p v x|p v];
    simpl in Hc, Hexec; [| | |done..].
  - destruct (print_page_free_map m); [|done]. by injection Hexec as <- _.
  - destruct (print_page_table m p); [|done]. by injection Hexec as <- _.
  - destruct Hc. by eapply only_created_new_process.
Qed.

Lemma only_created_initialize_mem : only_created initialize_mem.
Proof.
  assert (∀ a, 0 < a < MEM_SIZE → mem_get initialize_mem a = Some 0) as Hcell.
  { intros a Ha. unfold initialize_mem. cbv zeta. rewrite get_address_0_l.
    rewrite mem_get_insert_ne by lia. rewrite mem_get_lookup by lia.
    apply lookup_replicate_2. lia. }
  assert (∀ p, 0 < p < PAGE_COUNT → blank initialize_mem p) as Hblank.
  { intros p Hp i Hi. apply Hcell. rewrite get_address_offset by done.
    unfold PAGE_COUNT, PAGE_SIZE, MEM_SIZE in *. lia. }
  split; [done|]. split.
  { exists 1. split; [by vm_compute|done]. }
  intros p Hp. split; [|by intros _; apply Hblank].
  intros i e Hi He Hnz. rewrite Hblank in He by done. congruence.
Qed.

(** A memory of that shape has consistent page tables. *)
Lemma only_created_consistent m : only_created m → tables_consistent m.
Proof.
  intros (Hlen & Hzero & Hpages) proc_num pt_page vp phys Hproc Hdir Hpt Hvp
    Hentry Hphys.
  pose proof (mem_get_Some_range _ _ _ Hentry) as Hin.
  rewrite get_address_offset in Hin by (unfold PAGE_COUNT, PAGE_SIZE in *; lia).
  assert (0 < pt_page < PAGE_COUNT) as Hpt_range
    by (unfold PAGE_COUNT, PAGE_SIZE, MEM_SIZE in *; lia).
  destruct (Hpages pt_page Hpt_range) as [Hnames _].
  destruct (Hnames vp phys) as (Hphys_range & Hused & _);
    [unfold PAGE_COUNT, PAGE_SIZE in *; lia|done..|].
  unfold is_free in Hused.
  destruct (mem_get_is_Some m (get_address 0 phys)) as [b Hb]; [done| |].
  { rewrite get_address_0_l. unfold PAGE_COUNT, MEM_SIZE in *. lia. }
  exists b. split; [done|]. intros ->. by destruct Hused.
Qed.

Lemma only_created_exec_all cs m m1 out :
  only_created m → Forall creating_command cs →
  exec_all m cs = Some (m1, out) → only_created m1.
Proof.
  revert m m1 out. induction cs as [|c cs IH]; intros m m' out Hinv Hcs Hrun.
  { simpl in Hrun. by injection Hrun as <- _. }
  apply Forall_cons in Hcs as [Hc Hcs]. simpl in Hrun.
  destruct (exec m c) as [[m1 out1]|] eqn:Hexec; [|done].
  cbn [mbind option_bind] in Hrun.
  destruct (exec_all m1 cs) as [[m2 out2]|] eqn:Hall; [|done].
  injection Hrun as <- _.
  apply (IH m1 m2 out2); [by eapply only_created_exec|done..].
Qed.
End Creating.

(** X21. Without [kp] and [sb] the page tables stay consistent.  After
    every run of [pfm], [ppt] and [np] commands (directory bytes in page
    0), page 0 is marked used and every nonzero entry in the page table
    of every process names a page marked used.  The stale entries and the
    freed page 0 need a [kp]. *)
Theorem creating_runs_consistent cs m out :
  Forall creating_command cs → main cs = Some (m, out) →
  page_zero_used m ∧ tables_consistent m.
Proof.
  intros Hcs Hrun.
  assert (only_created m) as Hinv.
  { eapply only_created_exec_all; [apply only_created_initialize_mem|done..]. }
  split; [by destruct Hinv as (_ & ? & _)|by apply only_created_consistent].
Qed.

Lemma creating_runs_consistent_witness :
  Forall creating_command [Np 1 2; Pfm; Np 2 70; Np 3 1; Ppt 1] ∧
  page_zero_used (mem_after [Np 1 2; Pfm; Np 2 70; Np 3 1; Ppt 1]) ∧
  tables_consistent (mem_after [Np 1 2; Pfm; Np 2 70; Np 3 1; Ppt 1]).
Proof.
  assert (Forall creating_command [Np 1 2; Pfm; Np 2 70; Np 3 1; Ppt 1])
    as Hcs.
  { repeat constructor; unfold PTP_OFFSET, PAGE_SIZE; lia. }
  split; [done|].
  destruct (main [Np 1 2; Pfm; Np 2 70; Np 3 1; Ppt 1]) as [[m out]|] eqn:Hrun;
    [|by vm_compute in Hrun].
  unfold mem_after. rewrite Hrun.
  by apply (creating_runs_consistent _ m out Hcs).
Defined.

Section PtsimLoop.
Variable atoi : string → Z.
Implicit Types (m : list Z) (args : list string).

Lemma and_then_Some r (k : list Z → option (list Z * list event)) m' out :
  and_then r k = Some (m', out) →
  ∃ m1 out1 out2, r = Some (m1, out1) ∧ k m1 = Some (m', out2) ∧
                  out = out1 ++ out2.
Proof.
  unfold and_then. intros Hrun.
  destruct r as [[m1 out1]|]; [|done]. cbn [mbind option_bind] in Hrun.
  destruct (k m1) as [[m2 out2]|] eqn:Hk; [|done].
  injection Hrun as <- <-. by exists m1, out1, out2.
Qed.

Lemma prints_Some m r m1 out1 : prints m r = Some (m1, out1) → m1 = m.
Proof.
  unfold prints. destruct r; [|done]. by intros [= <- _].
Qed.

Lemma main_loop_ptsim_only_created (n : nat) args m m' out :
  (length args ≤ n)%nat →
  Forall (λ t, 0 ≤ atoi t ∧ PTP_OFFSET + atoi t < PAGE_SIZE) args →
  only_created m → main_loop_ptsim atoi args m = Some (m', out) →
  only_created m'.
Proof.
  revert args m out. induction n as [|n IH]; intros args m out Hn Hargs Hinv Hrun.
  { destruct args; [|simpl in Hn; lia]. by injection Hrun as <- _. }
  destruct args as [|t rest]; [by injection Hrun as <- _|]. simpl in Hn.
  apply Forall_cons in Hargs as [_ Hrest].
  cbn [main_loop_ptsim] in Hrun.
  destruct (String.eqb t "pfm").
  { apply and_then_Some in Hrun as (m1 & out1 & out2 & Hprint & Hloop & _).
    apply prints_Some in Hprint as ->. apply (IH rest m out2); (done || lia). }
  destruct (String.eqb t "ppt").
  { destruct rest as [|a rest]; [done|]. simpl in Hn.
    apply Forall_cons in Hrest as [_ Hrest].
    apply and_then_Some in Hrun as (m1 & out1 & out2 & Hprint & Hloop & _).
    apply prints_Some in Hprint as ->. apply (IH rest m out2); (done || lia). }
  destruct (String.eqb t "np").
  { destruct rest as [|a [|b rest]]; [done..|]. simpl in Hn.
    apply Forall_cons in Hrest as [[Ha Ha'] [_ Hrest]%Forall_cons].
    apply and_then_Some in Hrun as (m1 & out1 & out2 & Hnew & Hloop & _).
    apply (IH rest m1 out2); [lia|done| |done].
    by eapply only_created_new_process. }
  apply (IH rest m out); (done || lia).
Qed.
End PtsimLoop.

(** X22. [ptsim.c] keeps its page tables consistent.  Whatever the command
    line, if [main] of [ptsim.c] runs to its end and every number on the
    line is a process number with its directory byte in page 0, then in
    the final memory page 0 is marked used and every nonzero entry in the
    page table of every process names a page marked used. *)
Theorem ptsim_runs_consistent (atoi : string → Z) args m out :
  Forall (λ t, 0 ≤ atoi t ∧ PTP_OFFSET + atoi t < PAGE_SIZE) args →
  main_argv_ptsim atoi args = Some (Ran m out) →
  page_zero_used m ∧ tables_consistent m.
Proof.
  intros Hargs Hrun. unfold main_argv_ptsim in Hrun.
  destruct args as [|t rest]; [done|].
  destruct (main_loop_ptsim atoi (t :: rest) initialize_mem)
    as [[m' out']|] eqn:Hloop; [|done].
  injection Hrun as -> ->.
  assert (only_created m) as Hinv.
  { eapply (main_loop_ptsim_only_created atoi (length (t :: rest)));
      [done|done|apply only_created_initialize_mem|done]. }
  split; [by destruct Hinv as (_ & ? & _)|by apply only_created_consistent].
Qed.

Lemma ptsim_runs_consistent_witness :
  ∃ m out,
    main_argv_ptsim (digits_value 0) ["np"; "1"; "2"; "kp"; "1"; "np"; "2"; "1"]
      = Some (Ran m out) ∧
    page_zero_used m ∧ tables_consistent m.
Proof.
  destruct (main_argv_ptsim (digits_value 0)
              ["np"; "1"; "2"; "kp"; "1"; "np"; "2"; "1"])
    as [[|m out]|] eqn:Hrun; [by vm_compute in Hrun| |by vm_compute in Hrun].
  exists m, out. split; [done|].
  apply (ptsim_runs_consistent (digits_value 0)
           ["np"; "1"; "2"; "kp"; "1"; "np"; "2"; "1"] m out); [|done].
  repeat constructor; by vm_compute.
Defined.

(** ** Runs without [kp] *)

Section Separated.
Implicit Types (m : list Z) (a e : Z).

(** A step that marks free pages, may hand one of them to a process as its
    page table, and fills cells of that page with indices of others. *)
Lemma separated_marks m m1 (marked data : list Z) pt_page :
  separated m → length m1 = length m → page_zero_used m1 →
  (∀ e, e ∈ marked → 0 < e < PAGE_COUNT ∧ is_free m e) →
  (∀ e, e ∈ marked → mem_get m1 e = Some 1) →
  (∀ a, 0 ≤ a < PAGE_COUNT → a ∉ marked → mem_get m1 a = mem_get m a) →
  (∀ e, e ∈ data → e ∈ marked ∧ e ≠ pt_page) →
  (∀ q, 0 ≤ q → PTP_OFFSET + q < PAGE_SIZE →
     get_page_table m1 q = get_page_table m q ∨
     (get_page_table m1 q = Some pt_page ∧ pt_page ∈ marked)) →
  (∀ a, PAGE_SIZE ≤ a →
     mem_get m1 a = mem_get m a ∨
     ∃ i e, 0 ≤ i < PAGE_SIZE ∧ a = get_address pt_page i ∧
            pt_page ∈ marked ∧ mem_get m1 a = Some e ∧ e ∈ data) →
  separated m1.
Proof.
  intros (Hlen & Hzero & Htables & Hfree_blank) Hlen1 Hzero1 Hmarked Hone
    Hmap Hdata Hdir Hcells.
  assert (∀ e, 0 < e < PAGE_COUNT → ¬ is_free m e → ¬ is_free m1 e) as Hused.
  { intros e He Hnot. unfold is_free in *. rewrite get_address_0_l in *.
    destruct (decide (e ∈ marked)) as [Hin|Hout].
    - by rewrite (Hone e Hin).
    - by rewrite Hmap by (done || lia). }
  assert (∀ e, e ∈ marked → ¬ is_free m1 e) as Hmarked_used.
  { intros e He. unfold is_free. by rewrite get_address_0_l, (Hone e He). }
  assert (∀ e, e ≠ 0 → ¬ is_free m e → ¬ is_page_table m e →
            ¬ is_page_table m1 e) as Hnot_table.
  { intros e Hnz He_used He_data (q & Hq & Hq' & Hpt).
    destruct (Hdir q Hq Hq') as [Hsame|[Hnew Hin]].
    - destruct He_data. exists q. by rewrite <- Hsame.
    - assert (e = pt_page) as -> by congruence.
      by destruct (Hmarked pt_page Hin). }
  assert (∀ p i, 0 < p → 0 ≤ i < PAGE_SIZE → (pt_page ∈ marked → p ≠ pt_page) →
            mem_get m1 (get_address p i) = mem_get m (get_address p i))
    as Hpage.
  { intros p i Hp Hi Hne.
    destruct (Hcells (get_address p i))
      as [Hsame|(i' & e' & Hi' & Heq & Hin & _)]; [|done|].
    - rewrite get_address_offset by done. unfold PAGE_SIZE in *. lia.
    - destruct (Hne Hin). rewrite !get_address_offset in Heq by done.
      unfold PAGE_SIZE in *. lia. }
  split; [by rewrite Hlen1|]. split; [done|]. split.
  - intros pt (q & Hq & Hq' & Hpt) Hnz.
    destruct (Hdir q Hq Hq') as [Hsame|[Hnew Hin]].
    + destruct (Htables pt) as (Hpt_range & Hpt_used & Hmaps);
        [exists q; by rewrite <- Hsame|done|].
      split; [done|]. split; [by apply Hused|].
      intros i e Hi He He_nz.
      rewrite Hpage in He; [|lia|unfold PAGE_COUNT, PAGE_SIZE in *; lia|].
      2:{ intros Hin ->. by destruct (Hmarked pt_page Hin). }
      destruct (Hmaps i e Hi He He_nz) as (He_range & He_used & He_data).
      split; [done|]. split; [by apply Hused|]. apply Hnot_table; (done || lia).
    + assert (pt = pt_page) as -> by congruence.
      destruct (Hmarked pt_page Hin) as [Hpt_range Hpt_free].
      split; [done|]. split; [by apply Hmarked_used|].
      intros i e Hi He He_nz.
      destruct (Hcells (get_address pt_page i))
        as [Hsame|(i' & e' & Hi' & Heq & _ & He' & Hin_data)].
      * rewrite get_address_offset by (unfold PAGE_COUNT, PAGE_SIZE in *; lia).
        unfold PAGE_COUNT, PAGE_SIZE in *. lia.
      * rewrite Hsame in He.
        rewrite (Hfree_blank pt_page Hpt_range Hpt_free) in He
          by (unfold PAGE_COUNT, PAGE_SIZE in *; lia).
        congruence.
      * assert (e = e') as <- by congruence.
        destruct (Hdata e Hin_data) as [He_marked He_ne].
        destruct (Hmarked e He_marked) as [He_range He_free].
        split; [done|]. split; [by apply Hmarked_used|].
        intros (q' & Hq1 & Hq2 & Hpt').
        destruct (Hdir q' Hq1 Hq2) as [Hsame|[Hnew' _]]; [|congruence].
        destruct (Htables e) as (_ & He_used & _);
          [exists q'; by rewrite <- Hsame|lia|done].
  - intros p Hp Hfree1.
    assert (p ∉ marked) as Hout by (intros Hin; by apply (Hmarked_used p)).
    assert (is_free m p) as Hfree.
    { unfold is_free in *. rewrite get_address_0_l in *.
      by rewrite <- Hmap by (done || lia). }
    intros i Hi. rewrite Hpage; [by apply Hfree_blank|lia|done|].
    by intros Hin ->.
Qed.

Lemma separated_new_process m proc_num page_count m1 out :
  separated m → 0 ≤ proc_num → PTP_OFFSET + proc_num < PAGE_SIZE →
  new_process m proc_num page_count = Some (m1, out) → separated m1.
Proof.
  intros Hinv Hproc Hdir Hnew. pose proof Hinv as (Hlen & Hzero & _).
  pose proof (new_process_length _ _ _ _ _ Hlen Hnew) as Hlen1.
  pose proof (new_process_page_zero_used _ _ _ _ _ Hlen Hproc Hzero Hnew)
    as Hzero1.
  pose proof Hnew as Hfit.
  destruct (decide (0 ≤ page_count ≤ STACK_INTS)) as [[Hpos Hfits]|Hneg].
  2:{ rewrite new_process_no_array in Hfit by done.
      destruct (free_pages m); [|done]. by injection Hfit as <- _. }
  rewrite new_process_first_fit in Hfit by done.
  destruct (free_pages m) as [|pt_page ps] eqn:Hfree.
  { by injection Hfit as <- _. }
  destruct (free_pages_cons_facts m pt_page ps Hzero Hfree)
    as (Hnodup & Hps_len & Hfacts).
  cbv zeta in Hfit.
  destruct (decide (Z.to_nat page_count ≤ length ps)%nat) as [Hle|Hgt].
  - apply commit_prints_nothing in Hfit as ->.
    destruct (new_process_layout m proc_num page_count m1)
      as (pt_page' & ps' & Hfree' & _ & _ & _ & Hget); [done..|].
    rewrite Hfree in Hfree'. injection Hfree' as <- <-.
    set (data := take (Z.to_nat page_count) ps) in *.
    assert (∀ q, q ∈ data → q ∈ ps) as Hdata_in.
    { intros q (k & Hk & _)%elem_of_take. by eapply list_elem_of_lookup_2. }
    assert (∀ q, q ∈ pt_page :: data → q ∈ pt_page :: ps) as Hsub.
    { intros q [->|Hq]%elem_of_cons; [left|right; by apply Hdata_in]. }
    destruct (Hfacts pt_page) as [Hpt _]; [left|].
    pose proof (get_address_page_start pt_page) as Hstart.
    apply (separated_marks m m1 (pt_page :: data) data pt_page);
      [done..| | | | | |].
    + intros e He. by apply Hfacts, Hsub.
    + intros e He. destruct (Hfacts e (Hsub e He)) as [He_range _].
      rewrite Hget.
      rewrite decide_False by (unfold PAGE_COUNT, PAGE_SIZE in *; lia).
      rewrite decide_False by (unfold PAGE_COUNT, PTP_OFFSET in *; lia).
      by rewrite decide_True.
    + intros a Ha Hout. rewrite Hget.
      rewrite decide_False by (unfold PAGE_COUNT, PAGE_SIZE in *; lia).
      rewrite decide_False by (unfold PAGE_COUNT, PTP_OFFSET in *; lia).
      by rewrite decide_False.
    + intros e He. split; [by right|]. intros ->.
      by apply NoDup_cons_1_1 in Hnodup; apply Hnodup, Hdata_in.
    + intros q Hq Hq'. unfold get_page_table. rewrite !get_address_0_l, Hget.
      rewrite decide_False by (unfold PAGE_SIZE in *; lia).
      destruct (decide (PTP_OFFSET + q = PTP_OFFSET + proc_num));
        [right; split; [done|left]|left].
      rewrite decide_False; [done|].
      intros Hin. destruct (Hfacts _ (Hsub _ Hin)).
      unfold PAGE_COUNT, PTP_OFFSET in *. lia.
    + intros a Ha. rewrite Hget.
      destruct (decide (_ ≤ a < _)) as [Hin|Hout].
      * right.
        destruct (lookup_lt_is_Some_2 data (Z.to_nat (a - get_address pt_page 0)))
          as [e He].
        { unfold data. rewrite length_take_le by done. lia. }
        exists (a - get_address pt_page 0), e.
        split; [unfold PAGE_SIZE; lia|]. split.
        { rewrite get_address_offset by (unfold PAGE_SIZE; lia). lia. }
        split; [left|]. split; [done|]. by eapply list_elem_of_lookup_2.
      * left. rewrite decide_False by lia.
        rewrite decide_False; [done|].
        intros Hin. destruct (Hfacts a (Hsub a Hin)).
        unfold PAGE_COUNT, PAGE_SIZE in *. lia.
  - injection Hfit as <- _.
    assert (∀ a, mem_get (mark_all m (pt_page :: ps)) a
                 = if decide (a ∈ pt_page :: ps) then Some 1 else mem_get m a)
      as Hget.
    { intros a. apply mark_all_free_pages_get; [done|].
      intros q Hq. destruct (Hfacts q Hq). lia. }
    apply (separated_marks m _ (pt_page :: ps) [] 0); [done..| | | | | |].
    + done.
    + intros e He. by rewrite Hget, decide_True.
    + intros a Ha Hout. by rewrite Hget, decide_False.
    + by intros e He%elem_of_nil.
    + intros q Hq Hq'. left. unfold get_page_table.
      rewrite !get_address_0_l, Hget, decide_False; [done|].
      intros Hin. destruct (Hfacts _ Hin).
      unfold PAGE_COUNT, PTP_OFFSET in *. lia.
    + intros a Ha. left. rewrite Hget, decide_False; [done|].
      intros Hin. destruct (Hfacts a Hin).
      unfold PAGE_COUNT, PAGE_SIZE in *. lia.
Qed.

(** In a separated memory, the translation of an address of a process
    that has a page table ends in a data page or in the fault. *)
Lemma separated_translate m proc_num vaddr :
  separated m → 0 ≤ proc_num → PTP_OFFSET + proc_num < PAGE_SIZE →
  0 ≤ vaddr < PAGE_COUNT * PAGE_SIZE → get_page_table m proc_num ≠ Some 0 →
  ∃ pt_page e,
    get_page_table m proc_num = Some pt_page ∧ 0 < pt_page < PAGE_COUNT ∧
    mem_get m (get_address pt_page (vaddr ≫ PAGE_SHIFT)) = Some e ∧
    (e ≠ 0 → 0 < e < PAGE_COUNT ∧ ¬ is_free m e ∧ ¬ is_page_table m e).
Proof.
  intros (Hlen & Hzero & Htables & _) Hproc Hdir Hvaddr Hlive.
  destruct (mem_get_is_Some m (get_address 0 (PTP_OFFSET + proc_num)))
    as [pt_page Hpt]; [done| |].
  { rewrite get_address_0_l. unfold PTP_OFFSET, PAGE_SIZE, MEM_SIZE in *. lia. }
  fold (get_page_table m proc_num) in Hpt.
  assert (pt_page ≠ 0) as Hnz by congruence.
  destruct (Htables pt_page) as (Hpt_range & _ & Hmaps);
    [by exists proc_num|done|].
  assert (0 ≤ vaddr ≫ PAGE_SHIFT < PAGE_COUNT) as Hvp
    by (apply shiftr_page_range; [by unfold PAGE_COUNT|done]).
  destruct (mem_get_is_Some m (get_address pt_page (vaddr ≫ PAGE_SHIFT)))
    as [e He]; [done| |].
  { rewrite get_address_offset by (unfold PAGE_COUNT, PAGE_SIZE in *; lia).
    unfold PAGE_COUNT, PAGE_SIZE, MEM_SIZE in *. lia. }
  exists pt_page, e. do 3 (split; [done|]). intros He_nz. by eapply Hmaps.
Qed.

(** A store into a data page keeps page tables and data pages apart. *)
Lemma separated_store m e offset v :
  separated m → 0 < e < PAGE_COUNT → ¬ is_free m e → ¬ is_page_table m e →
  0 ≤ offset < PAGE_SIZE →
  separated (<[Z.to_nat (get_address e offset) := v]> m).
Proof.
  intros (Hlen & Hzero & Htables & Hfree_blank) He He_used He_data Hoff.
  rewrite get_address_offset by done.
  set (x := e * PAGE_SIZE + offset).
  assert (PAGE_SIZE ≤ x) as Hx by (unfold x, PAGE_SIZE in *; lia).
  assert (∀ a, a ≠ x → mem_get (<[Z.to_nat x := v]> m) a = mem_get m a)
    as Hother.
  { intros a Ha. apply mem_get_insert_ne; [unfold PAGE_SIZE in *; lia|done]. }
  assert (∀ p i, p ≠ e → 0 ≤ i < PAGE_SIZE →
            mem_get (<[Z.to_nat x := v]> m) (get_address p i)
              = mem_get m (get_address p i)) as Hpage.
  { intros p i Hne Hi. apply Hother. rewrite get_address_offset by done.
    unfold x, PAGE_SIZE in *. lia. }
  assert (∀ p, p < PAGE_SIZE →
            is_free (<[Z.to_nat x := v]> m) p ↔ is_free m p) as Hfree.
  { intros p Hp. unfold is_free. rewrite get_address_0_l.
    by rewrite Hother by lia. }
  assert (∀ pt, is_page_table (<[Z.to_nat x := v]> m) pt ↔ is_page_table m pt)
    as Htable.
  { intros pt. unfold is_page_table, get_page_table.
    split; intros (q & Hq & Hq' & Hpt); exists q; (split; [done|]);
      (split; [done|]); rewrite get_address_0_l in *;
      [rewrite Hother in Hpt|rewrite Hother]; (done || lia). }
  split; [by rewrite length_insert|]. split.
  { destruct Hzero as (b & Hb & Hnz). exists b. split; [|done].
    rewrite get_address_0_l in *. rewrite Hother; [done|lia]. }
  split.
  - intros pt Hpt%Htable Hnz.
    destruct (Htables pt Hpt Hnz) as (Hpt_range & Hpt_used & Hmaps).
    split; [done|].
    split; [by rewrite Hfree by (unfold PAGE_COUNT, PAGE_SIZE in *; lia)|].
    intros i e' Hi He' He'_nz.
    rewrite Hpage in He';
      [|by intros ->|unfold PAGE_COUNT, PAGE_SIZE in *; lia].
    destruct (Hmaps i e' Hi He' He'_nz) as (? & ? & ?).
    split; [done|]. split; [|by rewrite Htable].
    by rewrite Hfree by (unfold PAGE_COUNT, PAGE_SIZE in *; lia).
  - intros p Hp Hp_free i Hi.
    apply Hfree in Hp_free; [|unfold PAGE_COUNT, PAGE_SIZE in *; lia].
    rewrite Hpage; [by apply Hfree_blank|by intros ->|done].
Qed.
End Separated.

Section IntendedRuns.
Implicit Types (m : list Z) (cs : list command).

Lemma separated_initialize_mem : separated initialize_mem.
Proof.
  destruct only_created_initialize_mem as (Hlen & Hzero & Hpages).
  split; [done|]. split; [done|]. split; [|by intros p Hp; apply Hpages].
  intros pt (q & Hq & Hq' & Hpt) Hnz. destruct Hnz.
  unfold get_page_table, initialize_mem in Hpt. cbv zeta in Hpt.
  rewrite !get_address_0_l in Hpt.
  rewrite mem_get_insert_ne in Hpt by (unfold PTP_OFFSET in *; lia).
  rewrite mem_get_lookup in Hpt
    by (unfold PTP_OFFSET, PAGE_SIZE, MEM_SIZE in *; lia).
  by apply lookup_replicate_1 in Hpt as [-> _].
Qed.

(** An intended command whose array fits the stack runs to its end and
    keeps page tables and data pages apart. *)
Lemma separated_exec m c :
  separated m → intended m c → fits_stack c →
  ∃ m1 out, exec m c = Some (m1, out) ∧ separated m1.
Proof.
  intros Hinv Hc Hfits. pose proof Hinv as (Hlen & Hzero & Htables & _).
  destruct c as [|p|p n|p|p a v|p a]; simpl in Hc, Hfits |- *.
  - unfold print_page_free_map. rewrite free_map_snapshot_marks by done.
    by eexists _, _.
  - destruct Hc as [Hp Hp'].
    destruct (mem_get_is_Some m (get_address 0 (PTP_OFFSET + p)))
      as [pt_page Hpt]; [done| |].
    { rewrite get_address_0_l.
      unfold PTP_OFFSET, PAGE_SIZE, MEM_SIZE in *. lia. }
    fold (get_page_table m p) in Hpt.
    assert (is_page_index pt_page) as Hidx.
    { destruct (decide (pt_page = 0)) as [->|Hnz]; [done|].
      destruct (Htables pt_page) as (? & _); [by exists p|done|].
      unfold is_page_index. lia. }
    unfold print_page_table.
    rewrite (page_table_snapshot_filter m p pt_page) by done.
    by eexists _, _.
  - destruct Hc as (Hp & Hp' & Hn).
    destruct (new_process_defined m p n) as [[m1 out] Hnew];
      [done..|unfold PTP_OFFSET, PAGE_SIZE, MEM_SIZE in *; lia|].
    exists m1, out. split; [done|].
    by apply (separated_new_process m p n m1 out).
  - done.
  - destruct Hc as (Hp & Hp' & Ha & Hlive).
    destruct (separated_translate m p a) as (pt_page & e & Hpt & _ & He & Hdata);
      [done..|].
    unfold store_byte. rewrite Hpt. cbn [mbind option_bind].
    rewrite He. cbn [mbind option_bind].
    destruct (Z.eqb_spec e 0) as [_|Hnz]; [by eexists _, _|].
    destruct (Hdata Hnz) as (He_range & He_used & He_data).
    pose proof (land_255_range a) as Hoff.
    rewrite mem_set_Some.
    2:{ rewrite get_address_offset by done.
        unfold PAGE_COUNT, PAGE_SIZE, MEM_SIZE in *. lia. }
    eexists _, _. split; [done|]. by apply separated_store.
  - destruct Hc as (Hp & Hp' & Ha & Hlive).
    destruct (separated_translate m p a) as (pt_page & e & Hpt & _ & He & Hdata);
      [done..|].
    unfold load_byte. rewrite Hpt. cbn [mbind option_bind].
    rewrite He. cbn [mbind option_bind].
    destruct (Z.eqb_spec e 0) as [_|Hnz]; [by eexists _, _|].
    destruct (Hdata Hnz) as (He_range & _).
    pose proof (land_255_range a) as Hoff.
    destruct (mem_get_is_Some m (get_address e (Z.land a 255))) as [b ->];
      [done| |by eexists _, _].
    rewrite get_address_offset by done.
    unfold PAGE_COUNT, PAGE_SIZE, MEM_SIZE in *. lia.
Qed.

(** An intended command that runs to its end keeps them apart, whatever
    its page count. *)
Lemma separated_exec_keeps m c m1 out :
  separated m → intended m c → exec m c = Some (m1, out) → separated m1.
Proof.
  intros Hinv Hc Hexec.
  assert (fits_stack c → separated m1) as Hother.
  { intros Hfits.
    destruct (separated_exec m c Hinv Hc Hfits) as (m1' & out' & Hexec' & Hinv').
    rewrite Hexec in Hexec'. by injection Hexec' as -> _. }
  destruct c as [|p|p n|p|p a v|p a]; try by apply Hother.
  destruct Hc as (Hp & Hp' & _). simpl in Hexec.
  by apply (separated_new_process m p n m1 out).
Qed.

Lemma separated_exec_all cs m :
  separated m → intended_run m cs → Forall fits_stack cs →
  ∃ m1 out, exec_all m cs = Some (m1, out) ∧ separated m1.
Proof.
  revert m. induction cs as [|c cs IH]; intros m Hinv Hrun Hfit.
  { by exists m, []. }
  destruct Hrun as [Hc Hrest]. apply Forall_cons in Hfit as [Hc_fits Hfit].
  destruct (separated_exec m c Hinv Hc Hc_fits) as (m1 & out1 & Hexec & Hinv1).
  rewrite Hexec in Hrest.
  destruct (IH m1 Hinv1 Hrest Hfit) as (m2 & out2 & Hall & Hinv2).
  exists m2, (out1 ++ out2). split; [|done].
  cbn [exec_all]. rewrite Hexec. cbn [mbind option_bind]. by rewrite Hall.
Qed.

Lemma separated_exec_all_keeps cs m m1 out :
  separated m → intended_run m cs → exec_all m cs = Some (m1, out) →
  separated m1.
Proof.
  revert m m1 out. induction cs as [|c cs IH]; intros m m' out Hinv Hrun Hall.
  { simpl in Hall. by injection Hall as <- _. }
  destruct Hrun as [Hc Hrest]. simpl in Hall.
  destruct (exec m c) as [[m1 out1]|] eqn:Hexec; [|done].
  cbn [mbind option_bind] in Hall.
  destruct (exec_all m1 cs) as [[m2 out2]|] eqn:Hall'; [|done].
  injection Hall as <- _.
  apply (IH m1 m2 out2); [by eapply separated_exec_keeps|done..].
Qed.

(** Store then load in a separated memory. *)
Lemma separated_round_trip m proc_num vaddr val :
  separated m → intended m (Sb proc_num vaddr val) → 0 ≤ val < 256 →
  (store_byte m proc_num vaddr val = Some (m, [Invalid_virtual_address]) ∧
   load_byte m proc_num vaddr = Some [Invalid_virtual_address]) ∨
  ∃ phys_addr m1,
    store_byte m proc_num vaddr val
      = Some (m1, [Store_line proc_num vaddr phys_addr val]) ∧
    load_byte m1 proc_num vaddr
      = Some [Load_line proc_num vaddr phys_addr val].
Proof.
  intros Hinv (Hp & Hp' & Ha & Hlive) Hval.
  pose proof Hinv as (Hlen & _).
  destruct (separated_translate m proc_num vaddr)
    as (pt_page & e & Hpt & Hpt_range & He & Hdata); [done..|].
  destruct (decide (e = 0)) as [->|Hnz].
  { left. by apply (fault_on_zero_entry m proc_num vaddr val pt_page). }
  right. destruct (Hdata Hnz) as (He_range & _ & He_data).
  assert (e ≠ pt_page) as Hne.
  { intros ->. destruct He_data. by exists proc_num. }
  pose proof (land_255_range vaddr) as Hoff.
  assert (0 ≤ vaddr ≫ PAGE_SHIFT < PAGE_COUNT) as Hvp
    by (apply shiftr_page_range; [by unfold PAGE_COUNT|done]).
  set (phys_addr := get_address e (Z.land vaddr 255)).
  assert (phys_addr = e * PAGE_SIZE + Z.land vaddr 255) as Hphys
    by (by apply get_address_offset).
  assert (get_address pt_page (vaddr ≫ PAGE_SHIFT)
            = pt_page * PAGE_SIZE + vaddr ≫ PAGE_SHIFT) as Hcell
    by (apply get_address_offset; unfold PAGE_COUNT, PAGE_SIZE in *; lia).
  exists phys_addr, (<[Z.to_nat phys_addr := val `mod` 256]> m). split.
  - unfold store_byte. rewrite Hpt. cbn [mbind option_bind].
    rewrite He. cbn [mbind option_bind].
    destruct (Z.eqb_spec e 0) as [?|_]; [lia|]. fold phys_addr.
    by rewrite mem_set_Some
      by (unfold PAGE_COUNT, PAGE_SIZE, MEM_SIZE in *; lia).
  - unfold load_byte, get_page_table. rewrite get_address_0_l.
    rewrite mem_get_insert_ne
      by (unfold PTP_OFFSET, PAGE_COUNT, PAGE_SIZE in *; lia).
    unfold get_page_table in Hpt. rewrite get_address_0_l in Hpt.
    rewrite Hpt. cbn [mbind option_bind].
    rewrite mem_get_insert_ne by (unfold PAGE_COUNT, PAGE_SIZE in *; lia).
    rewrite He. cbn [mbind option_bind].
    destruct (Z.eqb_spec e 0) as [?|_]; [lia|]. fold phys_addr.
    rewrite mem_get_insert_eq
      by (unfold PAGE_COUNT, PAGE_SIZE, MEM_SIZE in *; done || lia).
    cbn [mbind option_bind]. by rewrite Z.mod_small.
Qed.
End IntendedRuns.

(** X23. The intended use is memory safe.  A run from the initial memory
    that creates and prints processes (directory bytes in page 0, page
    counts not negative and small enough for the array to fit the stack,
    [page_count ≤ STACK_INTS]) and stores and loads bytes inside the 64
    virtual pages of processes that have a page table at that moment, and
    kills none, runs to its end: no access leaves the array.  In the memory it
    reaches, page 0 is marked used, every page table is a used page whose
    nonzero entries name used pages that are nobody's page table, and
    every free page is blank. *)
Theorem intended_runs_defined cs :
  intended_run initialize_mem cs → Forall fits_stack cs →
  ∃ m out, main cs = Some (m, out) ∧ separated m.
Proof.
  intros Hrun Hfit. apply separated_exec_all; [|done..].
  apply separated_initialize_mem.
Qed.

Lemma intended_runs_defined_witness :
  intended_run initialize_mem
    [Np 1 2; Sb 1 300 9; Lb 1 300; Np 2 1; Sb 2 0 200; Ppt 2; Pfm] ∧
  Forall fits_stack
    [Np 1 2; Sb 1 300 9; Lb 1 300; Np 2 1; Sb 2 0 200; Ppt 2; Pfm] ∧
  ∃ m out,
    main [Np 1 2; Sb 1 300 9; Lb 1 300; Np 2 1; Sb 2 0 200; Ppt 2; Pfm]
      = Some (m, out) ∧ separated m.
Proof.
  assert (intended_run initialize_mem
            [Np 1 2; Sb 1 300 9; Lb 1 300; Np 2 1; Sb 2 0 200; Ppt 2; Pfm])
    as Hrun.
  { vm_compute. repeat split; discriminate. }
  assert (Forall fits_stack
            [Np 1 2; Sb 1 300 9; Lb 1 300; Np 2 1; Sb 2 0 200; Ppt 2; Pfm])
    as Hfit.
  { repeat (apply Forall_cons; split; [by vm_compute|]). by apply Forall_nil. }
  split; [done|]. split; [done|]. by apply intended_runs_defined.
Defined.

(** X24. In the intended use every store is read back.  In every memory
    such a run reaches, for a process that has a page table, an address
    inside its 64 virtual pages and a byte value, either [store_byte] and
    [load_byte] both print the fault and nothing changes, or [store_byte]
    prints the store line and the [load_byte] that follows prints the
    same physical address and the value stored: the store never hits the
    directory or a page table. *)
Theorem intended_round_trip cs m out proc_num vaddr val :
  intended_run initialize_mem cs → main cs = Some (m, out) →
  intended m (Sb proc_num vaddr val) → 0 ≤ val < 256 →
  (store_byte m proc_num vaddr val = Some (m, [Invalid_virtual_address]) ∧
   load_byte m proc_num vaddr = Some [Invalid_virtual_address]) ∨
  ∃ phys_addr m1,
    store_byte m proc_num vaddr val
      = Some (m1, [Store_line proc_num vaddr phys_addr val]) ∧
    load_byte m1 proc_num vaddr
      = Some [Load_line proc_num vaddr phys_addr val].
Proof.
  intros Hrun Hmain Hc Hval.
  apply separated_round_trip; [|done..].
  by apply (separated_exec_all_keeps cs initialize_mem m out
              separated_initialize_mem Hrun).
Qed.

Lemma intended_round_trip_witness :
  ∃ phys_addr m1,
    store_byte (mem_after [Np 1 2; Sb 1 300 9; Np 2 1]) 1 300 77
      = Some (m1, [Store_line 1 300 phys_addr 77]) ∧
    load_byte m1 1 300 = Some [Load_line 1 300 phys_addr 77].
Proof.
  assert (intended_run initialize_mem [Np 1 2; Sb 1 300 9; Np 2 1]) as Hrun.
  { vm_compute. repeat split; discriminate. }
  assert (main [Np 1 2; Sb 1 300 9; Np 2 1]
            = Some (mem_after [Np 1 2; Sb 1 300 9; Np 2 1],
                    [Store_line 1 300 812 9])) as Hmain by (by vm_compute).
  assert (intended (mem_after [Np 1 2; Sb 1 300 9; Np 2 1]) (Sb 1 300 77))
    as Hc.
  { vm_compute. repeat split; discriminate. }
  destruct (intended_round_trip _ _ _ 1 300 77 Hrun Hmain Hc)
    as [[Hfault _]|Hok]; [done| |done].
  by vm_compute in Hfault.
Defined.
